(** * LightWeightMQTTExample.c: a shallow embedding of the light-weight MQTT demo

    The demo task of
    [FreeRTOS-Plus/Demo/FreeRTOS-IoT-Libraries-LTS-Beta2/mqtt/mqtt_light_weight/DemoTasks/LightWeightMQTTExample.c]
    drives one MQTT session after the other over a FreeRTOS+TCP socket.  The
    file-scope variables of the C file become the fields of [State]; every
    function of the file becomes a computation in the monad [M], which threads
    that state and stops at a failed [configASSERT] or at an access outside an
    array.  What the C file calls but does not define (FreeRTOS+TCP, the kernel,
    the MQTT serializer, the retry utilities) is a parameter: the records
    [Sockets], [Kernel] and [MQTTLightweight].  Every call that reaches the
    outside world is recorded, in program order, in the [calls] of the state. *)

From Stdlib Require Import ZArith String Ascii Lia.
From stdpp Require Import base list.

Local Open Scope Z_scope.

(** ** C data *)

(** [Socket_t] is a pointer type; only its value matters here.  [(Socket_t) 0]
    is the null handle. *)
Definition Socket_t : Type := Z.

(** Conversion to [uint16_t].  Values of [size_t], [BaseType_t] and
    [uint32_t] are their mathematical values: the demo compares sizes with the
    size of the shared buffer before it converts or uses them, and its loop
    counters stay small. *)
Definition uint16 (z : Z) : Z := z mod 65536.

(** The characters of a string literal, without the terminating NUL. *)
Definition chars (s : string) : list Z :=
  map (fun a => Z.of_nat (nat_of_ascii a)) (list_ascii_of_string s).

(** [pdPASS] and [pdFAIL]. *)
Definition pdPASS : bool := true.
Definition pdFAIL : bool := false.

(** A pointer of the program: null, into [ucSharedBuffer] at an offset, or to
    a character array of its own (a string literal, NUL included). *)
Inductive pointer : Type :=
| NULL
| Buf (off : nat)
| Lit (s : list Z).

(** [p[i]] with the shared buffer holding [buf]; [None] when the access falls
    outside the object [p] points into. *)
Definition load (buf : list Z) (p : pointer) (i : nat) : option Z :=
  match p with
  | NULL => None
  | Buf off => buf !! (off + i)%nat
  | Lit s => s !! i
  end.

(** [p + n]. *)
Definition ptr_add (p : pointer) (n : nat) : pointer :=
  match p with
  | NULL => NULL
  | Buf off => Buf (off + n)
  | Lit s => Lit (drop n s)
  end.

Definition is_null (p : pointer) : bool :=
  match p with
  | NULL => true
  | _ => false
  end.

(** [strlen] of a character array: the index of its first NUL. *)
Fixpoint strlen (s : list Z) : nat :=
  match s with
  | [] => 0%nat
  | c :: s' => if c =? 0 then 0%nat else S (strlen s')
  end.

(** [strncmp( s1 + i, s2 + i, n )], reading through [rd1] and [rd2]: at most
    [n] characters are compared and the comparison stops behind a NUL. *)
Fixpoint strncmp_from (rd1 rd2 : nat -> option Z) (i n : nat) : option Z :=
  match n with
  | O => Some 0
  | S n' =>
      match rd1 i, rd2 i with
      | Some c1, Some c2 =>
          if c1 =? c2
          then (if c1 =? 0 then Some 0 else strncmp_from rd1 rd2 (S i) n')
          else Some (c1 - c2)
      | _, _ => None
      end
  end.

Definition strncmp (rd1 rd2 : nat -> option Z) (n : nat) : option Z :=
  strncmp_from rd1 rd2 0 n.

(** ** Types of the libraries the demo is written against

    Their headers ([mqtt_lightweight.h], [retry_utils.h], [FreeRTOS_Sockets.h])
    are not part of the demo file; the declarations below carry the names the
    demo uses. *)

(** Modelled from the spec: [MQTTStatus_t], the result of the MQTT encode and
    decode functions.  The demo names [MQTTSuccess], [MQTTServerRefused] and
    [MQTTNoDataAvailable]; the others stand for the error results. *)
Inductive MQTTStatus_t : Type :=
| MQTTSuccess
| MQTTBadParameter
| MQTTNoMemory
| MQTTSendFailed
| MQTTRecvFailed
| MQTTBadResponse
| MQTTServerRefused
| MQTTNoDataAvailable.

#[global] Instance MQTTStatus_eq_dec : EqDecision MQTTStatus_t.
Proof. solve_decision. Defined.

(** Modelled from the spec: [RetryUtilsStatus_t].  The back-off either
    slept and leaves attempts, or signals that the attempts are exhausted;
    the demo names both values. *)
Inductive RetryUtilsStatus_t : Type :=
| RetryUtilsSuccess
| RetryUtilsRetriesExhausted.

#[global] Instance RetryUtilsStatus_eq_dec : EqDecision RetryUtilsStatus_t.
Proof. solve_decision. Defined.

(** Modelled from the spec: the first byte of an MQTT 3.1.1 control packet
    for the packet types the demo names ([MQTT_PACKET_TYPE_*] of
    [mqtt_lightweight.h], which is not part of the demo file). *)
Definition MQTT_PACKET_TYPE_CONNACK : Z := 0x20.
Definition MQTT_PACKET_TYPE_PUBLISH : Z := 0x30.
Definition MQTT_PACKET_TYPE_PUBACK : Z := 0x40.
Definition MQTT_PACKET_TYPE_SUBACK : Z := 0x90.
Definition MQTT_PACKET_TYPE_UNSUBACK : Z := 0xB0.
Definition MQTT_PACKET_TYPE_PINGRESP : Z := 0xD0.

(** [MQTTQoS_t]. *)
Definition MQTTQoS0 : Z := 0.

Record MQTTPacketInfo_t : Type := mkPacketInfo {
  type : Z;
  pRemainingData : pointer;
  remainingLength : Z
}.

Record MQTTPublishInfo_t : Type := mkPublishInfo {
  qos : Z;
  retain : bool;
  pTopicName : pointer;
  topicNameLength : Z;
  pPayload : pointer;
  payloadLength : Z
}.

Record MQTTSubscribeInfo_t : Type := mkSubscribeInfo {
  sub_qos : Z;
  pTopicFilter : pointer;
  topicFilterLength : Z
}.

Record MQTTConnectInfo_t : Type := mkConnectInfo {
  cleanSession : bool;
  keepAliveSeconds : Z;
  pClientIdentifier : pointer;
  clientIdentifierLength : Z
}.

Record RetryUtilsParams_t : Type := mkRetryParams {
  maxRetryAttempts : Z;
  attemptsDone : Z;
  nextJitterMax : Z
}.

Record NetworkContext_t : Type := mkNetworkContext { xTcpSocket : Socket_t }.

(** What [MQTT_GetIncomingPacketTypeAndLength] does with the receive function
    it is handed: it asks for some bytes, looks at the result and the bytes,
    and either asks again or finishes with a status, a packet type and a
    remaining length.  The library reaches the transport through that function
    only. *)
Inductive Reader : Type :=
| ReadDone (status : MQTTStatus_t) (pktType : Z) (pktLength : Z)
| ReadMore (bytesToRecv : Z) (k : Z -> list Z -> Reader).

(** ** The demo's own types and constants *)

Record topicFilterContext_t : Type := mkTopicFilterContext {
  pcTopicFilter : pointer;
  xSubAckSuccess : bool
}.

Definition mqttexampleMESSAGE : list Z :=
  chars "Hello Light Weight MQTT World!" ++ [0].
Definition mqttexampleSHARED_BUFFER_SIZE : Z := 500.
Definition mqttexampleKEEP_ALIVE_TIMEOUT_SECONDS : Z := 10.
Definition mqttexampleMAX_SOCKET_SHUTDOWN_LOOPS : Z := 3.
Definition ulMaxPublishCount : nat := 5.

(** Configuration the demo takes from [demo_config.h], [retry_utils.h] and the
    kernel port. *)
Record Config : Type := mkConfig {
  democonfigCLIENT_IDENTIFIER : list Z;
  democonfigMQTT_BROKER_ENDPOINT : list Z;
  democonfigMQTT_BROKER_PORT : Z;
  MAX_RETRY_ATTEMPTS : Z;
  pdMS_TO_TICKS : Z -> Z;
  pdMS_TO_MIN_TICKS : Z -> Z
}.

(** [democonfigCLIENT_IDENTIFIER "/example/topic"]: adjacent literals are
    concatenated, then terminated. *)
Definition mqttexampleTOPIC (cfg : Config) : list Z :=
  democonfigCLIENT_IDENTIFIER cfg ++ chars "/example/topic" ++ [0].

Definition mqttexampleDELAY_BETWEEN_DEMO_ITERATIONS (cfg : Config) : Z :=
  pdMS_TO_TICKS cfg 5000.
Definition mqttexampleKEEP_ALIVE_DELAY (cfg : Config) : Z :=
  pdMS_TO_TICKS cfg ((mqttexampleKEEP_ALIVE_TIMEOUT_SECONDS / 4) * 1000).

(** ** The outside world *)

(** FreeRTOS+TCP.  [tcp_recv] gives the return value of [FreeRTOS_recv] and the
    bytes it put into the caller's buffer. *)
Record Sockets (World : Type) : Type := mkSockets {
  FREERTOS_INVALID_SOCKET : Socket_t;
  tcp_socket : World -> Socket_t * World;
  tcp_gethostbyname : list Z -> World -> Z * World;
  tcp_htons : Z -> Z;
  tcp_connect : Socket_t -> Z -> Z -> World -> Z * World;
  tcp_send : Socket_t -> list Z -> World -> Z * World;
  tcp_recv : Socket_t -> Z -> World -> (Z * list Z) * World;
  tcp_shutdown : Socket_t -> World -> World;
  tcp_closesocket : Socket_t -> World -> World
}.

(** The kernel and the retry utilities: delays, and the back-off that sleeps
    and reports whether attempts are left. *)
Record Kernel (World : Type) : Type := mkKernel {
  os_delay : Z -> World -> World;
  retry_ParamsReset : RetryUtilsParams_t -> RetryUtilsParams_t;
  retry_BackoffAndSleep :
    RetryUtilsParams_t -> World -> (RetryUtilsStatus_t * RetryUtilsParams_t) * World
}.

(** The MQTT serializer.  Size functions give status, remaining length and
    packet size; serializers give the status and the bytes they put at the
    start of the buffer; deserializers see the packet descriptor and the
    contents of the shared buffer its data pointer refers to. *)
Record MQTTLightweight : Type := mkMQTT {
  mqtt_GetConnectPacketSize : MQTTConnectInfo_t -> MQTTStatus_t * Z * Z;
  mqtt_SerializeConnect : MQTTConnectInfo_t -> Z -> MQTTStatus_t * list Z;
  mqtt_GetSubscribePacketSize : list MQTTSubscribeInfo_t -> MQTTStatus_t * Z * Z;
  mqtt_SerializeSubscribe :
    list MQTTSubscribeInfo_t -> Z -> Z -> MQTTStatus_t * list Z;
  mqtt_GetUnsubscribePacketSize : list MQTTSubscribeInfo_t -> MQTTStatus_t * Z * Z;
  mqtt_SerializeUnsubscribe :
    list MQTTSubscribeInfo_t -> Z -> Z -> MQTTStatus_t * list Z;
  mqtt_GetPublishPacketSize : MQTTPublishInfo_t -> MQTTStatus_t * Z * Z;
  mqtt_SerializePublishHeader :
    MQTTPublishInfo_t -> Z -> Z -> MQTTStatus_t * list Z * Z;
  mqtt_GetPingreqPacketSize : MQTTStatus_t * Z;
  mqtt_SerializePingreq : MQTTStatus_t * list Z;
  mqtt_GetDisconnectPacketSize : MQTTStatus_t * Z;
  mqtt_SerializeDisconnect : MQTTStatus_t * list Z;
  mqtt_GetIncomingPacketTypeAndLength : Reader;
  mqtt_DeserializeAck :
    MQTTPacketInfo_t -> list Z -> bool -> MQTTStatus_t * Z * bool;
  mqtt_DeserializePublish :
    MQTTPacketInfo_t -> list Z -> MQTTStatus_t * Z * MQTTPublishInfo_t
}.

(** Everything outside the demo file. *)
Record Platform (World : Type) : Type := mkPlatform {
  config : Config;
  sockets : Sockets World;
  kernel : Kernel World;
  mqttlib : MQTTLightweight
}.

(** Calls that leave the program, as recorded in the state. *)
Inductive Call : Type :=
| CallSocket
| CallGetHostByName (name : list Z)
| CallConnect (xSocket : Socket_t) (addr port : Z)
| CallSend (xSocket : Socket_t) (data : list Z)
| CallRecv (xSocket : Socket_t) (len : Z)
| CallShutdown (xSocket : Socket_t)
| CallClose (xSocket : Socket_t)
| CallDelay (ticks : Z)
| CallBackoff
| CallLog (text : string).

Definition is_send (c : Call) : bool :=
  match c with CallSend _ _ => true | _ => false end.
Definition is_recv (c : Call) : bool :=
  match c with CallRecv _ _ => true | _ => false end.

(** Number of [FreeRTOS_send] calls in a record of calls. *)
Fixpoint sends (l : list Call) : nat :=
  match l with
  | [] => 0%nat
  | c :: l' => ((if is_send c then 1 else 0) + sends l')%nat
  end.

(** Number of [FreeRTOS_recv] calls in a record of calls. *)
Fixpoint recvs (l : list Call) : nat :=
  match l with
  | [] => 0%nat
  | c :: l' => ((if is_recv c then 1 else 0) + recvs l')%nat
  end.

(** ** Program state and the monad of the demo's functions *)

Section Demo.

Variable World : Type.
Variable pf : Platform World.

Local Abbreviation cfg := (config World pf).
Local Abbreviation tcp := (sockets World pf).
Local Abbreviation rtos := (kernel World pf).
Local Abbreviation mqtt := (mqttlib World pf).

(** The file-scope variables of the C file, the [static] counter inside
    [prvGetNextPacketIdentifier], and the world outside with the record of the
    calls made to it.  [xTopicFilterContext] has [mqttexampleTOPIC_COUNT]
    entries. *)
Record State : Type := mkState {
  usPacketId : Z;
  usSubscribePacketIdentifier : Z;
  usUnsubscribePacketIdentifier : Z;
  xTopicFilterContext : list topicFilterContext_t;
  ucSharedBuffer : list Z;
  world : World;
  calls : list Call
}.

Definition set_usPacketId (v : Z) (s : State) : State :=
  mkState v (usSubscribePacketIdentifier s) (usUnsubscribePacketIdentifier s)
          (xTopicFilterContext s) (ucSharedBuffer s) (world s) (calls s).
Definition set_usSubscribePacketIdentifier (v : Z) (s : State) : State :=
  mkState (usPacketId s) v (usUnsubscribePacketIdentifier s)
          (xTopicFilterContext s) (ucSharedBuffer s) (world s) (calls s).
Definition set_usUnsubscribePacketIdentifier (v : Z) (s : State) : State :=
  mkState (usPacketId s) (usSubscribePacketIdentifier s) v
          (xTopicFilterContext s) (ucSharedBuffer s) (world s) (calls s).
Definition set_xTopicFilterContext (v : list topicFilterContext_t) (s : State) : State :=
  mkState (usPacketId s) (usSubscribePacketIdentifier s)
          (usUnsubscribePacketIdentifier s) v (ucSharedBuffer s) (world s) (calls s).
Definition set_ucSharedBuffer (v : list Z) (s : State) : State :=
  mkState (usPacketId s) (usSubscribePacketIdentifier s)
          (usUnsubscribePacketIdentifier s) (xTopicFilterContext s) v (world s) (calls s).
Definition set_world (v : World) (s : State) : State :=
  mkState (usPacketId s) (usSubscribePacketIdentifier s)
          (usUnsubscribePacketIdentifier s) (xTopicFilterContext s)
          (ucSharedBuffer s) v (calls s).
Definition record_call (c : Call) (s : State) : State :=
  mkState (usPacketId s) (usSubscribePacketIdentifier s)
          (usUnsubscribePacketIdentifier s) (xTopicFilterContext s)
          (ucSharedBuffer s) (world s) (calls s ++ [c]).

(** Why a function did not return: a [configASSERT] failed (the demo's only
    error handling: the task stops there), an array was accessed outside its
    bounds, or a loop of the model used up its fuel. *)
Inductive Reason : Type :=
| AssertFailed
| OutOfBounds
| OutOfFuel.

Inductive Outcome (A : Type) : Type :=
| Done (a : A) (s : State)
| Stop (r : Reason) (s : State).
Arguments Done {A} a s.
Arguments Stop {A} r s.

Definition M (A : Type) : Type := State -> Outcome A.

Definition ret {A} (a : A) : M A := fun s => Done a s.

Definition bind {A B} (m : M A) (k : A -> M B) : M B :=
  fun s => match m s with
           | Done a s' => k a s'
           | Stop r s' => Stop r s'
           end.

Definition stop {A} (r : Reason) : M A := fun s => Stop r s.

(** The state a computation ends in, however it ends. *)
Definition final {A} (o : Outcome A) : State :=
  match o with
  | Done _ s => s
  | Stop _ s => s
  end.

Definition succeeded {A} (o : Outcome A) : bool :=
  match o with
  | Done _ _ => true
  | Stop _ _ => false
  end.

Notation "x <- c1 ;; c2" := (bind c1 (fun x => c2))
  (at level 100, c1 at next level, right associativity, only parsing).
Notation "c1 ;;; c2" := (bind c1 (fun _ => c2))
  (at level 100, c2 at level 200, right associativity, only parsing).

Definition gets {A} (f : State -> A) : M A := fun s => Done (f s) s.
Definition modify (f : State -> State) : M unit := fun s => Done tt (f s).

(** [configASSERT( x )]. *)
Definition configASSERT (x : bool) : M unit :=
  if x then ret tt else stop AssertFailed.

(** A value that exists only if an array access was in bounds. *)
Definition in_bounds {A} (o : option A) : M A :=
  match o with
  | Some a => ret a
  | None => stop OutOfBounds
  end.

(** [for( i = from; i < from + n; i++ ) body( i )]. *)
Fixpoint for_from (from n : nat) (body : nat -> M unit) : M unit :=
  match n with
  | O => ret tt
  | S n' => body from ;;; for_from (S from) n' body
  end.

(** A call into the world: the call is recorded, then the world answers. *)
Definition extern {A} (c : Call) (f : World -> A * World) : M A :=
  fun s => Done (fst (f (world s))) (set_world (snd (f (world s))) (record_call c s)).

Definition extern_ (c : Call) (f : World -> World) : M unit :=
  extern c (fun w => (tt, f w)).

(** [LogInfo], [LogWarn], [LogError]: the format string is recorded. *)
Definition LogInfo (text : string) : M unit := modify (record_call (CallLog text)).
Definition LogWarn (text : string) : M unit := modify (record_call (CallLog text)).
Definition LogError (text : string) : M unit := modify (record_call (CallLog text)).

(** *** The library calls, as the demo makes them *)

Definition FreeRTOS_socket : M Socket_t :=
  extern CallSocket (tcp_socket _ tcp).
Definition FreeRTOS_gethostbyname (name : list Z) : M Z :=
  extern (CallGetHostByName name) (tcp_gethostbyname _ tcp name).
Definition FreeRTOS_connect (xSocket : Socket_t) (addr port : Z) : M Z :=
  extern (CallConnect xSocket addr port) (tcp_connect _ tcp xSocket addr port).
Definition FreeRTOS_send (xSocket : Socket_t) (data : list Z) : M Z :=
  extern (CallSend xSocket data) (tcp_send _ tcp xSocket data).
Definition FreeRTOS_recv (xSocket : Socket_t) (len : Z) : M (Z * list Z) :=
  extern (CallRecv xSocket len) (tcp_recv _ tcp xSocket len).
Definition FreeRTOS_shutdown (xSocket : Socket_t) : M unit :=
  extern_ (CallShutdown xSocket) (tcp_shutdown _ tcp xSocket).
Definition FreeRTOS_closesocket (xSocket : Socket_t) : M unit :=
  extern_ (CallClose xSocket) (tcp_closesocket _ tcp xSocket).
Definition vTaskDelay (ticks : Z) : M unit :=
  extern_ (CallDelay ticks) (os_delay _ rtos ticks).
Definition RetryUtils_BackoffAndSleep (p : RetryUtilsParams_t)
  : M (RetryUtilsStatus_t * RetryUtilsParams_t) :=
  extern CallBackoff (retry_BackoffAndSleep _ rtos p).

(** The shared buffer after [data] was written at its start: the buffer keeps
    its size. *)
Definition overwrite (data buf : list Z) : list Z :=
  take (length buf) (data ++ drop (length data) buf).

(** A serializer wrote [data] into [xBuffer]. *)
Definition write_xBuffer (data : list Z) : M unit :=
  modify (fun s => set_ucSharedBuffer (overwrite data (ucSharedBuffer s)) s).

(** The bytes a send of [n] bytes from [xBuffer.pBuffer] hands over. *)
Definition xBuffer_prefix (n : Z) : M (list Z) :=
  gets (fun s => take (Z.to_nat n) (ucSharedBuffer s)).

(** [FreeRTOS_recv( xSocket, xBuffer.pBuffer, len, 0 )]: what arrives goes to
    the start of the shared buffer, at most [len] bytes of it. *)
Definition recv_into_xBuffer (xSocket : Socket_t) (len : Z) : M Z :=
  r <- FreeRTOS_recv xSocket len ;;
  write_xBuffer (take (Z.to_nat len) (snd r)) ;;;
  ret (fst r).

(** [xTopicFilterContext[ i ]], and the assignment to its
    [xSubAckSuccess]. *)
Definition topic_filter (i : nat) : M topicFilterContext_t :=
  ctx <- gets xTopicFilterContext ;;
  in_bounds (ctx !! i).

Definition set_xSubAckSuccess (i : nat) (b : bool) : M unit :=
  e <- topic_filter i ;;
  modify (fun s => set_xTopicFilterContext
            (<[i := mkTopicFilterContext (pcTopicFilter e) b]> (xTopicFilterContext s)) s).

(** [mqttexampleTOPIC_COUNT], the dimension of [xTopicFilterContext].  The
    source fixes it at 1 and declares the array with its one entry; the state
    of the task is [initial_state 1], and what depends on the dimension is
    stated for a context of one entry. *)
Definition mqttexampleTOPIC_COUNT : M nat :=
  gets (fun s => length (xTopicFilterContext s)).

(** ** Packet identifiers *)

(** [prvGetNextPacketIdentifier]: the [static uint16_t usPacketId] is
    incremented, wraps as a [uint16_t] does, and skips 0. *)
Definition prvGetNextPacketIdentifier : M Z :=
  usPacketId0 <- gets usPacketId ;;
  let usPacketId1 := uint16 (usPacketId0 + 1) in
  let usPacketId2 := if usPacketId1 =? 0 then 1 else usPacketId1 in
  modify (set_usPacketId usPacketId2) ;;;
  ret usPacketId2.

(** The identifiers returned by [n] calls in a row. *)
Fixpoint issue (n : nat) (s : State) : list Z :=
  match n with
  | O => []
  | S n' =>
      match prvGetNextPacketIdentifier s with
      | Done id s' => id :: issue n' s'
      | Stop _ _ => []
      end
  end.

(** ** Transport *)

(** [prvTransportRecv]; a null context is [None], and fails the
    [configASSERT( pxContext != NULL )]. *)
Definition prvTransportRecv (pxContext : option NetworkContext_t) (xBytesToRecv : Z)
  : M (Z * list Z) :=
  match pxContext with
  | None => stop AssertFailed
  | Some ctx => FreeRTOS_recv (xTcpSocket ctx) xBytesToRecv
  end.

(** [MQTT_GetIncomingPacketTypeAndLength( readFunc, pNetworkContext,
    pIncomingPacket )]: the library's reader runs against [readFunc] and fills
    in the type and the remaining length of the packet. *)
Fixpoint run_reader (r : Reader)
    (readFunc : option NetworkContext_t -> Z -> M (Z * list Z))
    (pNetworkContext : option NetworkContext_t)
    (pIncomingPacket : MQTTPacketInfo_t) : M (MQTTStatus_t * MQTTPacketInfo_t) :=
  match r with
  | ReadDone status t len =>
      ret (status, mkPacketInfo t (pRemainingData pIncomingPacket) len)
  | ReadMore n k =>
      got <- readFunc pNetworkContext n ;;
      run_reader (k (fst got) (snd got)) readFunc pNetworkContext pIncomingPacket
  end.

Definition MQTT_GetIncomingPacketTypeAndLength :=
  run_reader (mqtt_GetIncomingPacketTypeAndLength mqtt).

(** [prvGracefulShutDown]: the [while] loop, with the count it keeps. *)
Fixpoint prvGracefulShutDown_loop (fuel : nat) (xSocket : Socket_t)
    (xShutdownLoopCount : Z) : M unit :=
  match fuel with
  | O => stop OutOfFuel
  | S fuel' =>
      got <- FreeRTOS_recv xSocket 20 ;;
      if fst got >=? 0 then
        vTaskDelay (pdMS_TO_MIN_TICKS cfg 250) ;;;
        let xShutdownLoopCount := xShutdownLoopCount + 1 in
        if xShutdownLoopCount >=? mqttexampleMAX_SOCKET_SHUTDOWN_LOOPS
        then ret tt
        else prvGracefulShutDown_loop fuel' xSocket xShutdownLoopCount
      else ret tt
  end.

Definition prvGracefulShutDown (xSocket : Socket_t) : M unit :=
  if negb (xSocket =? 0) then
    if negb (xSocket =? FREERTOS_INVALID_SOCKET _ tcp) then
      FreeRTOS_shutdown xSocket ;;;
      prvGracefulShutDown_loop (Z.to_nat mqttexampleMAX_SOCKET_SHUTDOWN_LOOPS) xSocket 0 ;;;
      FreeRTOS_closesocket xSocket
    else ret tt
  else ret tt.

(** ** Connecting *)

Definition prvCreateTCPConnectionToBroker : M Socket_t :=
  xMQTTSocket <- FreeRTOS_socket ;;
  xStatus <-
    (if negb (xMQTTSocket =? FREERTOS_INVALID_SOCKET _ tcp) then
       ulBrokerIPAddress <- FreeRTOS_gethostbyname (democonfigMQTT_BROKER_ENDPOINT cfg) ;;
       if negb (ulBrokerIPAddress =? 0) then
         r <- FreeRTOS_connect xMQTTSocket ulBrokerIPAddress
                (tcp_htons _ tcp (democonfigMQTT_BROKER_PORT cfg)) ;;
         if r =? 0 then ret pdPASS
         else
           LogInfo "Located but could not connect to MQTT broker %s.\r\n\r\n" ;;;
           ret pdFAIL
       else
         LogInfo "Could not locate MQTT broker %s.\r\n\r\n" ;;;
         ret pdFAIL
     else
       LogInfo "Could not create TCP socket.\r\n\r\n" ;;;
       ret pdFAIL) ;;
  if negb xStatus then
    if negb (xMQTTSocket =? FREERTOS_INVALID_SOCKET _ tcp) then
      FreeRTOS_closesocket xMQTTSocket ;;;
      ret (FREERTOS_INVALID_SOCKET _ tcp)
    else ret xMQTTSocket
  else ret xMQTTSocket.

(** [prvConnectToServerWithBackoffRetries]: the [do ... while] loop, with the
    locals it carries from one pass to the next. *)
Fixpoint prvConnectToServerWithBackoffRetries_loop (fuel : nat)
    (xRetryUtilsStatus : RetryUtilsStatus_t)
    (xReconnectParams : RetryUtilsParams_t) : M Socket_t :=
  match fuel with
  | O => stop OutOfFuel
  | S fuel' =>
      LogInfo "Create a TCP connection to %s:%d." ;;;
      xSocket <- prvCreateTCPConnectionToBroker ;;
      r <- (if xSocket =? FREERTOS_INVALID_SOCKET _ tcp then
              LogWarn "Connection to the broker failed. Retrying connection with backoff and jitter." ;;;
              RetryUtils_BackoffAndSleep xReconnectParams
            else ret (xRetryUtilsStatus, xReconnectParams)) ;;
      let xRetryUtilsStatus := fst r in
      let xReconnectParams := snd r in
      xSocket <- (if bool_decide (xRetryUtilsStatus = RetryUtilsRetriesExhausted) then
                    LogError "Connection to the broker failed, all attempts exhausted." ;;;
                    ret (FREERTOS_INVALID_SOCKET _ tcp)
                  else ret xSocket) ;;
      if (xSocket =? FREERTOS_INVALID_SOCKET _ tcp)
         && bool_decide (xRetryUtilsStatus = RetryUtilsSuccess)
      then prvConnectToServerWithBackoffRetries_loop fuel' xRetryUtilsStatus xReconnectParams
      else ret xSocket
  end.

(** The retry parameters of a new episode: reset, then capped at
    [MAX_RETRY_ATTEMPTS]. *)
Definition new_retry_params : RetryUtilsParams_t :=
  let p := retry_ParamsReset _ rtos (mkRetryParams 0 0 0) in
  mkRetryParams (MAX_RETRY_ATTEMPTS cfg) (attemptsDone p) (nextJitterMax p).

Definition prvConnectToServerWithBackoffRetries (fuel : nat) : M Socket_t :=
  prvConnectToServerWithBackoffRetries_loop fuel RetryUtilsSuccess new_retry_params.

Definition prvCreateMQTTConnectionWithBroker (xMQTTSocket : Socket_t) : M unit :=
  let xConnectInfo :=
    mkConnectInfo true mqttexampleKEEP_ALIVE_TIMEOUT_SECONDS
      (Lit (democonfigCLIENT_IDENTIFIER cfg ++ [0]))
      (uint16 (Z.of_nat (strlen (democonfigCLIENT_IDENTIFIER cfg ++ [0])))) in
  let '(xResult, xRemainingLength, xPacketSize) :=
    mqtt_GetConnectPacketSize mqtt xConnectInfo in
  configASSERT (bool_decide (xResult = MQTTSuccess)) ;;;
  configASSERT (xPacketSize <? mqttexampleSHARED_BUFFER_SIZE) ;;;
  let '(xResult, data) := mqtt_SerializeConnect mqtt xConnectInfo xRemainingLength in
  write_xBuffer data ;;;
  configASSERT (bool_decide (xResult = MQTTSuccess)) ;;;
  out <- xBuffer_prefix xPacketSize ;;
  xStatus <- FreeRTOS_send xMQTTSocket out ;;
  configASSERT (xStatus =? xPacketSize) ;;;
  let xIncomingPacket := mkPacketInfo 0 NULL 0 in
  let xNetworkContext := mkNetworkContext xMQTTSocket in
  hdr <- MQTT_GetIncomingPacketTypeAndLength prvTransportRecv
           (Some xNetworkContext) xIncomingPacket ;;
  let '(xResult, xIncomingPacket) := hdr in
  configASSERT (bool_decide (xResult = MQTTSuccess)) ;;;
  configASSERT (type xIncomingPacket =? MQTT_PACKET_TYPE_CONNACK) ;;;
  configASSERT (remainingLength xIncomingPacket <=? mqttexampleSHARED_BUFFER_SIZE) ;;;
  xStatus <- recv_into_xBuffer xMQTTSocket (remainingLength xIncomingPacket) ;;
  configASSERT (xStatus =? remainingLength xIncomingPacket) ;;;
  let xIncomingPacket :=
    mkPacketInfo (type xIncomingPacket) (Buf 0) (remainingLength xIncomingPacket) in
  buf <- gets ucSharedBuffer ;;
  let '(xResult, _, _) := mqtt_DeserializeAck mqtt xIncomingPacket buf true in
  configASSERT (bool_decide (xResult = MQTTSuccess)) ;;;
  if bool_decide (xResult <> MQTTSuccess)
  then LogInfo "Connection with MQTT broker failed.\r\n"
  else ret tt.

(** ** Subscribing *)

(** The [xMQTTSubscription] array of [n] entries: all zero but for the first,
    which names [mqttexampleTOPIC] at QoS 0. *)
Definition xMQTTSubscription (n : nat) : list MQTTSubscribeInfo_t :=
  <[0%nat := mkSubscribeInfo MQTTQoS0 (Lit (mqttexampleTOPIC cfg))
               (uint16 (Z.of_nat (strlen (mqttexampleTOPIC cfg))))]>
    (replicate n (mkSubscribeInfo 0 NULL 0)).

Definition prvMQTTSubscribeToTopic (xMQTTSocket : Socket_t) : M unit :=
  n <- mqttexampleTOPIC_COUNT ;;
  let '(xResult, xRemainingLength, xPacketSize) :=
    mqtt_GetSubscribePacketSize mqtt (xMQTTSubscription n) in
  configASSERT (bool_decide (xResult = MQTTSuccess)) ;;;
  configASSERT (xPacketSize <? mqttexampleSHARED_BUFFER_SIZE) ;;;
  id <- prvGetNextPacketIdentifier ;;
  modify (set_usSubscribePacketIdentifier id) ;;;
  configASSERT (negb (id =? 0)) ;;;
  let '(xResult, data) :=
    mqtt_SerializeSubscribe mqtt (xMQTTSubscription n) id xRemainingLength in
  write_xBuffer data ;;;
  configASSERT (bool_decide (xResult = MQTTSuccess)) ;;;
  out <- xBuffer_prefix xPacketSize ;;
  xStatus <- FreeRTOS_send xMQTTSocket out ;;
  configASSERT (xStatus =? xPacketSize).

(** The body of the [for] loop of [prvMQTTUpdateSubAckStatus]. *)
Definition record_status (pucPayload : pointer) (ulTopicCount : nat) : M unit :=
  buf <- gets ucSharedBuffer ;;
  status <- in_bounds (load buf pucPayload (ulTopicCount * 2)) ;;
  if negb (Z.land status 0x80 =? 0)
  then set_xSubAckSuccess ulTopicCount false
  else set_xSubAckSuccess ulTopicCount true.

(** [prvMQTTUpdateSubAckStatus]; the descriptor is passed by value, so that it
    is not null. *)
Definition prvMQTTUpdateSubAckStatus (pxPacketInfo : MQTTPacketInfo_t) : M unit :=
  configASSERT (type pxPacketInfo =? MQTT_PACKET_TYPE_SUBACK) ;;;
  configASSERT (negb (is_null (pRemainingData pxPacketInfo))) ;;;
  configASSERT (remainingLength pxPacketInfo >=? 3) ;;;
  let pucPayload := ptr_add (pRemainingData pxPacketInfo) 2 in
  let ulSize := remainingLength pxPacketInfo - 2 in
  for_from 0 (Z.to_nat ulSize) (record_status pucPayload).

(** ** Outgoing packets *)

Definition prvMQTTPublishToTopic (xMQTTSocket : Socket_t) : M unit :=
  let xMQTTPublishInfo :=
    mkPublishInfo MQTTQoS0 false
      (Lit (mqttexampleTOPIC cfg)) (uint16 (Z.of_nat (strlen (mqttexampleTOPIC cfg))))
      (Lit mqttexampleMESSAGE) (Z.of_nat (strlen mqttexampleMESSAGE)) in
  let '(xResult, xRemainingLength, xPacketSize) :=
    mqtt_GetPublishPacketSize mqtt xMQTTPublishInfo in
  configASSERT (bool_decide (xResult = MQTTSuccess)) ;;;
  configASSERT (xPacketSize <? mqttexampleSHARED_BUFFER_SIZE) ;;;
  let '(xResult, data, xHeaderSize) :=
    mqtt_SerializePublishHeader mqtt xMQTTPublishInfo 0 xRemainingLength in
  write_xBuffer data ;;;
  configASSERT (bool_decide (xResult = MQTTSuccess)) ;;;
  out <- xBuffer_prefix xHeaderSize ;;
  xStatus <- FreeRTOS_send xMQTTSocket out ;;
  configASSERT (xStatus =? xHeaderSize) ;;;
  xStatus <- FreeRTOS_send xMQTTSocket
               (take (Z.to_nat (payloadLength xMQTTPublishInfo)) mqttexampleMESSAGE) ;;
  configASSERT (xStatus =? payloadLength xMQTTPublishInfo).

Definition prvMQTTUnsubscribeFromTopic (xMQTTSocket : Socket_t) : M unit :=
  let '(xResult, xRemainingLength, xPacketSize) :=
    mqtt_GetUnsubscribePacketSize mqtt (xMQTTSubscription 1) in
  configASSERT (bool_decide (xResult = MQTTSuccess)) ;;;
  configASSERT (xPacketSize <? mqttexampleSHARED_BUFFER_SIZE) ;;;
  id <- prvGetNextPacketIdentifier ;;
  modify (set_usUnsubscribePacketIdentifier id) ;;;
  configASSERT (negb (id =? 0)) ;;;
  let '(xResult, data) :=
    mqtt_SerializeUnsubscribe mqtt (xMQTTSubscription 1) id xRemainingLength in
  write_xBuffer data ;;;
  configASSERT (bool_decide (xResult = MQTTSuccess)) ;;;
  out <- xBuffer_prefix xPacketSize ;;
  xStatus <- FreeRTOS_send xMQTTSocket out ;;
  configASSERT (xStatus =? xPacketSize).

Definition prvMQTTKeepAlive (xMQTTSocket : Socket_t) : M unit :=
  let '(xResult, xPacketSize) := mqtt_GetPingreqPacketSize mqtt in
  configASSERT (bool_decide (xResult = MQTTSuccess)) ;;;
  configASSERT (xPacketSize <=? mqttexampleSHARED_BUFFER_SIZE) ;;;
  let '(xResult, data) := mqtt_SerializePingreq mqtt in
  write_xBuffer data ;;;
  configASSERT (bool_decide (xResult = MQTTSuccess)) ;;;
  out <- xBuffer_prefix xPacketSize ;;
  xStatus <- FreeRTOS_send xMQTTSocket out ;;
  configASSERT (xStatus =? xPacketSize).

Definition prvMQTTDisconnect (xMQTTSocket : Socket_t) : M unit :=
  let '(xResult, xPacketSize) := mqtt_GetDisconnectPacketSize mqtt in
  configASSERT (bool_decide (xResult = MQTTSuccess)) ;;;
  configASSERT (xPacketSize <=? mqttexampleSHARED_BUFFER_SIZE) ;;;
  let '(xResult, data) := mqtt_SerializeDisconnect mqtt in
  write_xBuffer data ;;;
  configASSERT (bool_decide (xResult = MQTTSuccess)) ;;;
  out <- xBuffer_prefix xPacketSize ;;
  xStatus <- FreeRTOS_send xMQTTSocket out ;;
  configASSERT (xStatus =? xPacketSize).

(** ** Incoming packets *)

(** [prvMQTTProcessResponse]: the [switch] on the packet type. *)
Definition prvMQTTProcessResponse (pxIncomingPacket : MQTTPacketInfo_t)
    (usPacketId : Z) : M unit :=
  if type pxIncomingPacket =? MQTT_PACKET_TYPE_SUBACK then
    n <- mqttexampleTOPIC_COUNT ;;
    for_from 0 n (fun ulTopicCount =>
      e <- topic_filter ulTopicCount ;;
      if xSubAckSuccess e
      then LogInfo "Subscribed to the topic %s with maximum QoS %u.\r\n"
      else ret tt) ;;;
    expected <- gets usSubscribePacketIdentifier ;;
    configASSERT (expected =? usPacketId)
  else if type pxIncomingPacket =? MQTT_PACKET_TYPE_UNSUBACK then
    LogInfo "Unsubscribed from the topic %s.\r\n" ;;;
    expected <- gets usUnsubscribePacketIdentifier ;;
    configASSERT (expected =? usPacketId)
  else if type pxIncomingPacket =? MQTT_PACKET_TYPE_PINGRESP then
    LogInfo "Ping Response successfully received.\r\n"
  else
    LogWarn "prvMQTTProcessResponse() called with unknown packet type:(%02X).\r\n".

(** [prvMQTTProcessIncomingPublish]; the descriptor is passed by value, so
    that it is not null.  The second operand of [&&] is evaluated only when
    the lengths agree. *)
Definition prvMQTTProcessIncomingPublish (pxPublishInfo : MQTTPublishInfo_t) : M unit :=
  LogInfo "Incoming QoS : %d\n" ;;;
  buf <- gets ucSharedBuffer ;;
  same <-
    (if topicNameLength pxPublishInfo =? Z.of_nat (strlen (mqttexampleTOPIC cfg)) then
       c <- in_bounds (strncmp (load buf (Lit (mqttexampleTOPIC cfg)))
                               (load buf (pTopicName pxPublishInfo))
                               (Z.to_nat (topicNameLength pxPublishInfo))) ;;
       ret (0 =? c)
     else ret false) ;;
  if same : bool
  then LogInfo "\r\nIncoming Publish Topic Name: %.*s matches subscribed topic.\r\nIncoming Publish Message : %.*s\r\n"
  else LogInfo "Incoming Publish Topic Name: %.*s does not match subscribed topic.\r\n".

(** The first statements of [prvMQTTProcessIncomingPacket]: the packet
    descriptor is cleared and the library reads the type and the remaining
    length of the next packet through [prvTransportRecv]. *)
Definition receive_header (xMQTTSocket : Socket_t)
  : M (MQTTStatus_t * MQTTPacketInfo_t) :=
  let xIncomingPacket := mkPacketInfo 0 NULL 0 in
  let xNetworkContext := mkNetworkContext xMQTTSocket in
  MQTT_GetIncomingPacketTypeAndLength prvTransportRecv
    (Some xNetworkContext) xIncomingPacket.

(** The [if( xIncomingPacket.remainingLength > 0 )] of
    [prvMQTTProcessIncomingPacket]: the rest of the packet is received into
    the shared buffer and the descriptor is pointed at it. *)
Definition receive_body (xMQTTSocket : Socket_t) (xIncomingPacket : MQTTPacketInfo_t)
  : M MQTTPacketInfo_t :=
  if remainingLength xIncomingPacket >? 0 then
    xStatus <- recv_into_xBuffer xMQTTSocket (remainingLength xIncomingPacket) ;;
    configASSERT (xStatus =? remainingLength xIncomingPacket) ;;;
    ret (mkPacketInfo (type xIncomingPacket) (Buf 0)
                      (remainingLength xIncomingPacket))
  else ret xIncomingPacket.

(** The rest of [prvMQTTProcessIncomingPacket], from the test of the header
    status on. *)
Definition process_packet (xMQTTSocket : Socket_t) (xResult : MQTTStatus_t)
    (xIncomingPacket : MQTTPacketInfo_t) : M unit :=
  if bool_decide (xResult <> MQTTNoDataAvailable) then
    configASSERT (bool_decide (xResult = MQTTSuccess)) ;;;
    configASSERT (remainingLength xIncomingPacket <=? mqttexampleSHARED_BUFFER_SIZE) ;;;
    xIncomingPacket <- receive_body xMQTTSocket xIncomingPacket ;;
    buf <- gets ucSharedBuffer ;;
    if Z.land (type xIncomingPacket) 0xf0 =? MQTT_PACKET_TYPE_PUBLISH then
      let '(xResult, _, xPublishInfo) :=
        mqtt_DeserializePublish mqtt xIncomingPacket buf in
      configASSERT (bool_decide (xResult = MQTTSuccess)) ;;;
      prvMQTTProcessIncomingPublish xPublishInfo
    else
      let '(xResult, usPacketId, _) :=
        mqtt_DeserializeAck mqtt xIncomingPacket buf false in
      configASSERT (bool_decide (xResult = MQTTSuccess)) ;;;
      (if type xIncomingPacket =? MQTT_PACKET_TYPE_SUBACK then
         prvMQTTUpdateSubAckStatus xIncomingPacket ;;;
         configASSERT (bool_decide (xResult = MQTTSuccess)
                       || bool_decide (xResult = MQTTServerRefused))
       else configASSERT (bool_decide (xResult = MQTTSuccess))) ;;;
      prvMQTTProcessResponse xIncomingPacket usPacketId
  else ret tt.

Definition prvMQTTProcessIncomingPacket (xMQTTSocket : Socket_t) : M unit :=
  hdr <- receive_header xMQTTSocket ;;
  process_packet xMQTTSocket (fst hdr) (snd hdr).

(** ** Subscribing with retries *)

(** The [for] loop of [prvMQTTSubscribeWithBackoffRetries] that looks for a
    filter whose SUBACK status is still false; at the first one it sets
    [xFailedSubscribeToTopic], backs off and leaves the loop. *)
Fixpoint retry_if_rejected (ulTopicCount n : nat)
    (xFailedSubscribeToTopic : bool) (xRetryUtilsStatus : RetryUtilsStatus_t)
    (xRetryParams : RetryUtilsParams_t)
  : M (bool * RetryUtilsStatus_t * RetryUtilsParams_t) :=
  match n with
  | O => ret (xFailedSubscribeToTopic, xRetryUtilsStatus, xRetryParams)
  | S n' =>
      e <- topic_filter ulTopicCount ;;
      if negb (xSubAckSuccess e) then
        LogWarn "Server rejected subscription request. Attempting to re-subscribe to topic %s." ;;;
        r <- RetryUtils_BackoffAndSleep xRetryParams ;;
        ret (true, fst r, snd r)
      else retry_if_rejected (S ulTopicCount) n'
             xFailedSubscribeToTopic xRetryUtilsStatus xRetryParams
  end.

(** The [do ... while] loop, with the locals it carries from one pass to the
    next. *)
Fixpoint prvMQTTSubscribeWithBackoffRetries_loop (fuel : nat) (xMQTTSocket : Socket_t)
    (xFailedSubscribeToTopic : bool) (xRetryUtilsStatus : RetryUtilsStatus_t)
    (xRetryParams : RetryUtilsParams_t) : M unit :=
  match fuel with
  | O => stop OutOfFuel
  | S fuel' =>
      LogInfo "Attempt to subscribe to the MQTT topic %s.\r\n" ;;;
      prvMQTTSubscribeToTopic xMQTTSocket ;;;
      LogInfo "SUBSCRIBE sent for topic %s to broker.\n\n" ;;;
      prvMQTTProcessIncomingPacket xMQTTSocket ;;;
      n <- mqttexampleTOPIC_COUNT ;;
      r <- retry_if_rejected 0 n xFailedSubscribeToTopic xRetryUtilsStatus xRetryParams ;;
      let '(xFailedSubscribeToTopic, xRetryUtilsStatus, xRetryParams) := r in
      configASSERT (bool_decide (xRetryUtilsStatus <> RetryUtilsRetriesExhausted)) ;;;
      if xFailedSubscribeToTopic && bool_decide (xRetryUtilsStatus = RetryUtilsSuccess)
      then prvMQTTSubscribeWithBackoffRetries_loop fuel' xMQTTSocket
             xFailedSubscribeToTopic xRetryUtilsStatus xRetryParams
      else ret tt
  end.

Definition prvMQTTSubscribeWithBackoffRetries (fuel : nat) (xMQTTSocket : Socket_t)
  : M unit :=
  prvMQTTSubscribeWithBackoffRetries_loop fuel xMQTTSocket
    false RetryUtilsSuccess new_retry_params.

(** ** The demo task *)

(** One pass through the body of the [for( ; ; )] of [prvMQTTDemoTask].  The
    two retry loops get [fuel] passes each. *)
Definition prvMQTTDemoTask_iteration (fuel : nat) : M unit :=
  xMQTTSocket <- prvConnectToServerWithBackoffRetries fuel ;;
  configASSERT (negb (xMQTTSocket =? FREERTOS_INVALID_SOCKET _ tcp)) ;;;
  LogInfo "Creating an MQTT connection to %s.\r\n" ;;;
  prvCreateMQTTConnectionWithBroker xMQTTSocket ;;;
  prvMQTTSubscribeWithBackoffRetries fuel xMQTTSocket ;;;
  for_from 0 ulMaxPublishCount (fun ulPublishCount =>
    LogInfo "Publish to the MQTT topic %s.\r\n" ;;;
    prvMQTTPublishToTopic xMQTTSocket ;;;
    LogInfo "Attempt to receive publish message from broker.\r\n" ;;;
    prvMQTTProcessIncomingPacket xMQTTSocket ;;;
    LogInfo "Keeping Connection Idle.\r\n\r\n" ;;;
    vTaskDelay (mqttexampleKEEP_ALIVE_DELAY cfg) ;;;
    LogInfo "Sending Ping Request to the broker.\r\n" ;;;
    prvMQTTKeepAlive xMQTTSocket ;;;
    prvMQTTProcessIncomingPacket xMQTTSocket) ;;;
  LogInfo "Unsubscribe from the MQTT topic %s.\r\n" ;;;
  prvMQTTUnsubscribeFromTopic xMQTTSocket ;;;
  prvMQTTProcessIncomingPacket xMQTTSocket ;;;
  LogInfo "Disconnecting the MQTT connection with %s.\r\n" ;;;
  prvMQTTDisconnect xMQTTSocket ;;;
  prvGracefulShutDown xMQTTSocket ;;;
  n <- mqttexampleTOPIC_COUNT ;;
  for_from 0 n (fun ulTopicCount => set_xSubAckSuccess ulTopicCount false) ;;;
  LogInfo "prvMQTTDemoTask() completed an iteration successfully. Total free heap is %u.\r\n" ;;;
  LogInfo "Demo completed successfully.\r\n" ;;;
  LogInfo "Short delay before starting the next iteration.... \r\n\r\n" ;;;
  vTaskDelay (mqttexampleDELAY_BETWEEN_DEMO_ITERATIONS cfg).

(** The first [rounds] passes of the task's endless loop. *)
Fixpoint prvMQTTDemoTask (rounds fuel : nat) : M unit :=
  match rounds with
  | O => ret tt
  | S rounds' => prvMQTTDemoTask_iteration fuel ;;; prvMQTTDemoTask rounds' fuel
  end.

(** The state at the start of the task: the counter and the remembered
    identifiers are zero-initialised, [xTopicFilterContext] has [n] entries of
    which the first names [mqttexampleTOPIC], and no flag is set. *)
Definition initial_state (n : nat) (w : World) : State :=
  mkState 0 0 0
    (take n (mkTopicFilterContext (Lit (mqttexampleTOPIC cfg)) false
             :: replicate (n - 1) (mkTopicFilterContext NULL false)))
    (replicate (Z.to_nat mqttexampleSHARED_BUFFER_SIZE) 0)
    w [].

End Demo.

Arguments mkState {World} _ _ _ _ _ _ _.
Arguments usPacketId {World} _.
Arguments usSubscribePacketIdentifier {World} _.
Arguments usUnsubscribePacketIdentifier {World} _.
Arguments xTopicFilterContext {World} _.
Arguments ucSharedBuffer {World} _.
Arguments world {World} _.
Arguments calls {World} _.
Arguments set_usPacketId {World} _ _.
Arguments set_usSubscribePacketIdentifier {World} _ _.
Arguments set_usUnsubscribePacketIdentifier {World} _ _.
Arguments set_xTopicFilterContext {World} _ _.
Arguments set_ucSharedBuffer {World} _ _.
Arguments set_world {World} _ _.
Arguments record_call {World} _ _.
Arguments Done {World A} _ _.
Arguments Stop {World A} _ _.
Arguments ret {World A} _ _.
Arguments bind {World A B} _ _ _.
Arguments stop {World A} _ _.
Arguments final {World A} _.
Arguments succeeded {World A} _.
Arguments gets {World A} _ _.
Arguments modify {World} _ _.
Arguments configASSERT {World} _ _.
Arguments in_bounds {World A} _ _.
Arguments for_from {World} _ _ _ _.
Arguments extern {World A} _ _ _.
Arguments extern_ {World} _ _ _.
Arguments LogInfo {World} _ _.
Arguments LogWarn {World} _ _.
Arguments LogError {World} _ _.
Arguments FreeRTOS_socket {World} _ _.
Arguments FreeRTOS_gethostbyname {World} _ _ _.
Arguments FreeRTOS_connect {World} _ _ _ _ _.
Arguments FreeRTOS_send {World} _ _ _ _.
Arguments FreeRTOS_recv {World} _ _ _ _.
Arguments FreeRTOS_shutdown {World} _ _ _.
Arguments FreeRTOS_closesocket {World} _ _ _.
Arguments vTaskDelay {World} _ _ _.
Arguments RetryUtils_BackoffAndSleep {World} _ _ _.
Arguments write_xBuffer {World} _ _.
Arguments xBuffer_prefix {World} _ _.
Arguments recv_into_xBuffer {World} _ _ _ _.
Arguments topic_filter {World} _ _.
Arguments set_xSubAckSuccess {World} _ _ _.
Arguments mqttexampleTOPIC_COUNT {World} _.
Arguments prvGetNextPacketIdentifier {World} _.
Arguments issue {World} _ _.
Arguments prvTransportRecv {World} _ _ _ _.
Arguments run_reader {World} _ _ _ _ _.
Arguments MQTT_GetIncomingPacketTypeAndLength {World} _ _ _ _ _.
Arguments prvGracefulShutDown_loop {World} _ _ _ _ _.
Arguments prvGracefulShutDown {World} _ _ _.
Arguments prvCreateTCPConnectionToBroker {World} _ _.
Arguments prvConnectToServerWithBackoffRetries_loop {World} _ _ _ _ _.
Arguments new_retry_params {World} _.
Arguments prvConnectToServerWithBackoffRetries {World} _ _ _.
Arguments prvCreateMQTTConnectionWithBroker {World} _ _ _.
Arguments xMQTTSubscription {World} _ _.
Arguments prvMQTTSubscribeToTopic {World} _ _ _.
Arguments record_status {World} _ _ _.
Arguments prvMQTTUpdateSubAckStatus {World} _ _.
Arguments prvMQTTPublishToTopic {World} _ _ _.
Arguments prvMQTTUnsubscribeFromTopic {World} _ _ _.
Arguments prvMQTTKeepAlive {World} _ _ _.
Arguments prvMQTTDisconnect {World} _ _ _.
Arguments prvMQTTProcessResponse {World} _ _ _.
Arguments prvMQTTProcessIncomingPublish {World} _ _ _.
Arguments receive_header {World} _ _ _.
Arguments receive_body {World} _ _ _ _.
Arguments process_packet {World} _ _ _ _ _.
Arguments prvMQTTProcessIncomingPacket {World} _ _ _.
Arguments retry_if_rejected {World} _ _ _ _ _ _ _.
Arguments prvMQTTSubscribeWithBackoffRetries_loop {World} _ _ _ _ _ _ _.
Arguments prvMQTTSubscribeWithBackoffRetries {World} _ _ _ _.
Arguments prvMQTTDemoTask_iteration {World} _ _ _.
Arguments prvMQTTDemoTask {World} _ _ _ _.
Arguments initial_state {World} _ _ _.

(** ** A scripted broker

    A platform to run the demo on: the bytes the broker will send are queued
    in advance, sends always succeed, and the MQTT library is a small codec
    for the packets of the demo. *)

Module Scripted.

(** The network as the client sees it: the bytes of the current connection
    that are not read yet, whether the client has shut the socket down, and
    what the broker will send on the connections still to be made. *)
Record Wire : Type := mkWire {
  inbox : list Z;
  shut : bool;
  upcoming : list (list Z)
}.

Definition the_socket : Socket_t := 1.
Definition FREERTOS_EINVAL : Z := -22.

Definition recv (xSocket : Socket_t) (len : Z) (w : Wire) : (Z * list Z) * Wire :=
  match inbox w with
  | [] => ((if shut w then FREERTOS_EINVAL else 0, []), w)
  | _ =>
      let got := take (Z.to_nat len) (inbox w) in
      ((Z.of_nat (length got), got),
       mkWire (drop (Z.to_nat len) (inbox w)) (shut w) (upcoming w))
  end.

(** A connection succeeds as long as the broker has a script for it. *)
Definition connect (w : Wire) : Z * Wire :=
  match upcoming w with
  | [] => (-1, w)
  | script :: rest => (0, mkWire script false rest)
  end.

Definition tcp : Sockets Wire :=
  mkSockets Wire
    (2 ^ 32 - 1)
    (fun w => (the_socket, w))
    (fun _ w => (0x0A000001, w))
    (fun port => port)
    (fun _ _ _ w => connect w)
    (fun _ data w => (Z.of_nat (length data), w))
    recv
    (fun _ w => mkWire (inbox w) true (upcoming w))
    (fun _ w => mkWire [] false (upcoming w)).

(** Modelled from the spec: the retry utility keeps an attempt counter and a
    ceiling, and signals exhaustion once the ceiling is reached
    ([retry_utils.c] is not part of the demo file). *)
Definition BackoffAndSleep (p : RetryUtilsParams_t) (w : Wire)
  : (RetryUtilsStatus_t * RetryUtilsParams_t) * Wire :=
  if (attemptsDone p <? maxRetryAttempts p) || (maxRetryAttempts p =? 0)
  then ((RetryUtilsSuccess,
         mkRetryParams (maxRetryAttempts p) (attemptsDone p + 1) (nextJitterMax p)), w)
  else ((RetryUtilsRetriesExhausted,
         mkRetryParams (maxRetryAttempts p) 0 (nextJitterMax p)), w).

Definition rtos : Kernel Wire :=
  mkKernel Wire
    (fun _ w => w)
    (fun p => mkRetryParams (maxRetryAttempts p) 0 0)
    BackoffAndSleep.

Definition cfg : Config :=
  mkConfig (chars "testClient12:00:00") (chars "test.mosquitto.org") 1883 4
           (fun ms => ms) (fun ms => ms).

Definition hi (z : Z) : Z := (z / 256) mod 256.
Definition lo (z : Z) : Z := z mod 256.

(** The characters a pointer and a length denote (string literals only). *)
Definition text (p : pointer) (len : Z) : list Z :=
  match p with
  | Lit s => take (Z.to_nat len) s
  | _ => []
  end.

Definition filter_bytes (with_qos : bool) (f : MQTTSubscribeInfo_t) : list Z :=
  [hi (topicFilterLength f); lo (topicFilterLength f)]
  ++ text (pTopicFilter f) (topicFilterLength f)
  ++ (if with_qos then [sub_qos f] else []).

Definition filters_bytes (with_qos : bool) (l : list MQTTSubscribeInfo_t) : list Z :=
  concat (map (filter_bytes with_qos) l).

Definition connect_bytes (c : MQTTConnectInfo_t) : list Z :=
  [0; 4] ++ chars "MQTT" ++ [4; if cleanSession c then 2 else 0;
   hi (keepAliveSeconds c); lo (keepAliveSeconds c);
   hi (clientIdentifierLength c); lo (clientIdentifierLength c)]
  ++ text (pClientIdentifier c) (clientIdentifierLength c).

Definition sized (body : list Z) : MQTTStatus_t * Z * Z :=
  (MQTTSuccess, Z.of_nat (length body), Z.of_nat (length body) + 2).

(** Modelled from the spec: the reader of the fixed header of MQTT 3.1.1,
    one byte of type, then the remaining length, seven bits a byte; a receive
    of no byte at the start is [MQTTNoDataAvailable]. *)
Fixpoint read_length (fuel : nat) (t mult acc : Z) : Reader :=
  match fuel with
  | O => ReadDone MQTTBadResponse t 0
  | S fuel' =>
      ReadMore 1 (fun r got =>
        match got with
        | [b] =>
            if r =? 1 then
              let acc' := acc + Z.land b 127 * mult in
              if Z.land b 128 =? 0 then ReadDone MQTTSuccess t acc'
              else read_length fuel' t (mult * 128) acc'
            else ReadDone MQTTRecvFailed t 0
        | _ => ReadDone MQTTRecvFailed t 0
        end)
  end.

Definition read_header : Reader :=
  ReadMore 1 (fun r got =>
    if r =? 0 then ReadDone MQTTNoDataAvailable 0 0
    else match got with
         | [t] => if r =? 1 then read_length 4 t 1 0 else ReadDone MQTTRecvFailed 0 0
         | _ => ReadDone MQTTRecvFailed 0 0
         end).

Definition be16 (buf : list Z) (off : nat) : Z :=
  default 0 (buf !! off) * 256 + default 0 (buf !! S off).

(** Modelled from the spec: [MQTT_DeserializeAck], for the acknowledgements
    of MQTT 3.1.1.  A SUBACK that carries a refusal is reported as
    [MQTTServerRefused] when [strict] (what the comment in
    [prvMQTTProcessIncomingPacket] says of the library), as success
    otherwise. *)
Definition DeserializeAck (strict : bool) (p : MQTTPacketInfo_t) (buf : list Z)
    (wants_session : bool) : MQTTStatus_t * Z * bool :=
  if is_null (pRemainingData p) && negb (type p =? MQTT_PACKET_TYPE_PINGRESP)
  then (MQTTBadParameter, 0, false)
  else if type p =? MQTT_PACKET_TYPE_CONNACK then
    if negb wants_session then (MQTTBadParameter, 0, false)
    else if negb (remainingLength p =? 2) then (MQTTBadResponse, 0, false)
    else if default 1 (buf !! 1%nat) =? 0
         then (MQTTSuccess, 0, Z.odd (default 0 (buf !! 0%nat)))
         else (MQTTServerRefused, 0, false)
  else if type p =? MQTT_PACKET_TYPE_SUBACK then
    if remainingLength p <? 3 then (MQTTBadResponse, 0, false)
    else if strict
            && existsb (fun b => negb (Z.land b 0x80 =? 0))
                 (take (Z.to_nat (remainingLength p) - 2) (drop 2 buf))
         then (MQTTServerRefused, be16 buf 0, false)
         else (MQTTSuccess, be16 buf 0, false)
  else if type p =? MQTT_PACKET_TYPE_PINGRESP then
    if remainingLength p =? 0 then (MQTTSuccess, 0, false)
    else (MQTTBadResponse, 0, false)
  else if (type p =? MQTT_PACKET_TYPE_UNSUBACK) || (type p =? MQTT_PACKET_TYPE_PUBACK) then
    if remainingLength p =? 2 then (MQTTSuccess, be16 buf 0, false)
    else (MQTTBadResponse, 0, false)
  else (MQTTBadResponse, 0, false).

(** Modelled from the spec: [MQTT_DeserializePublish] at QoS 0, the topic
    name behind its two bytes of length, then the payload. *)
Definition DeserializePublish (p : MQTTPacketInfo_t) (buf : list Z)
  : MQTTStatus_t * Z * MQTTPublishInfo_t :=
  let tlen := be16 buf 0 in
  let info :=
    mkPublishInfo (Z.land (Z.shiftr (type p) 1) 3) (Z.odd (type p))
      (Buf 2) tlen (Buf (2 + Z.to_nat tlen)) (remainingLength p - 2 - tlen) in
  if is_null (pRemainingData p) || (remainingLength p <? 2 + tlen)
  then (MQTTBadResponse, 0, info)
  else (MQTTSuccess, 0, info).

Definition publish_header (i : MQTTPublishInfo_t) : list Z :=
  [hi (topicNameLength i); lo (topicNameLength i)]
  ++ text (pTopicName i) (topicNameLength i).

(** Modelled from the spec: the serializers and size functions, for the
    packets the demo sends (remaining lengths below 128). *)
Definition codec (strict : bool) : MQTTLightweight :=
  mkMQTT
    (fun c => sized (connect_bytes c))
    (fun c rem => (MQTTSuccess, [0x10; rem] ++ connect_bytes c))
    (fun l => sized ([0; 0] ++ filters_bytes true l))
    (fun l id rem => (MQTTSuccess, [0x82; rem; hi id; lo id] ++ filters_bytes true l))
    (fun l => sized ([0; 0] ++ filters_bytes false l))
    (fun l id rem => (MQTTSuccess, [0xA2; rem; hi id; lo id] ++ filters_bytes false l))
    (fun i => (MQTTSuccess,
               Z.of_nat (length (publish_header i)) + payloadLength i,
               Z.of_nat (length (publish_header i)) + payloadLength i + 2))
    (fun i id rem => (MQTTSuccess, [0x30; rem] ++ publish_header i,
                      Z.of_nat (length (publish_header i)) + 2))
    (MQTTSuccess, 2)
    (MQTTSuccess, [0xC0; 0])
    (MQTTSuccess, 2)
    (MQTTSuccess, [0xE0; 0])
    read_header
    (DeserializeAck strict)
    DeserializePublish.

Definition platform (strict : bool) : Platform Wire :=
  mkPlatform Wire cfg tcp rtos (codec strict).

(** Packets of the broker. *)
Definition CONNACK : list Z := [0x20; 2; 0; 0].
Definition SUBACK (id : Z) (codes : list Z) : list Z :=
  [0x90; 2 + Z.of_nat (length codes); hi id; lo id] ++ codes.
Definition UNSUBACK (id : Z) : list Z := [0xB0; 2; hi id; lo id].
Definition PINGRESP : list Z := [0xD0; 0].
Definition PUBLISH (topic payload : list Z) : list Z :=
  [0x30; 2 + Z.of_nat (length topic) + Z.of_nat (length payload);
   hi (Z.of_nat (length topic)); lo (Z.of_nat (length topic))] ++ topic ++ payload.

Definition topic : list Z := take (strlen (mqttexampleTOPIC cfg)) (mqttexampleTOPIC cfg).
Definition message : list Z := chars "Hello Light Weight MQTT World!".

(** The broker of a session without incident: CONNACK, the SUBACK that grants
    the subscription [sub], five rounds of echoed PUBLISH and PINGRESP, and
    the UNSUBACK for [unsub]. *)
Definition session (sub unsub : Z) : list Z :=
  CONNACK ++ SUBACK sub [0]
  ++ concat (replicate 5 (PUBLISH topic message ++ PINGRESP))
  ++ UNSUBACK unsub.

(** The task starts with no connection; [scripts] is what the broker sends
    on the connections to come. *)
Definition start (strict : bool) (n : nat) (scripts : list (list Z)) : State Wire :=
  initial_state (platform strict) n (mkWire [] false scripts).

(** A connection is up and the broker has [script] under way. *)
Definition connected (strict : bool) (n : nat) (script : list Z) : State Wire :=
  initial_state (platform strict) n (mkWire script false []).

(** The scenarios the properties are tried on. *)

(** The task before its first session, with one session scripted. *)
Definition before_session : State Wire := start true 1 [session 1 2].

(** Connected, with a subscription refused at first and granted on the
    second SUBSCRIBE. *)
Definition refused_then_granted (strict : bool) : State Wire :=
  connected strict 1 (SUBACK 1 [0x80] ++ SUBACK 2 [0x00]).

(** Connected, with a PINGRESP, an echoed PUBLISH, nothing, or a PUBACK
    under way. *)
Definition pingresp_arrives : State Wire := connected true 1 PINGRESP.
Definition publish_arrives : State Wire := connected true 1 (PUBLISH topic message).
Definition nothing_arrives : State Wire := connected true 1 [].
Definition puback_arrives : State Wire := connected true 1 [0x40; 2; 0; 1].



(** The task before its first session, with a broker that cannot be
    reached. *)
Definition no_broker : State Wire := start true 1 [].

(** Connected, the SUBSCRIBE with identifier 1 sent, and the SUBACK that
    grants it under way. *)
Definition suback_arrives : State Wire :=
  final (prvMQTTSubscribeToTopic (platform true) the_socket
           (connected true 1 (SUBACK 1 [0x00]))).

(** Connected, with a packet under way that ends behind its first byte. *)
Definition broken_header_arrives : State Wire := connected true 1 [0x90].
End Scripted.


(** ** Vocabulary of the properties *)

(** One pass of the loop of [prvMQTTSubscribeWithBackoffRetries] up to the
    inspection of the flags: a SUBSCRIBE is sent and one incoming packet is
    processed. *)
Definition subscribe_attempt {World : Type} (pf : Platform World)
    (xMQTTSocket : Socket_t) : M World unit :=
  bind (LogInfo "Attempt to subscribe to the MQTT topic %s.\r\n") (fun _ =>
  bind (prvMQTTSubscribeToTopic pf xMQTTSocket) (fun _ =>
  bind (LogInfo "SUBSCRIBE sent for topic %s to broker.\n\n") (fun _ =>
  prvMQTTProcessIncomingPacket pf xMQTTSocket))).

(** The two lines [prvMQTTProcessIncomingPublish] chooses between. *)
Definition topic_matches_line : string :=
  "\r\nIncoming Publish Topic Name: %.*s matches subscribed topic.\r\nIncoming Publish Message : %.*s\r\n".
Definition topic_differs_line : string :=
  "Incoming Publish Topic Name: %.*s does not match subscribed topic.\r\n".

(** The topic name of a received PUBLISH is, byte for byte, the configured
    topic: same length, same bytes. *)
Definition topic_is (cfg : Config) (buf : list Z) (info : MQTTPublishInfo_t) : Prop :=
  topicNameLength info = Z.of_nat (strlen (mqttexampleTOPIC cfg))
  /\ forall j, (j < strlen (mqttexampleTOPIC cfg))%nat ->
       load buf (pTopicName info) j = mqttexampleTOPIC cfg !! j.

(** The identifier that follows [v]. *)
Definition next_id (v : Z) : Z :=
  if uint16 (v + 1) =? 0 then 1 else uint16 (v + 1).

(** What is left of a SUBACK return code by the test of its top bit. *)
Definition granted (code : Z) : bool := Z.land code 0x80 =? 0.

Section Vocabulary.

Variable World : Type.

(** A computation keeps the view [f] of the state, however it ends. *)
Definition keeps {X A : Type} (f : State World -> X) (m : M World A) : Prop :=
  forall s, f (final (m s)) = f s.

(** Whatever a computation returns satisfies [P]. *)
Definition returns {A : Type} (m : M World A) (P : A -> Prop) : Prop :=
  forall s a s', m s = Done a s' -> P a.

(** An outcome with [g] applied to its state. *)
Definition with_state {A : Type} (g : State World -> State World)
    (o : Outcome World A) : Outcome World A :=
  match o with
  | Done a s => Done a (g s)
  | Stop r s => Stop r (g s)
  end.

(** A computation is unaware of the change [g] of the state: it does the
    same with and without it, and leaves it in place. *)
Definition unaware {A : Type} (g : State World -> State World) (m : M World A) : Prop :=
  forall s, m (g s) = with_state g (m s).

(** The state after the calls [l] were made and left the world as [w]. *)
Definition after_calls (l : list Call) (w : World) (s : State World) : State World :=
  mkState (usPacketId s) (usSubscribePacketIdentifier s)
          (usUnsubscribePacketIdentifier s) (xTopicFilterContext s)
          (ucSharedBuffer s) w (calls s ++ l).

(** Waiting for the peer to close, as the design describes it: receive is
    polled until it reports an error (a negative result) or [n] polls have
    been made, with a delay of [ticks] after every poll that reported none.
    The result is the calls made and the world they leave. *)
Fixpoint shutdown_polls (tcp : Sockets World) (rtos : Kernel World) (ticks : Z)
    (n : nat) (xSocket : Socket_t) (w : World) : list Call * World :=
  match n with
  | O => ([], w)
  | S n' =>
      let got := tcp_recv World tcp xSocket 20 w in
      if got.1.1 <? 0 then ([CallRecv xSocket 20], got.2)
      else
        let rest :=
          shutdown_polls tcp rtos ticks n' xSocket (os_delay World rtos ticks got.2) in
        (CallRecv xSocket 20 :: CallDelay ticks :: rest.1, rest.2)
  end.

(** The remembered identifiers replaced by [a] and [b]. *)
Definition set_remembered (a b : Z) (s : State World) : State World :=
  set_usSubscribePacketIdentifier a (set_usUnsubscribePacketIdentifier b s).

(** The topic filters of the context, without their flags. *)
Definition filters (s : State World) : list pointer :=
  pcTopicFilter <$> xTopicFilterContext s.

(** The flags of the topic filter context. *)
Definition flags (s : State World) : list bool :=
  xSubAckSuccess <$> xTopicFilterContext s.

(** What the demo keeps about a session outside the buffer and the world. *)
Definition session_state (s : State World) : Z * Z * Z * list topicFilterContext_t :=
  (usPacketId s, usSubscribePacketIdentifier s, usUnsubscribePacketIdentifier s,
   xTopicFilterContext s).

(** The variables of the program, the world and the record of calls left
    out. *)
Definition variables (s : State World) : Z * Z * Z * list topicFilterContext_t * list Z :=
  (session_state s, ucSharedBuffer s).

End Vocabulary.

Arguments keeps {World X A} _ _.
Arguments returns {World A} _ _.
Arguments with_state {World A} _ _.
Arguments unaware {World A} _ _.
Arguments after_calls {World} _ _ _.
Arguments shutdown_polls {World} _ _ _ _ _ _.
Arguments set_remembered {World} _ _ _.
Arguments filters {World} _.
Arguments flags {World} _.
Arguments session_state {World} _.
Arguments variables {World} _.

(** ** Vocabulary of the properties about the calls made *)

(** The sockets closed in a record of calls, in the order of the calls. *)
Fixpoint closed (l : list Call) : list Socket_t :=
  match l with
  | [] => []
  | CallClose xSocket :: l' => xSocket :: closed l'
  | _ :: l' => closed l'
  end.

(** Number of [FreeRTOS_socket] calls in a record of calls: the connection
    attempts. *)
Fixpoint attempts (l : list Call) : nat :=
  match l with
  | [] => 0%nat
  | CallSocket :: l' => S (attempts l')
  | _ :: l' => attempts l'
  end.

(** Number of [RetryUtils_BackoffAndSleep] calls in a record of calls. *)
Fixpoint backoffs (l : list Call) : nat :=
  match l with
  | [] => 0%nat
  | CallBackoff :: l' => S (backoffs l')
  | _ :: l' => backoffs l'
  end.

(** Every call a computation makes satisfies [p], however it ends. *)
Definition makes_only {World A : Type} (p : Call -> bool) (m : M World A) : Prop :=
  forall s, exists l, calls (final (m s)) = calls s ++ l /\ forallb p l = true.

(** A call that stays off the network, or is made on [xSocket]: a send, a
    receive, a shutdown or a close of that socket, a delay, a back-off or a
    line of log; not the creation, lookup or connection of a socket. *)
Definition on_socket (xSocket : Socket_t) (c : Call) : bool :=
  match c with
  | CallSend x _ | CallRecv x _ | CallShutdown x | CallClose x => x =? xSocket
  | CallSocket | CallGetHostByName _ | CallConnect _ _ _ => false
  | CallDelay _ | CallBackoff | CallLog _ => true
  end.

(** A receive on [xSocket] or a line of log. *)
Definition receives_or_logs (xSocket : Socket_t) (c : Call) : bool :=
  match c with
  | CallRecv x _ => x =? xSocket
  | CallLog _ => true
  | _ => false
  end.

(** What the dispatcher may do once the header of a packet is read: log,
    and receive the rest of the packet on [xSocket], which it does only when
    the header read succeeded and for a length that is positive and within the
    size of the shared buffer. *)
Definition body_read (xSocket : Socket_t) (xResult : MQTTStatus_t)
    (xIncomingPacket : MQTTPacketInfo_t) (c : Call) : bool :=
  match c with
  | CallRecv x n =>
      (x =? xSocket) && (n =? remainingLength xIncomingPacket)
      && bool_decide (xResult = MQTTSuccess)
      && (0 <? n) && (n <=? mqttexampleSHARED_BUFFER_SIZE)
  | CallLog _ => true
  | _ => false
  end.

(** A call that is not a send of more than [limit] bytes. *)
Definition fits (limit : Z) (c : Call) : bool :=
  match c with
  | CallSend _ data => Z.of_nat (length data) <=? limit
  | _ => true
  end.

(** * Properties *)

Section Facts.

Variable World : Type.
Variable pf : Platform World.

Local Abbreviation St := (State World).
Local Abbreviation Prog := (M World).

Lemma sends_app l l' : sends (l ++ l') = (sends l + sends l')%nat.
Proof. induction l as [|c l IH]; simpl; [reflexivity|rewrite IH; lia]. Qed.

Lemma sends_quiet c (s : St) :
  is_send c = false -> sends (calls (record_call c s)) = sends (calls s).
Proof.
  intros H. simpl. rewrite sends_app. destruct c; try discriminate H; simpl; lia.
Qed.

(** ** The monad *)

Lemma bind_Done {A B} (m : Prog A) (k : A -> Prog B) s b s' :
  bind m k s = Done b s' ->
  exists a s1, m s = Done a s1 /\ k a s1 = Done b s'.
Proof.
  unfold bind. destruct (m s) as [a s1|r s1]; [|discriminate].
  intros H. exists a, s1. split; [reflexivity|exact H].
Qed.

Lemma bind_eq_Done {A B} (m : Prog A) (k : A -> Prog B) s a s1 :
  m s = Done a s1 -> bind m k s = k a s1.
Proof. unfold bind. intros ->. reflexivity. Qed.

Lemma bind_eq_Stop {A B} (m : Prog A) (k : A -> Prog B) s r s1 :
  m s = Stop r s1 -> bind m k s = Stop r s1.
Proof. unfold bind. intros ->. reflexivity. Qed.

(** The body read does not touch the type and the length of the packet. *)
Lemma receive_body_type xSocket pkt :
  returns (receive_body pf xSocket pkt) (fun p => type p = type pkt).
Proof.
  intros s p s'. unfold receive_body.
  destruct (remainingLength pkt >? 0).
  - intros H. apply bind_Done in H as (x & s1 & _ & H).
    apply bind_Done in H as ([] & s2 & _ & H).
    inversion H. reflexivity.
  - intros H. inversion H. reflexivity.
Qed.

(** ** Views a computation keeps *)

Section Keeps.

Context {X : Type} (f : St -> X).

Lemma keeps_ret {A} (a : A) : keeps f (ret a : Prog A).
Proof. intros s. reflexivity. Qed.

Lemma keeps_stop {A} r : keeps f (stop r : Prog A).
Proof. intros s. reflexivity. Qed.

Lemma keeps_gets {A} (g : St -> A) : keeps f (gets g).
Proof. intros s. reflexivity. Qed.

Lemma keeps_bind {A B} (m : Prog A) (k : A -> Prog B) :
  keeps f m -> (forall a, keeps f (k a)) -> keeps f (bind m k).
Proof.
  intros Hm Hk s. unfold bind. specialize (Hm s).
  destruct (m s) as [a s1|r s1]; simpl in *.
  - rewrite Hk. exact Hm.
  - exact Hm.
Qed.

Lemma keeps_configASSERT b : keeps f (configASSERT b : Prog unit).
Proof. destruct b; intros s; reflexivity. Qed.

Lemma keeps_in_bounds {A} (o : option A) : keeps f (in_bounds o : Prog A).
Proof. destruct o; intros s; reflexivity. Qed.

Lemma keeps_modify (g : St -> St) :
  (forall s, f (g s) = f s) -> keeps f (modify g).
Proof. intros H s. simpl. apply H. Qed.

Lemma keeps_extern {A} c (g : World -> A * World) :
  (forall w s, f (set_world w (record_call c s)) = f s) -> keeps f (extern c g).
Proof. intros H s. simpl. apply H. Qed.

Lemma keeps_for_from from n (body : nat -> Prog unit) :
  (forall i, keeps f (body i)) -> keeps f (for_from from n body).
Proof.
  intros H. revert from. induction n as [|n IH]; intros from; simpl.
  - apply keeps_ret.
  - apply keeps_bind; [apply H|intros _; apply IH].
Qed.

Lemma keeps_bind_returns {A B} (m : Prog A) (k : A -> Prog B) (P : A -> Prop) :
  returns m P -> keeps f m -> (forall a, P a -> keeps f (k a)) -> keeps f (bind m k).
Proof.
  intros Hr Hm Hk s. unfold bind. specialize (Hm s). specialize (Hr s).
  destruct (m s) as [a s1|r s1]; simpl in *.
  - rewrite Hk; [exact Hm|]. eapply Hr. reflexivity.
  - exact Hm.
Qed.

Lemma keeps_Done {A} (m : Prog A) s a s' :
  keeps f m -> m s = Done a s' -> f s' = f s.
Proof. intros H E. specialize (H s). rewrite E in H. exact H. Qed.

End Keeps.

Create HintDb keeps.

(** Side conditions of the form [f (change s) = f s], from the assumptions
    about [f] at hand. *)
Ltac ignore_tac :=
  intros;
  repeat match goal with
         | H : _ |- _ => rewrite H by reflexivity
         end;
  reflexivity.

Ltac keeps_step :=
  lazymatch goal with
  | |- keeps _ (bind _ _) => apply keeps_bind; [|intros]
  | |- keeps _ (ret _) => apply keeps_ret
  | |- keeps _ (stop _) => apply keeps_stop
  | |- keeps _ (gets _) => apply keeps_gets
  | |- keeps _ (configASSERT _) => apply keeps_configASSERT
  | |- keeps _ (in_bounds _) => apply keeps_in_bounds
  | |- keeps _ (modify _) => apply keeps_modify; ignore_tac
  | |- keeps _ (extern _ _) => apply keeps_extern; ignore_tac
  | |- keeps _ (for_from _ _ _) => apply keeps_for_from; intros
  | |- keeps _ (if ?b then _ else _) => destruct b
  | |- keeps _ (match ?x with _ => _ end) => destruct x
  end.

Ltac keeps_tac := repeat first [solve [auto 2 with keeps] | keeps_step].

(** *** Views that ignore the world and the calls that are not sends *)

Section Quiet.

Context {X : Type} (f : St -> X).
Hypothesis f_world : forall w s, f (set_world w s) = f s.
Hypothesis f_quiet : forall c s, is_send c = false -> f (record_call c s) = f s.

Lemma keeps_LogInfo text : keeps f (LogInfo text : Prog unit).
Proof. unfold LogInfo. keeps_tac. Qed.

Lemma keeps_LogWarn text : keeps f (LogWarn text : Prog unit).
Proof. unfold LogWarn. keeps_tac. Qed.

Lemma keeps_LogError text : keeps f (LogError text : Prog unit).
Proof. unfold LogError. keeps_tac. Qed.

Lemma keeps_FreeRTOS_socket : keeps f (FreeRTOS_socket pf).
Proof. unfold FreeRTOS_socket. keeps_tac. Qed.

Lemma keeps_FreeRTOS_gethostbyname name : keeps f (FreeRTOS_gethostbyname pf name).
Proof. unfold FreeRTOS_gethostbyname. keeps_tac. Qed.

Lemma keeps_FreeRTOS_connect xSocket addr port :
  keeps f (FreeRTOS_connect pf xSocket addr port).
Proof. unfold FreeRTOS_connect. keeps_tac. Qed.

Lemma keeps_FreeRTOS_recv xSocket len : keeps f (FreeRTOS_recv pf xSocket len).
Proof. unfold FreeRTOS_recv. keeps_tac. Qed.

Lemma keeps_FreeRTOS_shutdown xSocket : keeps f (FreeRTOS_shutdown pf xSocket).
Proof. unfold FreeRTOS_shutdown, extern_. keeps_tac. Qed.

Lemma keeps_FreeRTOS_closesocket xSocket : keeps f (FreeRTOS_closesocket pf xSocket).
Proof. unfold FreeRTOS_closesocket, extern_. keeps_tac. Qed.

Lemma keeps_vTaskDelay ticks : keeps f (vTaskDelay pf ticks).
Proof. unfold vTaskDelay, extern_. keeps_tac. Qed.

Lemma keeps_RetryUtils_BackoffAndSleep p : keeps f (RetryUtils_BackoffAndSleep pf p).
Proof. unfold RetryUtils_BackoffAndSleep. keeps_tac. Qed.

Hint Resolve keeps_LogInfo keeps_LogWarn keeps_LogError keeps_FreeRTOS_socket
  keeps_FreeRTOS_gethostbyname keeps_FreeRTOS_connect keeps_FreeRTOS_recv
  keeps_FreeRTOS_shutdown keeps_FreeRTOS_closesocket keeps_vTaskDelay
  keeps_RetryUtils_BackoffAndSleep : keeps.

Lemma keeps_topic_filter i : keeps f (topic_filter i : Prog _).
Proof. unfold topic_filter. keeps_tac. Qed.

Lemma keeps_mqttexampleTOPIC_COUNT : keeps f (mqttexampleTOPIC_COUNT : Prog _).
Proof. unfold mqttexampleTOPIC_COUNT. keeps_tac. Qed.

Lemma keeps_prvTransportRecv ctx n : keeps f (prvTransportRecv pf ctx n).
Proof. unfold prvTransportRecv. keeps_tac. Qed.

Lemma keeps_run_reader r readFunc ctx pkt :
  (forall c n, keeps f (readFunc c n)) ->
  keeps f (run_reader r readFunc ctx pkt : Prog _).
Proof.
  intros Hread. induction r as [status t len|n k IH]; simpl.
  - apply keeps_ret.
  - apply keeps_bind; [apply Hread|intros got; apply IH].
Qed.

Lemma keeps_receive_header xSocket : keeps f (receive_header pf xSocket).
Proof.
  unfold receive_header, MQTT_GetIncomingPacketTypeAndLength.
  apply keeps_run_reader. apply keeps_prvTransportRecv.
Qed.

Hint Resolve keeps_topic_filter keeps_mqttexampleTOPIC_COUNT
  keeps_prvTransportRecv keeps_receive_header : keeps.

Lemma keeps_prvGracefulShutDown_loop fuel xSocket n :
  keeps f (prvGracefulShutDown_loop pf fuel xSocket n).
Proof.
  revert n. induction fuel as [|fuel IH]; intros n; simpl; keeps_tac.
Qed.

Hint Resolve keeps_prvGracefulShutDown_loop : keeps.

Lemma keeps_prvGracefulShutDown xSocket : keeps f (prvGracefulShutDown pf xSocket).
Proof. unfold prvGracefulShutDown. keeps_tac. Qed.

Lemma keeps_prvCreateTCPConnectionToBroker :
  keeps f (prvCreateTCPConnectionToBroker pf).
Proof. unfold prvCreateTCPConnectionToBroker. keeps_tac. Qed.

Hint Resolve keeps_prvCreateTCPConnectionToBroker : keeps.

Lemma keeps_prvConnectToServerWithBackoffRetries_loop fuel status p :
  keeps f (prvConnectToServerWithBackoffRetries_loop pf fuel status p).
Proof.
  revert status p. induction fuel as [|fuel IH]; intros status p; simpl; keeps_tac.
Qed.

Lemma keeps_prvConnectToServerWithBackoffRetries fuel :
  keeps f (prvConnectToServerWithBackoffRetries pf fuel).
Proof. apply keeps_prvConnectToServerWithBackoffRetries_loop. Qed.

Lemma keeps_prvMQTTProcessResponse pkt id :
  keeps f (prvMQTTProcessResponse pkt id : Prog unit).
Proof. unfold prvMQTTProcessResponse. keeps_tac. Qed.

Lemma keeps_prvMQTTProcessIncomingPublish info :
  keeps f (prvMQTTProcessIncomingPublish pf info).
Proof. unfold prvMQTTProcessIncomingPublish. keeps_tac. Qed.

Lemma keeps_retry_if_rejected i n failed status p :
  keeps f (retry_if_rejected pf i n failed status p).
Proof.
  revert i. induction n as [|n IH]; intros i; simpl; keeps_tac.
Qed.

Hint Resolve keeps_prvGracefulShutDown keeps_prvConnectToServerWithBackoffRetries
  keeps_prvMQTTProcessResponse keeps_prvMQTTProcessIncomingPublish
  keeps_retry_if_rejected : keeps.

(** *** Views that ignore the shared buffer as well *)

Section Buffer.

Hypothesis f_buffer : forall b s, f (set_ucSharedBuffer b s) = f s.

Lemma keeps_write_xBuffer data : keeps f (write_xBuffer data : Prog unit).
Proof. unfold write_xBuffer. keeps_tac. Qed.

Lemma keeps_xBuffer_prefix n : keeps f (xBuffer_prefix n : Prog _).
Proof. unfold xBuffer_prefix. keeps_tac. Qed.

Hint Resolve keeps_write_xBuffer keeps_xBuffer_prefix : keeps.

Lemma keeps_recv_into_xBuffer xSocket len : keeps f (recv_into_xBuffer pf xSocket len).
Proof. unfold recv_into_xBuffer. keeps_tac. Qed.

Hint Resolve keeps_recv_into_xBuffer : keeps.

Lemma keeps_receive_body xSocket pkt : keeps f (receive_body pf xSocket pkt).
Proof. unfold receive_body. keeps_tac. Qed.

Hint Resolve keeps_receive_body : keeps.

(** The dispatcher on a PUBLISH: nothing but the buffer, the world and the
    record of calls can change. *)
Lemma keeps_process_packet_publish xSocket xResult pkt :
  Z.land (type pkt) 0xf0 = MQTT_PACKET_TYPE_PUBLISH ->
  keeps f (process_packet pf xSocket xResult pkt).
Proof.
  intros Hpub. unfold process_packet.
  destruct (bool_decide (xResult <> MQTTNoDataAvailable)); [|apply keeps_ret].
  do 2 (apply keeps_bind; [apply keeps_configASSERT|intros _]).
  apply keeps_bind_returns with (P := fun p => type p = type pkt).
  - apply receive_body_type.
  - keeps_tac.
  - intros pkt' Ht. apply keeps_bind; [apply keeps_gets|intros buf].
    rewrite Ht, Hpub, Z.eqb_refl. keeps_tac.
Qed.

Hint Resolve keeps_process_packet_publish : keeps.

(** *** Views that ignore the topic filter context too: the dispatcher *)

Section Context.

Hypothesis f_context : forall x s, f (set_xTopicFilterContext x s) = f s.

Lemma keeps_set_xSubAckSuccess i b : keeps f (set_xSubAckSuccess i b : Prog unit).
Proof. unfold set_xSubAckSuccess. keeps_tac. Qed.

Hint Resolve keeps_set_xSubAckSuccess : keeps.

Lemma keeps_prvMQTTUpdateSubAckStatus pkt :
  keeps f (prvMQTTUpdateSubAckStatus pkt : Prog unit).
Proof. unfold prvMQTTUpdateSubAckStatus, record_status. keeps_tac. Qed.

Hint Resolve keeps_prvMQTTUpdateSubAckStatus : keeps.

Lemma keeps_process_packet xSocket xResult pkt :
  keeps f (process_packet pf xSocket xResult pkt).
Proof. unfold process_packet. keeps_tac. Qed.

Hint Resolve keeps_process_packet : keeps.

Lemma keeps_prvMQTTProcessIncomingPacket xSocket :
  keeps f (prvMQTTProcessIncomingPacket pf xSocket).
Proof. unfold prvMQTTProcessIncomingPacket. keeps_tac. Qed.

End Context.

(** *** Views that ignore every call: the functions that send *)

Section Sending.

Hypothesis f_calls : forall c s, f (record_call c s) = f s.

Lemma keeps_FreeRTOS_send xSocket data : keeps f (FreeRTOS_send pf xSocket data).
Proof. unfold FreeRTOS_send. keeps_tac. Qed.

Hint Resolve keeps_FreeRTOS_send : keeps.

Lemma keeps_prvMQTTPublishToTopic xSocket : keeps f (prvMQTTPublishToTopic pf xSocket).
Proof. unfold prvMQTTPublishToTopic. keeps_tac. Qed.

Lemma keeps_prvMQTTKeepAlive xSocket : keeps f (prvMQTTKeepAlive pf xSocket).
Proof. unfold prvMQTTKeepAlive. keeps_tac. Qed.

Lemma keeps_prvMQTTDisconnect xSocket : keeps f (prvMQTTDisconnect pf xSocket).
Proof. unfold prvMQTTDisconnect. keeps_tac. Qed.

Lemma keeps_prvCreateMQTTConnectionWithBroker xSocket :
  keeps f (prvCreateMQTTConnectionWithBroker pf xSocket).
Proof.
  unfold prvCreateMQTTConnectionWithBroker, MQTT_GetIncomingPacketTypeAndLength.
  keeps_tac.
  apply keeps_run_reader. intros. apply keeps_prvTransportRecv.
Qed.

(** Unsubscribing, for a view that also ignores the counter and the
    remembered unsubscribe identifier. *)
Lemma keeps_prvMQTTUnsubscribeFromTopic xSocket :
  (forall v s, f (set_usPacketId v s) = f s) ->
  (forall v s, f (set_usUnsubscribePacketIdentifier v s) = f s) ->
  keeps f (prvMQTTUnsubscribeFromTopic pf xSocket).
Proof.
  intros f_counter f_unsub.
  unfold prvMQTTUnsubscribeFromTopic, prvGetNextPacketIdentifier. keeps_tac.
Qed.

End Sending.

End Buffer.

End Quiet.

(** *** The views of the theorems below *)

(** The filters stay what they are when a flag is assigned. *)
Lemma keeps_filters_set_xSubAckSuccess i b :
  keeps filters (set_xSubAckSuccess i b : Prog unit).
Proof.
  intros s. unfold set_xSubAckSuccess, topic_filter, bind, gets, in_bounds.
  destruct (xTopicFilterContext s !! i) as [e|] eqn:E; simpl; [|reflexivity].
  unfold filters. simpl. rewrite list_fmap_insert. simpl.
  apply list_insert_id. rewrite list_lookup_fmap, E. reflexivity.
Qed.

Lemma keeps_filters_prvMQTTUpdateSubAckStatus pkt :
  keeps filters (prvMQTTUpdateSubAckStatus pkt : Prog unit).
Proof.
  unfold prvMQTTUpdateSubAckStatus, record_status.
  repeat first [apply keeps_filters_set_xSubAckSuccess | keeps_step].
Qed.

Lemma keeps_filters_prvMQTTProcessIncomingPacket xSocket :
  keeps filters (prvMQTTProcessIncomingPacket pf xSocket).
Proof.
  unfold prvMQTTProcessIncomingPacket, process_packet.
  repeat first [ apply keeps_filters_prvMQTTUpdateSubAckStatus
               | apply keeps_receive_body; intros; reflexivity
               | apply keeps_receive_header; intros; reflexivity
               | apply keeps_prvMQTTProcessIncomingPublish; intros; reflexivity
               | apply keeps_prvMQTTProcessResponse; intros; reflexivity
               | keeps_step].
Qed.

(** What is asked of a view, for the views that are projections of the state
    and for the number of sends. *)
Ltac view_tac :=
  intros;
  first [reflexivity | apply sends_quiet; assumption].

Ltac known L := apply L; view_tac.

Ltac keeps_known :=
  first
    [ known keeps_LogInfo | known keeps_LogWarn | known keeps_LogError
    | known keeps_vTaskDelay | known keeps_mqttexampleTOPIC_COUNT
    | known keeps_topic_filter
    | known keeps_receive_header
    | known keeps_prvGracefulShutDown
    | known keeps_prvConnectToServerWithBackoffRetries
    | known keeps_prvCreateMQTTConnectionWithBroker
    | known keeps_prvMQTTProcessResponse
    | known keeps_prvMQTTProcessIncomingPublish
    | known keeps_retry_if_rejected
    | known keeps_prvMQTTUpdateSubAckStatus
    | known keeps_set_xSubAckSuccess
    | known keeps_prvMQTTProcessIncomingPacket
    | known keeps_process_packet
    | known keeps_prvMQTTPublishToTopic | known keeps_prvMQTTKeepAlive
    | known keeps_prvMQTTDisconnect
    | known keeps_prvMQTTUnsubscribeFromTopic
    | apply keeps_filters_set_xSubAckSuccess
    | apply keeps_filters_prvMQTTProcessIncomingPacket ].

Ltac keeps_prog := repeat first [solve [keeps_known] | keeps_step].

(** From a successful run [H] of a computation, what it keeps of [f]. *)
Ltac kept f H :=
  lazymatch type of H with
  | ?m ?s = Done ?a ?s' =>
      let K := fresh "K" in
      assert (f s' = f s) as K
        by (apply (keeps_Done f m s a s'); [keeps_prog|exact H]);
      unfold filters in K; simpl in K
  end.

(** The same for every successful run among the hypotheses; [f] is a
    projection of the state. *)
Ltac kept_all f :=
  repeat match goal with
         | R : _ _ = Done _ _ |- _ => kept f R; revert R
         end;
  intros.

(** ** Running straight-line code *)

Lemma prvGetNextPacketIdentifier_eq (s : St) :
  prvGetNextPacketIdentifier s
  = Done (next_id (usPacketId s)) (set_usPacketId (next_id (usPacketId s)) s).
Proof. reflexivity. Qed.

(** Taking a successful run of a computation apart, one statement at a
    time. *)
Ltac run_in_steps H :=
  repeat match type of H with
         | bind _ _ _ = Done _ _ =>
             let x := fresh "x" in
             let s := fresh "s" in
             let H1 := fresh "R" in
             apply bind_Done in H as (x & s & H1 & H);
             run_in_steps H1
         | configASSERT ?b _ = Done _ _ =>
             let E := fresh "A" in
             destruct b eqn:E; [inversion H; subst; clear H|discriminate H]
         | ret _ _ = Done _ _ => inversion H; subst; clear H
         | gets _ _ = Done _ _ => inversion H; subst; clear H
         | modify _ _ = Done _ _ => inversion H; subst; clear H
         | stop _ _ = Done _ _ => discriminate H
         | prvGetNextPacketIdentifier _ = Done _ _ =>
             rewrite prvGetNextPacketIdentifier_eq in H;
             inversion H; subst; clear H
         | extern _ _ _ = Done _ _ => inversion H; subst; clear H
         | in_bounds ?o _ = Done _ _ =>
             let E := fresh "B" in
             destruct o eqn:E; [inversion H; subst; clear H|discriminate H]
         | LogInfo _ _ = Done _ _ => inversion H; subst; clear H
         | LogWarn _ _ = Done _ _ => inversion H; subst; clear H
         | LogError _ _ = Done _ _ => inversion H; subst; clear H
         | topic_filter _ _ = Done _ _ => unfold topic_filter in H
         | mqttexampleTOPIC_COUNT _ = Done _ _ => inversion H; subst; clear H
         | RetryUtils_BackoffAndSleep _ _ _ = Done _ _ => inversion H; subst; clear H
         | (let '(_, _) := ?p in _) _ = Done _ _ => destruct p
         | (if ?b then _ else _) _ = Done _ _ => destruct b eqn:?
         end.

Ltac run_in H :=
  run_in_steps H;
  repeat match goal with u : unit |- _ => destruct u end.

Lemma sends_send xSocket data (s : St) :
  sends (calls (record_call (CallSend xSocket data) s)) = S (sends (calls s)).
Proof. simpl. rewrite sends_app. simpl. lia. Qed.

(** A SUBSCRIBE that went out: one send, a new identifier, remembered. *)
Lemma prvMQTTSubscribeToTopic_Done xSocket s s' :
  prvMQTTSubscribeToTopic pf xSocket s = Done tt s' ->
  usPacketId s' = next_id (usPacketId s)
  /\ usSubscribePacketIdentifier s' = next_id (usPacketId s)
  /\ usUnsubscribePacketIdentifier s' = usUnsubscribePacketIdentifier s
  /\ xTopicFilterContext s' = xTopicFilterContext s
  /\ sends (calls s') = S (sends (calls s)).
Proof.
  unfold prvMQTTSubscribeToTopic, mqttexampleTOPIC_COUNT, write_xBuffer,
    xBuffer_prefix, FreeRTOS_send.
  intros H. run_in H.
  simpl. rewrite sends_app. simpl. repeat split; try reflexivity. lia.
Qed.

(** An UNSUBSCRIBE that went out: a new identifier, remembered. *)
Lemma prvMQTTUnsubscribeFromTopic_Done xSocket s s' :
  prvMQTTUnsubscribeFromTopic pf xSocket s = Done tt s' ->
  usPacketId s' = next_id (usPacketId s)
  /\ usUnsubscribePacketIdentifier s' = next_id (usPacketId s).
Proof.
  unfold prvMQTTUnsubscribeFromTopic, write_xBuffer, xBuffer_prefix, FreeRTOS_send.
  intros H. run_in H. simpl. split; reflexivity.
Qed.

(** ** Subscribing with retries *)

(** The inspection of the flags leaves [xFailedSubscribeToTopic] false only
    if it was false and every flag is set; nothing happens then. *)
Lemma retry_if_rejected_false i n failed status p s failed' status' p' s' :
  retry_if_rejected pf i n failed status p s = Done (failed', status', p') s' ->
  failed' = false ->
  failed = false /\ status' = status /\ s' = s
  /\ forall j e, (i <= j < i + n)%nat ->
       xTopicFilterContext s !! j = Some e -> xSubAckSuccess e = true.
Proof.
  revert i. induction n as [|n IH]; intros i H Hf; simpl in H.
  - inversion H; subst. repeat split; try reflexivity. intros; lia.
  - subst failed'. run_in H.
    apply IH in H as (-> & -> & -> & Hall); [|reflexivity].
    repeat split; try reflexivity.
    intros j e Hj Hlook. destruct (decide (j = i)) as [->|Hne].
    + rewrite Hlook in B. inversion B; subst.
      destruct (xSubAckSuccess x); [reflexivity|discriminate].
    + apply (Hall j e); [lia|exact Hlook].
Qed.

(** A return of the loop is a return of its first pass: once a pass has
    seen a flag unset, [xFailedSubscribeToTopic] stays true, and with it the
    loop condition, for the back-off status is [RetryUtilsSuccess] whenever the
    assertion behind it holds. *)
Lemma prvMQTTSubscribeWithBackoffRetries_loop_Done fuel xSocket failed status p s s' :
  prvMQTTSubscribeWithBackoffRetries_loop pf fuel xSocket failed status p s
    = Done tt s' ->
  failed = false
  /\ subscribe_attempt pf xSocket s = Done tt s'
  /\ Forall (fun e => xSubAckSuccess e = true) (xTopicFilterContext s').
Proof.
  revert failed status p s.
  induction fuel as [|fuel IH]; intros failed status p s H; simpl in H;
    [discriminate|].
  run_in H.
  - apply IH in H as (Hcontra & _). subst.
    match goal with E : false && _ = true |- _ => discriminate E end.
  - match goal with
    | R : retry_if_rejected _ _ _ _ _ _ _ = Done (?b, ?st, _) _,
      A : bool_decide (?st <> _) = true, E : ?b && _ = false |- _ =>
        assert (b = false) as ->
          by (destruct b; [destruct st; simpl in *; discriminate|reflexivity]);
        apply retry_if_rejected_false in R as (-> & _ & -> & Hall);
          [|reflexivity]
    end.
    split; [reflexivity|]. split.
    + unfold subscribe_attempt.
      match goal with
      | R : prvMQTTSubscribeToTopic _ _ _ = Done _ _,
        R' : prvMQTTProcessIncomingPacket _ _ _ = Done _ _ |- _ =>
          erewrite bind_eq_Done by reflexivity;
          rewrite (bind_eq_Done _ _ _ _ _ R);
          erewrite bind_eq_Done by reflexivity;
          repeat match goal with u : unit |- _ => destruct u end; exact R'
      end.
    + apply Forall_lookup_2. intros j e Hlook. apply (Hall j e); [|exact Hlook].
      apply lookup_lt_Some in Hlook. lia.
Qed.

Lemma subscribe_attempt_Done xSocket s s' :
  subscribe_attempt pf xSocket s = Done tt s' ->
  usPacketId s' = next_id (usPacketId s)
  /\ usSubscribePacketIdentifier s' = next_id (usPacketId s)
  /\ usUnsubscribePacketIdentifier s' = usUnsubscribePacketIdentifier s
  /\ filters s' = filters s
  /\ sends (calls s') = S (sends (calls s)).
Proof.
  unfold subscribe_attempt. intros H. run_in H.
  match goal with
  | R : prvMQTTSubscribeToTopic _ _ _ = Done _ _ |- _ =>
      apply prvMQTTSubscribeToTopic_Done in R as (Hc & Hs & Hu & Hx & Hn)
  end.
  kept (@usPacketId World) H.
  kept (@usSubscribePacketIdentifier World) H.
  kept (@usUnsubscribePacketIdentifier World) H.
  kept (fun s : St => sends (calls s)) H.
  pose proof (keeps_Done _ _ _ _ _ (keeps_filters_prvMQTTProcessIncomingPacket xSocket) H)
    as K3.
  rewrite sends_quiet in Hn by reflexivity.
  rewrite sends_app in K2.
  unfold filters in *. simpl in *.
  repeat split; try congruence. lia.
Qed.

Lemma prvMQTTSubscribeWithBackoffRetries_Done fuel xSocket s s' :
  prvMQTTSubscribeWithBackoffRetries pf fuel xSocket s = Done tt s' ->
  subscribe_attempt pf xSocket s = Done tt s'
  /\ Forall (fun e => xSubAckSuccess e = true) (xTopicFilterContext s').
Proof.
  intros H. apply prvMQTTSubscribeWithBackoffRetries_loop_Done in H as (_ & H).
  exact H.
Qed.

(** Whatever the platform, a return of [prvMQTTSubscribeWithBackoffRetries]
    comes after exactly one SUBSCRIBE, with every flag set by the one packet
    processed after it: there is no return after a second SUBSCRIBE. *)
Lemma prvMQTTSubscribeWithBackoffRetries_one_send fuel xSocket s s' :
  prvMQTTSubscribeWithBackoffRetries pf fuel xSocket s = Done tt s' ->
  sends (calls s') = S (sends (calls s))
  /\ usSubscribePacketIdentifier s' = next_id (usPacketId s)
  /\ Forall (fun e => xSubAckSuccess e = true) (xTopicFilterContext s').
Proof.
  intros H. apply prvMQTTSubscribeWithBackoffRetries_Done in H as (H & Hflags).
  apply subscribe_attempt_Done in H as (_ & Hs & _ & _ & Hn).
  repeat split; assumption.
Qed.

(** ** A session *)

(** The loop that resets the flags: it completes, and clears every flag it
    passes. *)
Lemma reset_loop n : forall i (s : St),
  (i + n <= length (xTopicFilterContext s))%nat ->
  exists s',
    for_from i n (fun ulTopicCount => set_xSubAckSuccess ulTopicCount false) s
      = Done tt s'
    /\ length (xTopicFilterContext s') = length (xTopicFilterContext s)
    /\ (forall j, (j < i)%nat ->
          xTopicFilterContext s' !! j = xTopicFilterContext s !! j)
    /\ (forall j e, (i <= j < i + n)%nat ->
          xTopicFilterContext s' !! j = Some e -> xSubAckSuccess e = false).
Proof.
  induction n as [|n IH]; intros i s Hlen; simpl.
  - exists s. repeat split; try reflexivity. intros; lia.
  - destruct (lookup_lt_is_Some_2 (xTopicFilterContext s) i) as [e He]; [lia|].
    unfold bind at 1. unfold set_xSubAckSuccess at 1.
    unfold topic_filter, bind, gets, in_bounds. rewrite He. simpl.
    set (s1 := set_xTopicFilterContext _ s).
    destruct (IH (S i) s1) as (s' & Hrun & Hl & Hlow & Hhigh).
    { subst s1. simpl. rewrite length_insert. lia. }
    exists s'. split; [exact Hrun|]. subst s1. simpl in *.
    rewrite length_insert in Hl. split; [exact Hl|]. split.
    + intros j Hj. rewrite Hlow by lia. apply list_lookup_insert_ne. lia.
    + intros j e' Hj Hlook. destruct (decide (j = i)) as [->|Hne].
      * rewrite Hlow in Hlook by lia.
        rewrite list_lookup_insert_eq in Hlook by lia.
        inversion Hlook. reflexivity.
      * apply (Hhigh j e'); [lia|exact Hlook].
Qed.

(** What a completed pass of the task's loop leaves behind: the counter has
    moved on by the two identifiers of the pass, both of them are still
    remembered, and every flag is false. *)
Lemma prvMQTTDemoTask_iteration_Done fuel s s' :
  prvMQTTDemoTask_iteration pf fuel s = Done tt s' ->
  usPacketId s' = next_id (next_id (usPacketId s))
  /\ usSubscribePacketIdentifier s' = next_id (usPacketId s)
  /\ usUnsubscribePacketIdentifier s' = next_id (next_id (usPacketId s))
  /\ Forall (fun e => xSubAckSuccess e = false) (xTopicFilterContext s')
  /\ filters s' = filters s.
Proof.
  unfold prvMQTTDemoTask_iteration. intros H. run_in H.
  match goal with
  | R : prvMQTTSubscribeWithBackoffRetries _ _ _ _ = Done _ _ |- _ =>
      apply prvMQTTSubscribeWithBackoffRetries_Done in R as (R & _);
      apply subscribe_attempt_Done in R as (Hc1 & Hs1 & _ & Hf1 & _)
  end.
  match goal with
  | R : prvMQTTUnsubscribeFromTopic _ _ _ = Done _ _ |- _ =>
      kept (@usSubscribePacketIdentifier World) R; kept (@filters World) R;
      apply prvMQTTUnsubscribeFromTopic_Done in R as (Hc2 & Hu2)
  end.
  match goal with
  | R : for_from 0 (length (xTopicFilterContext ?s8)) _ ?s8 = Done _ ?s7 |- _ =>
      destruct (reset_loop (length (xTopicFilterContext s8)) 0 s8)
        as (s7' & Hr & Hl & _ & Hclear); [simpl; lia|];
      rewrite Hr in R; inversion R; subst s7'; clear R
  end.
  kept_all (@usPacketId World).
  kept_all (@usSubscribePacketIdentifier World).
  kept_all (@usUnsubscribePacketIdentifier World).
  kept_all (@xTopicFilterContext World).
  kept_all (@filters World).
  unfold filters in *. simpl in Hc1, Hs1, Hf1, Hc2, Hu2.
  split; [congruence|]. split; [congruence|]. split; [congruence|]. split.
  - apply Forall_lookup_2. intros j e Hlook.
    match goal with
    | K : xTopicFilterContext s' = _ |- _ => rewrite K in Hlook
    end.
    apply (Hclear j e); [|exact Hlook].
    apply lookup_lt_Some in Hlook. lia.
  - congruence.
Qed.

(** ** Packet identifiers *)

Lemma uint16_range z : 0 <= uint16 z <= 65535.
Proof. unfold uint16. pose proof (Z.mod_pos_bound z 65536). lia. Qed.

Lemma next_id_range v : 1 <= next_id v <= 65535.
Proof.
  unfold next_id. pose proof (uint16_range (v + 1)).
  destruct (uint16 (v + 1) =? 0) eqn:E; [lia|].
  apply Z.eqb_neq in E. lia.
Qed.

Lemma next_id_after v :
  1 <= v <= 65535 -> next_id v = if v =? 65535 then 1 else v + 1.
Proof.
  intros Hv. unfold next_id, uint16.
  destruct (v =? 65535) eqn:E.
  - apply Z.eqb_eq in E. subst. reflexivity.
  - apply Z.eqb_neq in E. rewrite Z.mod_small by lia.
    destruct (v + 1 =? 0) eqn:E0; [apply Z.eqb_eq in E0; lia|reflexivity].
Qed.

Lemma issue_S n (s : St) :
  issue (S n) s
  = next_id (usPacketId s) :: issue n (set_usPacketId (next_id (usPacketId s)) s).
Proof. reflexivity. Qed.

Lemma issue_length n : forall s : St, length (issue n s) = n.
Proof.
  induction n as [|n IH]; intros s; [reflexivity|].
  rewrite issue_S. simpl. rewrite IH. reflexivity.
Qed.

Lemma issue_in_range n : forall s : St,
  Forall (fun id => 1 <= id <= 65535) (issue n s).
Proof.
  induction n as [|n IH]; intros s; [constructor|].
  rewrite issue_S. constructor; [apply next_id_range|apply IH].
Qed.

Lemma issue_next n : forall (s : St) k prev id,
  issue n s !! k = Some prev -> issue n s !! S k = Some id -> id = next_id prev.
Proof.
  induction n as [|n IH]; intros s k prev id; [discriminate|].
  rewrite issue_S. destruct k as [|k]; simpl.
  - intros Hp Hi. inversion Hp; subst. destruct n as [|n]; [discriminate|].
    rewrite issue_S in Hi. simpl in Hi. inversion Hi. reflexivity.
  - apply IH.
Qed.

(** C4: the identifiers issued from the start of the task on are never 0,
    each is the successor of the one before, except that 1 follows 65535, the
    first is 1, and a session does not reset the counter: it comes out of a
    completed session two identifiers further than it went in. *)
Theorem packet_identifier_sequence (N n : nat) (w : World) :
  let ids := issue N (initial_state pf n w) in
  length ids = N
  /\ Forall (fun id => id <> 0) ids
  /\ (forall k prev id,
        ids !! k = Some prev -> ids !! S k = Some id ->
        id = if prev =? 65535 then 1 else prev + 1)
  /\ ((0 < N)%nat -> ids !! 0%nat = Some 1)
  /\ (forall fuel s s',
        prvMQTTDemoTask_iteration pf fuel s = Done tt s' ->
        usPacketId s' = next_id (next_id (usPacketId s)) /\ usPacketId s' <> 0).
Proof.
  intros ids. subst ids. split; [apply issue_length|]. split.
  { eapply Forall_impl; [apply issue_in_range|]. simpl. intros; lia. }
  split.
  { intros k prev id Hp Hi. rewrite (issue_next _ _ _ _ _ Hp Hi).
    apply next_id_after.
    pose proof (issue_in_range N (initial_state pf n w)) as Hall.
    rewrite Forall_lookup in Hall. apply (Hall k prev Hp). }
  split.
  { destruct N as [|N]; [lia|]. intros _. reflexivity. }
  intros fuel s s' H.
  apply prvMQTTDemoTask_iteration_Done in H as (Hc & _).
  split; [exact Hc|]. rewrite Hc.
  pose proof (next_id_range (next_id (usPacketId s))). lia.
Qed.

(** C3, as amended: a completed pass of the task's loop leaves every flag of
    the topic filter context false and the filters as they were, so the
    context is back at its initial value; the remembered subscribe and
    unsubscribe identifiers are not reset: they hold the two identifiers
    issued in the pass, the second of which is also the value of the
    counter. *)
Theorem session_iteration_leaves fuel s s' :
  prvMQTTDemoTask_iteration pf fuel s = Done tt s' ->
  Forall (fun e => xSubAckSuccess e = false) (xTopicFilterContext s')
  /\ filters s' = filters s
  /\ (Forall (fun e => xSubAckSuccess e = false) (xTopicFilterContext s) ->
      xTopicFilterContext s' = xTopicFilterContext s)
  /\ usSubscribePacketIdentifier s' = next_id (usPacketId s)
  /\ usUnsubscribePacketIdentifier s' = next_id (next_id (usPacketId s))
  /\ usPacketId s' = next_id (next_id (usPacketId s))
  /\ usSubscribePacketIdentifier s' <> 0
  /\ usUnsubscribePacketIdentifier s' <> 0.
Proof.
  intros H.
  apply prvMQTTDemoTask_iteration_Done in H as (Hc & Hs & Hu & Hflags & Hfilters).
  split; [exact Hflags|]. split; [exact Hfilters|]. split.
  { intros Hstart. apply list_eq. intros j.
    assert (pcTopicFilter <$> xTopicFilterContext s' !! j
            = pcTopicFilter <$> xTopicFilterContext s !! j) as Hj.
    { rewrite <- !list_lookup_fmap. unfold filters in Hfilters.
      rewrite Hfilters. reflexivity. }
    rewrite Forall_lookup in Hflags, Hstart.
    destruct (xTopicFilterContext s' !! j) as [[p b]|] eqn:E';
      destruct (xTopicFilterContext s !! j) as [[p0 b0]|] eqn:E;
      simpl in Hj; try discriminate; [|reflexivity].
    inversion Hj; subst.
    specialize (Hflags _ _ E'). specialize (Hstart _ _ E). simpl in *.
    subst. reflexivity. }
  split; [exact Hs|]. split; [exact Hu|]. split; [exact Hc|].
  rewrite Hs, Hu.
  pose proof (next_id_range (usPacketId s)).
  pose proof (next_id_range (next_id (usPacketId s))). lia.
Qed.

(** ** The dispatcher *)

Lemma prvMQTTProcessIncomingPacket_after_header xSocket s xResult pkt s1 :
  receive_header pf xSocket s = Done (xResult, pkt) s1 ->
  prvMQTTProcessIncomingPacket pf xSocket s = process_packet pf xSocket xResult pkt s1.
Proof.
  intros H. unfold prvMQTTProcessIncomingPacket.
  rewrite (bind_eq_Done _ _ _ _ _ H). reflexivity.
Qed.

(** C9: when the header read reports that no data is available, the
    dispatcher returns at once, in the state the header read left: nothing
    more is received, no variable of the program has changed since the call,
    and the outcome is a return, not a failed assertion. *)
Theorem no_data_is_not_an_error xSocket s pkt s1 :
  receive_header pf xSocket s = Done (MQTTNoDataAvailable, pkt) s1 ->
  prvMQTTProcessIncomingPacket pf xSocket s = Done tt s1
  /\ variables s1 = variables s.
Proof.
  intros H. split.
  - rewrite (prvMQTTProcessIncomingPacket_after_header _ _ _ _ _ H). reflexivity.
  - apply (keeps_Done variables _ _ _ _ (keeps_receive_header variables
             ltac:(reflexivity) ltac:(reflexivity) xSocket) H).
Qed.

(** C7: a PINGRESP with remaining length 0 goes from the header read to the
    acknowledgement decoder and, when the decoder accepts it, to the response
    handler, which logs the ping response; no call between the header read
    and the return is a receive. *)
Theorem pingresp_without_body_read xSocket s pkt s1 :
  receive_header pf xSocket s = Done (MQTTSuccess, pkt) s1 ->
  type pkt = MQTT_PACKET_TYPE_PINGRESP ->
  remainingLength pkt = 0 ->
  let decoded := mqtt_DeserializeAck (mqttlib World pf) pkt (ucSharedBuffer s1) false in
  prvMQTTProcessIncomingPacket pf xSocket s
  = (if bool_decide (decoded.1.1 = MQTTSuccess)
     then bind (prvMQTTProcessResponse pkt decoded.1.2) (fun _ => ret tt) s1
     else Stop AssertFailed s1)
  /\ prvMQTTProcessResponse pkt decoded.1.2 s1
     = Done tt (record_call (CallLog "Ping Response successfully received.\r\n") s1)
  /\ exists after,
       calls (final (prvMQTTProcessIncomingPacket pf xSocket s)) = calls s1 ++ after
       /\ Forall (fun c => is_recv c = false) after.
Proof.
  intros H Ht Hl decoded.
  assert (prvMQTTProcessResponse pkt decoded.1.2 s1
          = Done tt (record_call (CallLog "Ping Response successfully received.\r\n") s1))
    as Hresp.
  { unfold prvMQTTProcessResponse. rewrite Ht. reflexivity. }
  assert (prvMQTTProcessIncomingPacket pf xSocket s
          = (if bool_decide (decoded.1.1 = MQTTSuccess)
             then bind (prvMQTTProcessResponse pkt decoded.1.2) (fun _ => ret tt) s1
             else Stop AssertFailed s1)) as Hrun.
  { rewrite (prvMQTTProcessIncomingPacket_after_header _ _ _ _ _ H).
    subst decoded. clear H Hresp.
    destruct pkt as [t p l]. simpl in Ht, Hl. subst t l.
    unfold process_packet, receive_body, bind, gets. simpl.
    destruct (mqtt_DeserializeAck _ _ _ _) as [[xResult usPacketId] xSessionPresent].
    simpl. destruct (bool_decide (xResult = MQTTSuccess)); reflexivity. }
  split; [exact Hrun|]. split; [exact Hresp|].
  rewrite Hrun. destruct (bool_decide (decoded.1.1 = MQTTSuccess)).
  - unfold bind. rewrite Hresp. simpl.
    eexists. split; [reflexivity|]. repeat constructor.
  - exists []. simpl. rewrite app_nil_r. split; [reflexivity|constructor].
Qed.

(** ** SUBACK status bytes *)

Lemma set_xSubAckSuccess_eq i flag (s : St) e :
  xTopicFilterContext s !! i = Some e ->
  set_xSubAckSuccess i flag s
  = Done tt (set_xTopicFilterContext
               (<[i := mkTopicFilterContext (pcTopicFilter e) flag]>
                  (xTopicFilterContext s)) s).
Proof.
  intros He. unfold set_xSubAckSuccess, topic_filter, bind, gets, in_bounds.
  rewrite He. reflexivity.
Qed.

Lemma set_xSubAckSuccess_None i flag (s : St) :
  xTopicFilterContext s !! i = None ->
  set_xSubAckSuccess i flag s = Stop OutOfBounds s.
Proof.
  intros He. unfold set_xSubAckSuccess, topic_filter, bind, gets, in_bounds.
  rewrite He. reflexivity.
Qed.

(** One pass of the loop of [prvMQTTUpdateSubAckStatus]: the flag of filter
    [i] becomes what the byte at index [i * 2] of the payload grants. *)
Lemma record_status_eq p i (s : St) code e :
  load (ucSharedBuffer s) p (i * 2) = Some code ->
  xTopicFilterContext s !! i = Some e ->
  record_status p i s
  = Done tt (set_xTopicFilterContext
               (<[i := mkTopicFilterContext (pcTopicFilter e) (granted code)]>
                  (xTopicFilterContext s)) s).
Proof.
  intros Hload He. unfold record_status.
  rewrite (bind_eq_Done _ _ s (ucSharedBuffer s) s) by reflexivity.
  rewrite Hload.
  rewrite (bind_eq_Done _ _ s code s) by reflexivity.
  unfold granted.
  destruct (Z.land code 128 =? 0); simpl; apply set_xSubAckSuccess_eq; exact He.
Qed.

Lemma record_status_Done p i (s s' : St) :
  record_status p i s = Done tt s' ->
  exists code e,
    load (ucSharedBuffer s) p (i * 2) = Some code
    /\ xTopicFilterContext s !! i = Some e
    /\ s' = set_xTopicFilterContext
              (<[i := mkTopicFilterContext (pcTopicFilter e) (granted code)]>
                 (xTopicFilterContext s)) s.
Proof.
  intros H.
  destruct (load (ucSharedBuffer s) p (i * 2)) as [code|] eqn:Hload.
  - destruct (xTopicFilterContext s !! i) as [e|] eqn:He.
    + rewrite (record_status_eq _ _ _ _ _ Hload He) in H. inversion H.
      exists code, e. repeat split; reflexivity.
    + exfalso. revert H. unfold record_status.
      rewrite (bind_eq_Done _ _ s (ucSharedBuffer s) s) by reflexivity.
      rewrite Hload.
      rewrite (bind_eq_Done _ _ s code s) by reflexivity.
      destruct (negb _); rewrite set_xSubAckSuccess_None by exact He; discriminate.
  - exfalso. revert H. unfold record_status.
    rewrite (bind_eq_Done _ _ s (ucSharedBuffer s) s) by reflexivity.
    rewrite Hload. discriminate.
Qed.

(** The loop over the status bytes, when it completes: the flag of every
    filter [j] it passed is what the byte at index [2 * j] of the payload
    grants, the filters before are untouched, the buffer is unchanged. *)
Lemma status_loop p n : forall i (s s' : St),
  for_from i n (record_status p) s = Done tt s' ->
  ucSharedBuffer s' = ucSharedBuffer s
  /\ (forall j, (j < i)%nat -> xTopicFilterContext s' !! j = xTopicFilterContext s !! j)
  /\ (forall j, (i <= j < i + n)%nat ->
        exists code,
          load (ucSharedBuffer s) p (j * 2) = Some code
          /\ xSubAckSuccess <$> xTopicFilterContext s' !! j = Some (granted code)).
Proof.
  induction n as [|n IH]; intros i s s' H; simpl in H.
  - inversion H; subst. repeat split; try reflexivity. intros; lia.
  - apply bind_Done in H as ([] & s1 & Hstep & H).
    apply record_status_Done in Hstep as (code & e & Hload & He & ->).
    apply IH in H as (Hbuf & Hlow & Hhigh). simpl in *.
    split; [exact Hbuf|]. split.
    + intros j Hj. rewrite Hlow by lia. apply list_lookup_insert_ne. lia.
    + intros j Hj. destruct (decide (j = i)) as [->|Hne].
      * exists code. split; [exact Hload|].
        rewrite Hlow by lia. rewrite list_lookup_insert_eq; [reflexivity|].
        apply lookup_lt_Some in He. exact He.
      * apply Hhigh. lia.
Qed.

(** What [prvMQTTUpdateSubAckStatus] does when it returns: for every [j]
    below the number of status bytes, the flag of filter [j] is decided by the
    byte at offset [2 + 2 * j] of the packet data, not by status byte [j] at
    offset [2 + j]. *)
Lemma prvMQTTUpdateSubAckStatus_Done pkt (s s' : St) :
  prvMQTTUpdateSubAckStatus pkt s = Done tt s' ->
  3 <= remainingLength pkt
  /\ forall j, (Z.of_nat j < remainingLength pkt - 2) ->
       exists code,
         load (ucSharedBuffer s) (pRemainingData pkt) (2 + 2 * j) = Some code
         /\ flags s' !! j = Some (granted code).
Proof.
  unfold prvMQTTUpdateSubAckStatus. intros H. run_in H.
  apply status_loop in H as (_ & _ & Hhigh).
  split; [lia|]. intros j Hj.
  destruct (Hhigh j) as (code & Hload & Hflag); [lia|].
  exists code. split.
  - rewrite <- Hload. destruct (pRemainingData pkt); simpl; try reflexivity.
    + f_equal. lia.
    + rewrite lookup_drop. f_equal. lia.
  - unfold flags. rewrite list_lookup_fmap. exact Hflag.
Qed.




(** ** Responses *)

(** The loop of the SUBACK case that logs the granted filters completes and
    changes no variable. *)
Lemma granted_log_loop n : forall i (s : St),
  (i + n <= length (xTopicFilterContext s))%nat ->
  exists l,
    for_from i n (fun ulTopicCount =>
      bind (topic_filter ulTopicCount) (fun e =>
        if xSubAckSuccess e
        then LogInfo "Subscribed to the topic %s with maximum QoS %u.\r\n"
        else ret tt)) s
    = Done tt (after_calls l (world s) s).
Proof.
  induction n as [|n IH]; intros i s Hlen; simpl.
  - exists []. unfold after_calls. rewrite app_nil_r. destruct s; reflexivity.
  - destruct (lookup_lt_is_Some_2 (xTopicFilterContext s) i) as [e He]; [lia|].
    assert (topic_filter i s = Done e s) as Hread.
    { unfold topic_filter, bind, gets, in_bounds. rewrite He. reflexivity. }
    destruct (xSubAckSuccess e) eqn:Hflag.
    + destruct (IH (S i) (record_call
                  (CallLog "Subscribed to the topic %s with maximum QoS %u.\r\n") s))
        as (l & Hl); [simpl; lia|].
      erewrite bind_eq_Done.
      2:{ rewrite (bind_eq_Done _ _ _ _ _ Hread), Hflag. reflexivity. }
      rewrite Hl. eexists. unfold after_calls. simpl. rewrite <- app_assoc.
      reflexivity.
    + destruct (IH (S i) s) as (l & Hl); [lia|].
      erewrite bind_eq_Done.
      2:{ rewrite (bind_eq_Done _ _ _ _ _ Hread), Hflag. reflexivity. }
      rewrite Hl. exists l. reflexivity.
Qed.

(** C5, as amended: in the response handler a SUBACK returns exactly when
    its identifier is the remembered subscribe identifier, an UNSUBACK exactly
    when it is the remembered unsubscribe identifier, and fails an assertion
    otherwise; a PINGRESP returns whatever the identifier; any other packet
    type is logged as a warning and the handler returns: it is not fatal
    there. *)
Theorem response_handling (pkt : MQTTPacketInfo_t) (id : Z) (s : St) :
  (type pkt = MQTT_PACKET_TYPE_SUBACK ->
     succeeded (prvMQTTProcessResponse pkt id s)
     = (usSubscribePacketIdentifier s =? id))
  /\ (type pkt = MQTT_PACKET_TYPE_UNSUBACK ->
     succeeded (prvMQTTProcessResponse pkt id s)
     = (usUnsubscribePacketIdentifier s =? id))
  /\ (type pkt = MQTT_PACKET_TYPE_PINGRESP ->
     prvMQTTProcessResponse pkt id s
     = Done tt (record_call (CallLog "Ping Response successfully received.\r\n") s))
  /\ (type pkt <> MQTT_PACKET_TYPE_SUBACK ->
     type pkt <> MQTT_PACKET_TYPE_UNSUBACK ->
     type pkt <> MQTT_PACKET_TYPE_PINGRESP ->
     prvMQTTProcessResponse pkt id s
     = Done tt (record_call
         (CallLog "prvMQTTProcessResponse() called with unknown packet type:(%02X).\r\n") s))
  /\ (succeeded (prvMQTTProcessResponse pkt id s) = false ->
     exists s', prvMQTTProcessResponse pkt id s = Stop AssertFailed s').
Proof.
  assert (type pkt = MQTT_PACKET_TYPE_SUBACK ->
          exists l, prvMQTTProcessResponse pkt id s
            = configASSERT (usSubscribePacketIdentifier s =? id)
                (after_calls l (world s) s)) as Hsub.
  { intros Ht. unfold prvMQTTProcessResponse. rewrite Ht. simpl.
    unfold bind at 1. unfold mqttexampleTOPIC_COUNT, gets at 1.
    destruct (granted_log_loop (length (xTopicFilterContext s)) 0 s) as (l & Hl);
      [simpl; lia|].
    unfold bind at 1. rewrite Hl. exists l. reflexivity. }
  assert (type pkt = MQTT_PACKET_TYPE_UNSUBACK ->
          prvMQTTProcessResponse pkt id s
            = configASSERT (usUnsubscribePacketIdentifier s =? id)
                (record_call (CallLog "Unsubscribed from the topic %s.\r\n") s)) as Hunsub.
  { intros Ht. unfold prvMQTTProcessResponse. rewrite Ht. reflexivity. }
  assert (type pkt = MQTT_PACKET_TYPE_PINGRESP ->
          prvMQTTProcessResponse pkt id s
          = Done tt (record_call (CallLog "Ping Response successfully received.\r\n") s))
    as Hping.
  { intros Ht. unfold prvMQTTProcessResponse. rewrite Ht. reflexivity. }
  assert (type pkt <> MQTT_PACKET_TYPE_SUBACK ->
          type pkt <> MQTT_PACKET_TYPE_UNSUBACK ->
          type pkt <> MQTT_PACKET_TYPE_PINGRESP ->
          prvMQTTProcessResponse pkt id s
          = Done tt (record_call
              (CallLog "prvMQTTProcessResponse() called with unknown packet type:(%02X).\r\n") s))
    as Hother.
  { intros H1 H2 H3. unfold prvMQTTProcessResponse.
    apply Z.eqb_neq in H1, H2, H3. rewrite H1, H2, H3. reflexivity. }
  split.
  { intros Ht. destruct (Hsub Ht) as (l & ->).
    simpl. destruct (usSubscribePacketIdentifier s =? id); reflexivity. }
  split.
  { intros Ht. rewrite (Hunsub Ht).
    simpl. destruct (usUnsubscribePacketIdentifier s =? id); reflexivity. }
  split; [exact Hping|]. split; [exact Hother|].
  destruct (Z.eq_dec (type pkt) MQTT_PACKET_TYPE_SUBACK) as [Ht|H1].
  { destruct (Hsub Ht) as (l & ->).
    destruct (usSubscribePacketIdentifier s =? id); simpl; [discriminate|].
    intros _. eexists. reflexivity. }
  destruct (Z.eq_dec (type pkt) MQTT_PACKET_TYPE_UNSUBACK) as [Ht|H2].
  { rewrite (Hunsub Ht).
    destruct (usUnsubscribePacketIdentifier s =? id); simpl; [discriminate|].
    intros _. eexists. reflexivity. }
  destruct (Z.eq_dec (type pkt) MQTT_PACKET_TYPE_PINGRESP) as [Ht|H3].
  { rewrite (Hping Ht). discriminate. }
  rewrite (Hother H1 H2 H3). discriminate.
Qed.

(** ** Graceful shutdown *)

Lemma after_calls_again l1 l2 w1 w2 (s : St) :
  after_calls l2 w2 (after_calls l1 w1 s) = after_calls (l1 ++ l2) w2 s.
Proof. unfold after_calls. simpl. rewrite app_assoc. reflexivity. Qed.

Lemma extern_eq {A} c (f : World -> A * World) (s : St) :
  extern c f s = Done (f (world s)).1 (after_calls [c] (f (world s)).2 s).
Proof. reflexivity. Qed.

(** The loop of [prvGracefulShutDown] with [n] polls left before the bound
    polls as the design describes; fuel for [n] passes is enough. *)
Lemma prvGracefulShutDown_loop_polls xSocket n : forall fuel count (s : St),
  (1 <= n)%nat -> (n <= fuel)%nat ->
  count = mqttexampleMAX_SOCKET_SHUTDOWN_LOOPS - Z.of_nat n ->
  let polls :=
    shutdown_polls (sockets World pf) (kernel World pf)
      (pdMS_TO_MIN_TICKS (config World pf) 250) n xSocket (world s) in
  prvGracefulShutDown_loop pf fuel xSocket count s
  = Done tt (after_calls polls.1 polls.2 s).
Proof.
  induction n as [|n IH]; intros fuel count s Hn Hfuel Hcount; [lia|].
  destruct fuel as [|fuel]; [lia|].
  simpl. unfold bind at 1. unfold FreeRTOS_recv. rewrite extern_eq.
  set (got := tcp_recv World (sockets World pf) xSocket 20 (world s)).
  replace (got.1.1 >=? 0) with (negb (got.1.1 <? 0)) by lia.
  destruct (got.1.1 <? 0) eqn:Hneg; simpl; [reflexivity|].
  unfold bind at 1. unfold vTaskDelay, extern_. rewrite extern_eq. simpl.
  rewrite after_calls_again. simpl.
  destruct n as [|n].
  - replace (count + 1 >=? mqttexampleMAX_SOCKET_SHUTDOWN_LOOPS) with true
      by (unfold mqttexampleMAX_SOCKET_SHUTDOWN_LOOPS in *; lia).
    reflexivity.
  - replace (count + 1 >=? mqttexampleMAX_SOCKET_SHUTDOWN_LOOPS) with false
      by (unfold mqttexampleMAX_SOCKET_SHUTDOWN_LOOPS in *; lia).
    rewrite IH by (unfold mqttexampleMAX_SOCKET_SHUTDOWN_LOOPS in *; lia).
    rewrite after_calls_again. reflexivity.
Qed.

Lemma shutdown_polls_bound tcp rtos ticks xSocket n : forall w : World,
  (recvs (shutdown_polls tcp rtos ticks n xSocket w).1 <= n)%nat.
Proof.
  induction n as [|n IH]; intros w; simpl; [lia|].
  destruct (_ <? 0); simpl; [lia|].
  specialize (IH (os_delay World rtos ticks (tcp_recv World tcp xSocket 20 w).2)).
  lia.
Qed.

(** C6, as amended: for a socket handle that is neither null nor
    [FREERTOS_INVALID_SOCKET], graceful shutdown returns after exactly these
    calls: the half-close, then polls of receive until one reports an error or
    3 polls are made, with a short delay after every poll that reported none,
    then the close; reaching the bound fails nothing.  For the null handle and
    for [FREERTOS_INVALID_SOCKET] it returns without any call. *)
Theorem graceful_shutdown xSocket (s : St) :
  (xSocket <> 0 -> xSocket <> FREERTOS_INVALID_SOCKET World (sockets World pf) ->
   let polls :=
     shutdown_polls (sockets World pf) (kernel World pf)
       (pdMS_TO_MIN_TICKS (config World pf) 250) 3 xSocket
       (tcp_shutdown World (sockets World pf) xSocket (world s)) in
   prvGracefulShutDown pf xSocket s
   = Done tt (after_calls ([CallShutdown xSocket] ++ polls.1 ++ [CallClose xSocket])
                (tcp_closesocket World (sockets World pf) xSocket polls.2) s)
   /\ (recvs polls.1 <= 3)%nat)
  /\ (xSocket = 0 \/ xSocket = FREERTOS_INVALID_SOCKET World (sockets World pf) ->
      prvGracefulShutDown pf xSocket s = Done tt s).
Proof.
  split.
  - intros H0 Hinv polls. split; [|apply shutdown_polls_bound].
    unfold prvGracefulShutDown.
    apply Z.eqb_neq in H0, Hinv. rewrite H0, Hinv. cbn [negb].
    rewrite (bind_eq_Done _ _ s tt
               (after_calls [CallShutdown xSocket]
                  (tcp_shutdown World (sockets World pf) xSocket (world s)) s))
      by reflexivity.
    rewrite (bind_eq_Done _ _ _ _ _
               (prvGracefulShutDown_loop_polls xSocket 3 _ 0 _
                  ltac:(lia) ltac:(reflexivity) ltac:(reflexivity))).
    rewrite after_calls_again.
    unfold FreeRTOS_closesocket, extern_. rewrite extern_eq.
    rewrite after_calls_again. rewrite <- app_assoc. reflexivity.
  - intros [-> | ->]; unfold prvGracefulShutDown; simpl; [reflexivity|].
    rewrite Z.eqb_refl. simpl. destruct (_ =? 0); reflexivity.
Qed.

(** ** Incoming PUBLISH *)

Lemma strlen_lookup s : forall j,
  (j < strlen s)%nat -> exists c, s !! j = Some c /\ c <> 0.
Proof.
  induction s as [|c s IH]; intros j Hj; simpl in Hj; [lia|].
  destruct (c =? 0) eqn:E; [lia|]. apply Z.eqb_neq in E.
  destruct j as [|j]; simpl.
  - exists c. split; [reflexivity|exact E].
  - apply IH. lia.
Qed.

(** Over characters of the first string that are not NUL, [strncmp] is 0
    exactly when the second string has the same characters. *)
Lemma strncmp_from_zero rd1 rd2 n : forall i,
  (forall j, (i <= j < i + n)%nat -> exists c, rd1 j = Some c /\ c <> 0) ->
  strncmp_from rd1 rd2 i n = Some 0
  <-> (forall j, (i <= j < i + n)%nat -> rd2 j = rd1 j).
Proof.
  induction n as [|n IH]; intros i Hrd; simpl.
  - split; [intros _ j Hj; lia|reflexivity].
  - destruct (Hrd i) as (c1 & H1 & Hc1); [lia|]. rewrite H1.
    destruct (rd2 i) as [c2|] eqn:H2.
    + destruct (c1 =? c2) eqn:E.
      * apply Z.eqb_eq in E. subst c2.
        apply Z.eqb_neq in Hc1. rewrite Hc1.
        rewrite IH by (intros j Hj; apply Hrd; lia).
        split.
        -- intros Hall j Hj. destruct (decide (j = i)) as [->|Hne];
             [congruence|apply Hall; lia].
        -- intros Hall j Hj. apply Hall. lia.
      * apply Z.eqb_neq in E. split.
        -- intros Hz. inversion Hz. lia.
        -- intros Hall. specialize (Hall i ltac:(lia)). congruence.
    + split; [discriminate|].
      intros Hall. specialize (Hall i ltac:(lia)). congruence.
Qed.

(** What [prvMQTTProcessIncomingPublish] does when it returns: two lines of
    log, the second chosen by the byte-for-byte comparison of the topic. *)
Lemma prvMQTTProcessIncomingPublish_Done info (s s' : St) :
  prvMQTTProcessIncomingPublish pf info s = Done tt s' ->
  exists line,
    s' = after_calls [CallLog "Incoming QoS : %d\n"; CallLog line] (world s) s
    /\ (line = topic_matches_line
        <-> topic_is (config World pf) (ucSharedBuffer s) info)
    /\ (line = topic_matches_line \/ line = topic_differs_line).
Proof.
  unfold prvMQTTProcessIncomingPublish. intros H. run_in H.
  - exists topic_matches_line. split; [|split; [|left; reflexivity]].
    + unfold after_calls, record_call. simpl. rewrite <- app_assoc. reflexivity.
    + split; [intros _|reflexivity].
      match goal with
      | E : (topicNameLength _ =? _) = true |- _ =>
          apply Z.eqb_eq in E; rename E into Hlen
      end.
      match goal with
      | B : strncmp _ _ _ = Some ?c, E : _ = true |- _ =>
          assert (c = 0) as -> by (destruct c; [reflexivity|discriminate E..]);
          rename B into Hcmp
      end.
      split; [exact Hlen|]. rewrite Hlen, Nat2Z.id in Hcmp.
      unfold strncmp in Hcmp. rewrite strncmp_from_zero in Hcmp.
      * intros j Hj. rewrite Hcmp by lia. reflexivity.
      * intros j Hj. simpl. apply strlen_lookup. lia.
  - exists topic_differs_line. split; [|split; [|right; reflexivity]].
    + unfold after_calls, record_call. simpl. rewrite <- app_assoc. reflexivity.
    + split; [discriminate|]. intros [Hlen Hsame]. exfalso.
      match goal with
      | B : strncmp _ _ _ = Some ?c, E : _ = false |- _ =>
          assert (c <> 0) as Hc by (intros ->; discriminate E);
          rename B into Hcmp
      end.
      rewrite Hlen, Nat2Z.id in Hcmp. unfold strncmp in Hcmp.
      apply Hc.
      assert (forall a b : Z, Some a = Some b -> a = b) as Hinj by congruence.
      apply Hinj. rewrite <- Hcmp. apply strncmp_from_zero.
      * intros j Hj. simpl. apply strlen_lookup. lia.
      * intros j Hj. simpl. apply Hsame. lia.
  - exists topic_differs_line. split; [|split; [|right; reflexivity]].
    + unfold after_calls, record_call. simpl. rewrite <- app_assoc. reflexivity.
    + split; [discriminate|]. intros [Hlen _]. exfalso.
      match goal with
      | E : (topicNameLength _ =? _) = false |- _ => apply Z.eqb_neq in E; apply E
      end.
      exact Hlen.
Qed.

(** C10: a dispatcher call whose header read yields a PUBLISH leaves the
    counter of the allocator, the remembered subscribe and unsubscribe
    identifiers and the topic filter context (its flags included) as they
    were, however the call ends; publish handling itself changes no variable
    and not the world: when it returns it has added two lines to the log, the
    second chosen by comparing the received topic name with the configured
    topic, length and bytes. *)
Theorem incoming_publish_leaves_session xSocket s xResult pkt s1 :
  receive_header pf xSocket s = Done (xResult, pkt) s1 ->
  Z.land (type pkt) 0xf0 = MQTT_PACKET_TYPE_PUBLISH ->
  session_state (final (prvMQTTProcessIncomingPacket pf xSocket s)) = session_state s
  /\ forall info (s2 : St),
       variables (final (prvMQTTProcessIncomingPublish pf info s2)) = variables s2
       /\ world (final (prvMQTTProcessIncomingPublish pf info s2)) = world s2
       /\ forall s3,
            prvMQTTProcessIncomingPublish pf info s2 = Done tt s3 ->
            exists line,
              s3 = after_calls [CallLog "Incoming QoS : %d\n"; CallLog line] (world s2) s2
              /\ (line = topic_matches_line
                  <-> topic_is (config World pf) (ucSharedBuffer s2) info)
              /\ (line = topic_matches_line \/ line = topic_differs_line).
Proof.
  intros H Hpub. split.
  - rewrite (prvMQTTProcessIncomingPacket_after_header _ _ _ _ _ H).
    rewrite (keeps_process_packet_publish session_state
               ltac:(reflexivity) ltac:(reflexivity) ltac:(reflexivity)
               xSocket xResult pkt Hpub s1).
    apply (keeps_Done session_state _ _ _ _
             (keeps_receive_header session_state
                ltac:(reflexivity) ltac:(reflexivity) xSocket) H).
  - intros info s2. split; [|split].
    + apply (keeps_prvMQTTProcessIncomingPublish variables). reflexivity.
    + apply (keeps_prvMQTTProcessIncomingPublish (@world World)). reflexivity.
    + intros s3. apply prvMQTTProcessIncomingPublish_Done.
Qed.

(** ** What the publish branch cannot see *)

Section Unaware.

Variables a b : Z.

Local Abbreviation g := (@set_remembered World a b).

Lemma unaware_ret {A} (x : A) : unaware g (ret x : Prog A).
Proof. intros s. reflexivity. Qed.

Lemma unaware_stop {A} r : unaware g (stop r : Prog A).
Proof. intros s. reflexivity. Qed.

Lemma unaware_bind {A B} (m : Prog A) (k : A -> Prog B) :
  unaware g m -> (forall x, unaware g (k x)) -> unaware g (bind m k).
Proof.
  intros Hm Hk s. unfold bind. rewrite Hm.
  destruct (m s) as [x s1|r s1]; simpl; [apply Hk|reflexivity].
Qed.

Lemma unaware_bind_returns {A B} (m : Prog A) (k : A -> Prog B) (P : A -> Prop) :
  returns m P -> unaware g m -> (forall x, P x -> unaware g (k x)) ->
  unaware g (bind m k).
Proof.
  intros Hr Hm Hk s. unfold bind. rewrite Hm. specialize (Hr s).
  destruct (m s) as [x s1|r s1]; simpl; [|reflexivity].
  apply Hk. eapply Hr. reflexivity.
Qed.

Lemma unaware_configASSERT c : unaware g (configASSERT c : Prog unit).
Proof. destruct c; intros s; reflexivity. Qed.

Lemma unaware_in_bounds {A} (o : option A) : unaware g (in_bounds o : Prog A).
Proof. destruct o; intros s; reflexivity. Qed.

Lemma unaware_gets {A} (f : St -> A) :
  (forall s, f (g s) = f s) -> unaware g (gets f).
Proof. intros H s. unfold gets. simpl. rewrite H. reflexivity. Qed.

Lemma unaware_modify (h : St -> St) :
  (forall s, h (g s) = g (h s)) -> unaware g (modify h).
Proof. intros H s. unfold modify. simpl. rewrite H. reflexivity. Qed.

Lemma unaware_extern {A} c (f : World -> A * World) : unaware g (extern c f).
Proof. intros s. reflexivity. Qed.

Ltac unaware_step :=
  lazymatch goal with
  | |- unaware _ (bind _ _) => apply unaware_bind; [|intros]
  | |- unaware _ (ret _) => apply unaware_ret
  | |- unaware _ (stop _) => apply unaware_stop
  | |- unaware _ (gets _) => apply unaware_gets; intros; reflexivity
  | |- unaware _ (configASSERT _) => apply unaware_configASSERT
  | |- unaware _ (in_bounds _) => apply unaware_in_bounds
  | |- unaware _ (modify _) => apply unaware_modify; intros; reflexivity
  | |- unaware _ (extern _ _) => apply unaware_extern
  | |- unaware _ (if ?c then _ else _) => destruct c
  | |- unaware _ (match ?x with _ => _ end) => destruct x
  end.

Lemma unaware_run_reader r readFunc ctx pkt :
  (forall c n, unaware g (readFunc c n)) ->
  unaware g (run_reader r readFunc ctx pkt : Prog _).
Proof.
  intros Hread. induction r as [status t len|n k IH]; simpl.
  - apply unaware_ret.
  - apply unaware_bind; [apply Hread|intros got; apply IH].
Qed.

Lemma unaware_receive_header xSocket : unaware g (receive_header pf xSocket).
Proof.
  unfold receive_header, MQTT_GetIncomingPacketTypeAndLength.
  apply unaware_run_reader. intros c n.
  unfold prvTransportRecv, FreeRTOS_recv. repeat unaware_step.
Qed.

Lemma unaware_receive_body xSocket pkt : unaware g (receive_body pf xSocket pkt).
Proof.
  unfold receive_body, recv_into_xBuffer, FreeRTOS_recv, write_xBuffer.
  repeat unaware_step.
Qed.

Lemma unaware_prvMQTTProcessIncomingPublish info :
  unaware g (prvMQTTProcessIncomingPublish pf info).
Proof.
  unfold prvMQTTProcessIncomingPublish, LogInfo. repeat unaware_step.
Qed.

(** After the header of a PUBLISH, nothing the dispatcher does depends on
    the remembered identifiers. *)
Lemma unaware_process_packet_publish xSocket xResult pkt :
  Z.land (type pkt) 0xf0 = MQTT_PACKET_TYPE_PUBLISH ->
  unaware g (process_packet pf xSocket xResult pkt).
Proof.
  intros Hpub. unfold process_packet.
  destruct (bool_decide (xResult <> MQTTNoDataAvailable)); [|apply unaware_ret].
  do 2 (apply unaware_bind; [apply unaware_configASSERT|intros _]).
  apply unaware_bind_returns with (P := fun p => type p = type pkt).
  - apply receive_body_type.
  - apply unaware_receive_body.
  - intros pkt' Ht. apply unaware_bind; [unaware_step|intros buf].
    rewrite Ht, Hpub, Z.eqb_refl.
    destruct (mqtt_DeserializePublish _ _ _) as [[r ?] info].
    apply unaware_bind; [apply unaware_configASSERT|intros _].
    apply unaware_prvMQTTProcessIncomingPublish.
Qed.

End Unaware.

(** C8: a dispatcher call whose header read yields a type with the high
    nibble of PUBLISH does the same whatever the remembered subscribe and
    unsubscribe identifiers are, and leaves them as they are: no comparison
    with them takes place.  Once the body is in the buffer the packet goes to
    the publish decoder and, when the decoder accepts it, to publish
    handling. *)
Theorem publish_never_checks_identifiers xSocket s xResult pkt s1 :
  receive_header pf xSocket s = Done (xResult, pkt) s1 ->
  Z.land (type pkt) 0xf0 = MQTT_PACKET_TYPE_PUBLISH ->
  (forall a b,
     prvMQTTProcessIncomingPacket pf xSocket (set_remembered a b s)
     = with_state (set_remembered a b) (prvMQTTProcessIncomingPacket pf xSocket s))
  /\ (forall pkt' s2,
       xResult = MQTTSuccess ->
       remainingLength pkt <= mqttexampleSHARED_BUFFER_SIZE ->
       receive_body pf xSocket pkt s1 = Done pkt' s2 ->
       let decoded := mqtt_DeserializePublish (mqttlib World pf) pkt' (ucSharedBuffer s2) in
       prvMQTTProcessIncomingPacket pf xSocket s
       = if bool_decide (decoded.1.1 = MQTTSuccess)
         then prvMQTTProcessIncomingPublish pf decoded.2 s2
         else Stop AssertFailed s2).
Proof.
  intros H Hpub. split.
  - intros a b. unfold prvMQTTProcessIncomingPacket, bind.
    rewrite (unaware_receive_header a b xSocket s), H. simpl.
    apply unaware_process_packet_publish. exact Hpub.
  - intros pkt' s2 -> Hlen Hbody decoded.
    rewrite (prvMQTTProcessIncomingPacket_after_header _ _ _ _ _ H).
    unfold process_packet.
    replace (bool_decide (MQTTSuccess <> MQTTNoDataAvailable)) with true by reflexivity.
    replace (bool_decide (MQTTSuccess = MQTTSuccess)) with true by reflexivity.
    apply Z.leb_le in Hlen. rewrite Hlen.
    rewrite (bind_eq_Done _ _ s1 tt s1) by reflexivity.
    rewrite (bind_eq_Done _ _ s1 tt s1) by reflexivity.
    rewrite (bind_eq_Done _ _ _ _ _ Hbody).
    rewrite (bind_eq_Done _ _ s2 (ucSharedBuffer s2) s2) by reflexivity.
    rewrite (receive_body_type _ _ _ _ _ Hbody), Hpub, Z.eqb_refl.
    subst decoded.
    destruct (mqtt_DeserializePublish _ _ _) as [[r ?] info]. simpl.
    destruct (bool_decide (r = MQTTSuccess)); reflexivity.
Qed.


(** * Further properties *)

(** ** Connecting *)

Lemma closed_app l l' : closed (l ++ l') = closed l ++ closed l'.
Proof.
  induction l as [|c l IH]; simpl; [reflexivity|].
  destruct c; simpl; rewrite IH; reflexivity.
Qed.

Lemma attempts_app l l' : attempts (l ++ l') = (attempts l + attempts l')%nat.
Proof.
  induction l as [|c l IH]; simpl; [reflexivity|].
  destruct c; simpl; rewrite IH; reflexivity.
Qed.

Lemma backoffs_app l l' : backoffs (l ++ l') = (backoffs l + backoffs l')%nat.
Proof.
  induction l as [|c l IH]; simpl; [reflexivity|].
  destruct c; simpl; rewrite IH; reflexivity.
Qed.

Lemma recvs_app l l' : recvs (l ++ l') = (recvs l + recvs l')%nat.
Proof. induction l as [|c l IH]; simpl; [reflexivity|rewrite IH; lia]. Qed.

Lemma LogInfo_eq text (s : St) :
  LogInfo text s = Done tt (after_calls [CallLog text] (world s) s).
Proof. reflexivity. Qed.

Lemma after_calls_nil (s : St) : after_calls [] (world s) s = s.
Proof. unfold after_calls. rewrite app_nil_r. destruct s; reflexivity. Qed.

Section Connecting.

Variable s : St.

Local Abbreviation invalid := (FREERTOS_INVALID_SOCKET World (sockets World pf)).

(** What the world answers to the three steps of
    [prvCreateTCPConnectionToBroker] from the state [s]. *)
Let made := tcp_socket World (sockets World pf) (world s).
Let found :=
  tcp_gethostbyname World (sockets World pf)
    (democonfigMQTT_BROKER_ENDPOINT (config World pf)) made.2.
Let port :=
  tcp_htons World (sockets World pf) (democonfigMQTT_BROKER_PORT (config World pf)).
Let conn := tcp_connect World (sockets World pf) made.1 found.1 port found.2.

(** The calls of [prvCreateTCPConnectionToBroker], by the step that
    failed. *)
Lemma prvCreateTCPConnectionToBroker_calls :
  exists w,
    prvCreateTCPConnectionToBroker pf s
    = Done (if negb (made.1 =? invalid) && negb (found.1 =? 0) && (conn.1 =? 0)
            then made.1 else invalid)
        (after_calls
           (if made.1 =? invalid then
              [CallSocket; CallLog "Could not create TCP socket.\r\n\r\n"]
            else if found.1 =? 0 then
              [CallSocket;
               CallGetHostByName (democonfigMQTT_BROKER_ENDPOINT (config World pf));
               CallLog "Could not locate MQTT broker %s.\r\n\r\n";
               CallClose made.1]
            else if conn.1 =? 0 then
              [CallSocket;
               CallGetHostByName (democonfigMQTT_BROKER_ENDPOINT (config World pf));
               CallConnect made.1 found.1 port]
            else
              [CallSocket;
               CallGetHostByName (democonfigMQTT_BROKER_ENDPOINT (config World pf));
               CallConnect made.1 found.1 port;
               CallLog "Located but could not connect to MQTT broker %s.\r\n\r\n";
               CallClose made.1])
           w s).
Proof.
  unfold prvCreateTCPConnectionToBroker.
  unfold FreeRTOS_socket. rewrite (bind_eq_Done _ _ _ _ _ (extern_eq _ _ s)).
  fold made. destruct (made.1 =? invalid) eqn:Emade; cbn [negb andb].
  - apply Z.eqb_eq in Emade. exists made.2. rewrite <- Emade.
    unfold bind, LogInfo, modify, ret, after_calls, record_call; simpl.
    rewrite <- app_assoc. reflexivity.
  - unfold FreeRTOS_gethostbyname. unfold bind at 1.
    rewrite (bind_eq_Done (extern _ _) _ _ _ _ (extern_eq _ _ _)).
    cbn [world after_calls]. fold found.
    destruct (found.1 =? 0) eqn:Efound; cbn [negb andb].
    + eexists.
      unfold bind, LogInfo, modify, ret, FreeRTOS_closesocket, extern_, extern,
        after_calls, record_call, set_world; simpl.
      rewrite <- !app_assoc. reflexivity.
    + unfold FreeRTOS_connect.
      rewrite (bind_eq_Done (extern _ _) _ _ _ _ (extern_eq _ _ _)).
      cbn [world after_calls]. fold port. fold conn.
      destruct (conn.1 =? 0) eqn:Econn.
      * eexists.
        unfold bind, ret, after_calls; simpl.
        rewrite <- !app_assoc. reflexivity.
      * eexists.
        unfold bind, LogInfo, modify, ret, FreeRTOS_closesocket, extern_, extern,
          after_calls, record_call, set_world; simpl.
        rewrite <- !app_assoc. reflexivity.
Qed.

(** X1: [prvCreateTCPConnectionToBroker] always returns, after one socket
    creation and without any back-off, send or receive.  It returns the
    socket it created exactly when the creation, the name lookup and the
    connect all succeeded, and [FREERTOS_INVALID_SOCKET] otherwise; a socket
    that was created and is not returned has been closed, once, and no other
    socket is closed: no socket is leaked.  The last call is the connect when
    a socket is returned, the close of the created socket when one was
    created and is not returned. *)
Theorem tcp_connection_or_no_socket :
  let ok := negb (made.1 =? invalid) && negb (found.1 =? 0) && (conn.1 =? 0) in
  exists l w,
    prvCreateTCPConnectionToBroker pf s
    = Done (if ok then made.1 else invalid) (after_calls l w s)
    /\ closed l = (if ok || (made.1 =? invalid) then [] else [made.1])
    /\ attempts l = 1%nat /\ backoffs l = 0%nat
    /\ sends l = 0%nat /\ recvs l = 0%nat
    /\ last l
       = Some (if ok then CallConnect made.1 found.1 port
               else if made.1 =? invalid
                    then CallLog "Could not create TCP socket.\r\n\r\n"
                    else CallClose made.1).
Proof.
  intros ok. destruct prvCreateTCPConnectionToBroker_calls as (w & H).
  eexists _, w. split; [exact H|]. subst ok.
  destruct (made.1 =? invalid); [|destruct (found.1 =? 0); [|destruct (conn.1 =? 0)]];
    simpl; repeat split; reflexivity.
Qed.

End Connecting.

Local Abbreviation invalid := (FREERTOS_INVALID_SOCKET World (sockets World pf)).

(** A connection made: three calls, the last of them the connect. *)
Lemma prvCreateTCPConnectionToBroker_Done (s : St) xSocket s' :
  prvCreateTCPConnectionToBroker pf s = Done xSocket s' ->
  exists l w,
    s' = after_calls l w s
    /\ attempts l = 1%nat /\ backoffs l = 0%nat
    /\ sends l = 0%nat /\ recvs l = 0%nat
    /\ (xSocket <> invalid ->
        exists l0 addr port, l = l0 ++ [CallConnect xSocket addr port]).
Proof.
  destruct (prvCreateTCPConnectionToBroker_calls s) as (w & H). rewrite H.
  intros E. inversion E as [[Hx Hs]]. clear E H Hs. subst xSocket.
  eexists _, w. split; [reflexivity|].
  repeat match goal with
         | |- context [if ?b =? ?c then _ else _] => destruct (b =? c) eqn:?
         end;
    cbn [negb andb]; do 4 (split; [reflexivity|]); try congruence.
  intros _. eexists [_; _], _, _. reflexivity.
Qed.

Lemma backoff_eq text p (s : St) :
  let r := retry_BackoffAndSleep World (kernel World pf) p (world s) in
  bind (LogWarn text) (fun _ => RetryUtils_BackoffAndSleep pf p) s
  = Done r.1 (after_calls [CallLog text; CallBackoff] r.2 s).
Proof.
  intros r. unfold bind, LogWarn, modify, RetryUtils_BackoffAndSleep, extern,
    after_calls, record_call, set_world. simpl. rewrite <- app_assoc. reflexivity.
Qed.

(** The loop of [prvConnectToServerWithBackoffRetries], entered with the
    status [RetryUtilsSuccess], when it returns. *)
Lemma prvConnectToServerWithBackoffRetries_loop_Done fuel : forall p (s : St) xSocket s',
  prvConnectToServerWithBackoffRetries_loop pf fuel RetryUtilsSuccess p s
    = Done xSocket s' ->
  exists l w,
    s' = after_calls l w s
    /\ sends l = 0%nat /\ recvs l = 0%nat
    /\ ((xSocket <> invalid
         /\ attempts l = S (backoffs l)
         /\ exists l0 addr port, l = l0 ++ [CallConnect xSocket addr port])
        \/ (xSocket = invalid
            /\ attempts l = backoffs l
            /\ exists l0,
                 l = l0 ++ [CallBackoff;
                            CallLog "Connection to the broker failed, all attempts exhausted."])).
Proof.
  induction fuel as [|fuel IH]; intros p s xSocket s' H; simpl in H; [discriminate|].
  rewrite (bind_eq_Done _ _ _ _ _ (LogInfo_eq _ s)) in H.
  apply bind_Done in H as (x & s0 & R & H).
  apply prvCreateTCPConnectionToBroker_Done in R
    as (l & w & -> & Ha & Hb & Hs & Hr & Hlast).
  rewrite after_calls_again in H.
  set (pre := [CallLog "Create a TCP connection to %s:%d."] ++ l) in *.
  assert (attempts pre = 1%nat /\ backoffs pre = 0%nat
          /\ sends pre = 0%nat /\ recvs pre = 0%nat) as (Ha' & Hb' & Hs0 & Hr0).
  { subst pre. simpl. repeat split; assumption. }
  destruct (x =? invalid) eqn:Ex.
  - rewrite (bind_eq_Done _ _ _ _ _ (backoff_eq _ p _)) in H.
    rewrite after_calls_again in H. simpl (world _) in H.
    set (r := retry_BackoffAndSleep World (kernel World pf) p w) in H.
    set (warned := pre ++ [CallLog "Connection to the broker failed. Retrying connection with backoff and jitter."; CallBackoff]) in *.
    assert (attempts warned = 1%nat /\ backoffs warned = 1%nat
            /\ sends warned = 0%nat /\ recvs warned = 0%nat) as (Ha2 & Hb2 & Hs2 & Hr2).
    { subst warned.
      rewrite attempts_app, backoffs_app, sends_app, recvs_app, Ha', Hb', Hs0, Hr0.
      repeat split; reflexivity. }
    destruct (r.1.1) eqn:Er.
    + rewrite (bind_eq_Done _ _ _ x _ eq_refl) in H.
      rewrite Ex in H. cbn [andb] in H.
      replace (bool_decide (RetryUtilsSuccess = RetryUtilsSuccess)) with true in H
        by reflexivity.
      apply IH in H as (l' & w' & -> & Hs' & Hr' & Hcases).
      rewrite after_calls_again. exists (warned ++ l'), w'. split; [reflexivity|].
      rewrite sends_app, recvs_app, Hs2, Hr2, Hs', Hr'.
      split; [reflexivity|]. split; [reflexivity|].
      rewrite attempts_app, backoffs_app, Ha2, Hb2.
      destruct Hcases as [(Hx & Hn & l0 & addr & port & El)
                         |(Hx & Hn & l0 & El)]; [left|right].
      * split; [exact Hx|]. split; [lia|].
        exists (warned ++ l0), addr, port. rewrite El. apply app_assoc.
      * split; [exact Hx|]. split; [lia|].
        exists (warned ++ l0). rewrite El. apply app_assoc.
    + rewrite (bind_eq_Done _ _ _ invalid
                 (after_calls
                    (warned ++ [CallLog "Connection to the broker failed, all attempts exhausted."])
                    r.2 s)) in H.
      2:{ unfold bind, LogError, modify, ret, after_calls, record_call. simpl.
          rewrite <- app_assoc. reflexivity. }
      rewrite Z.eqb_refl in H. cbn [andb] in H.
      replace (bool_decide (RetryUtilsRetriesExhausted = RetryUtilsSuccess)) with false
        in H by reflexivity.
      inversion H as [[Hx Hs']]. clear H.
      exists (warned ++ [CallLog "Connection to the broker failed, all attempts exhausted."]), r.2.
      split; [reflexivity|].
      rewrite sends_app, recvs_app, Hs2, Hr2.
      split; [reflexivity|]. split; [reflexivity|]. right.
      split; [reflexivity|].
      rewrite attempts_app, backoffs_app, Ha2, Hb2. split; [reflexivity|].
      exists (pre ++ [CallLog "Connection to the broker failed. Retrying connection with backoff and jitter."]).
      subst warned. rewrite <- !app_assoc. reflexivity.
  - rewrite (bind_eq_Done _ _ _ (RetryUtilsSuccess, p) _ eq_refl) in H.
    rewrite (bind_eq_Done _ _ _ x _ eq_refl) in H.
    rewrite Ex in H. inversion H as [[Hx Hs']]. subst x. clear H.
    apply Z.eqb_neq in Ex.
    exists pre, w. split; [reflexivity|].
    split; [exact Hs0|]. split; [exact Hr0|]. left.
    split; [exact Ex|]. split; [lia|].
    destruct (Hlast Ex) as (l0 & addr & port & El).
    exists ([CallLog "Create a TCP connection to %s:%d."] ++ l0), addr, port.
    subst pre. rewrite El. apply app_assoc.
Qed.

(** X2: when [prvConnectToServerWithBackoffRetries] returns, it has sent
    and received nothing and changed no variable, and either it returns a
    valid socket, the connect of that socket is the last call it made and
    every earlier attempt was followed by one back-off, or it returns
    [FREERTOS_INVALID_SOCKET], every attempt was followed by one back-off and
    the last of them was reported as the exhaustion of the attempts. *)
Theorem connection_retries fuel (s : St) xSocket s' :
  prvConnectToServerWithBackoffRetries pf fuel s = Done xSocket s' ->
  exists l w,
    s' = after_calls l w s
    /\ sends l = 0%nat /\ recvs l = 0%nat
    /\ ((xSocket <> invalid
         /\ attempts l = S (backoffs l)
         /\ exists l0 addr port, l = l0 ++ [CallConnect xSocket addr port])
        \/ (xSocket = invalid
            /\ attempts l = backoffs l
            /\ (1 <= backoffs l)%nat
            /\ exists l0,
                 l = l0 ++ [CallBackoff;
                            CallLog "Connection to the broker failed, all attempts exhausted."])).
Proof.
  intros H. apply prvConnectToServerWithBackoffRetries_loop_Done in H
    as (l & w & Hs' & Hs & Hr & Hcases).
  exists l, w. split; [exact Hs'|]. split; [exact Hs|]. split; [exact Hr|].
  destruct Hcases as [Hvalid|(Hx & Hn & l0 & El)]; [left; exact Hvalid|right].
  split; [exact Hx|]. split; [exact Hn|]. split.
  - rewrite El, backoffs_app. simpl. lia.
  - exists l0. exact El.
Qed.

(** X3: a pass of the task's loop whose connection step returns
    [FREERTOS_INVALID_SOCKET] stops at the assertion behind that step: no
    MQTT packet is sent and no variable has changed. *)
Theorem no_session_without_connection fuel (s : St) s1 :
  prvConnectToServerWithBackoffRetries pf fuel s = Done invalid s1 ->
  prvMQTTDemoTask_iteration pf fuel s = Stop AssertFailed s1
  /\ variables s1 = variables s
  /\ sends (calls s1) = sends (calls s)
  /\ recvs (calls s1) = recvs (calls s).
Proof.
  intros H. split.
  { unfold prvMQTTDemoTask_iteration. rewrite (bind_eq_Done _ _ _ _ _ H).
    rewrite Z.eqb_refl. reflexivity. }
  apply prvConnectToServerWithBackoffRetries_loop_Done in H
    as (l & w & -> & Hs & Hr & _).
  split; [reflexivity|]. simpl. rewrite sends_app, recvs_app, Hs, Hr. lia.
Qed.

(** ** The calls a computation makes *)

Section MakesOnly.

Variable p : Call -> bool.

Lemma makes_only_nothing {A} (m : Prog A) :
  (forall s, calls (final (m s)) = calls s) -> makes_only p m.
Proof.
  intros H s. exists []. rewrite H, app_nil_r. split; reflexivity.
Qed.

Lemma makes_only_ret {A} (a : A) : makes_only p (ret a : Prog A).
Proof. apply makes_only_nothing. reflexivity. Qed.

Lemma makes_only_stop {A} r : makes_only p (stop r : Prog A).
Proof. apply makes_only_nothing. reflexivity. Qed.

Lemma makes_only_gets {A} (g : St -> A) : makes_only p (gets g).
Proof. apply makes_only_nothing. reflexivity. Qed.

Lemma makes_only_configASSERT b : makes_only p (configASSERT b : Prog unit).
Proof. apply makes_only_nothing. destruct b; reflexivity. Qed.

Lemma makes_only_in_bounds {A} (o : option A) : makes_only p (in_bounds o : Prog A).
Proof. apply makes_only_nothing. destruct o; reflexivity. Qed.

Lemma makes_only_modify (g : St -> St) :
  (forall s, calls (g s) = calls s) -> makes_only p (modify g).
Proof. intros H. apply makes_only_nothing. exact H. Qed.

Lemma makes_only_log text : p (CallLog text) = true -> makes_only p (LogInfo text : Prog unit).
Proof. intros H s. exists [CallLog text]. simpl. rewrite H. split; reflexivity. Qed.

Lemma makes_only_extern {A} c (f : World -> A * World) :
  p c = true -> makes_only p (extern c f).
Proof. intros H s. exists [c]. simpl. rewrite H. split; reflexivity. Qed.

(** What follows a computation may rely on what it returns. *)
Lemma makes_only_bind_returns {A B} (m : Prog A) (k : A -> Prog B) (P : A -> Prop) :
  returns m P -> makes_only p m -> (forall a, P a -> makes_only p (k a)) ->
  makes_only p (bind m k).
Proof.
  intros Hr Hm Hk s. unfold bind. specialize (Hr s).
  destruct (Hm s) as (l1 & E1 & H1).
  destruct (m s) as [a s1|r s1]; simpl in *.
  - destruct (Hk a (Hr a s1 eq_refl) s1) as (l2 & E2 & H2).
    exists (l1 ++ l2). rewrite E2, E1, app_assoc, forallb_app, H1, H2.
    split; reflexivity.
  - exists l1. split; assumption.
Qed.

Lemma makes_only_bind {A B} (m : Prog A) (k : A -> Prog B) :
  makes_only p m -> (forall a, makes_only p (k a)) -> makes_only p (bind m k).
Proof.
  intros Hm Hk. apply makes_only_bind_returns with (P := fun _ => True).
  - intros s a s' _. exact I.
  - exact Hm.
  - intros a _. apply Hk.
Qed.

(** What follows an assertion may rely on it. *)
Lemma makes_only_assert_bind {B} b (k : unit -> Prog B) :
  (b = true -> makes_only p (k tt)) -> makes_only p (bind (configASSERT b) k).
Proof.
  intros Hk. destruct b.
  - exact (Hk eq_refl).
  - apply makes_only_nothing. reflexivity.
Qed.

Lemma makes_only_for_from from n (body : nat -> Prog unit) :
  (forall i, makes_only p (body i)) -> makes_only p (for_from from n body).
Proof.
  intros H. revert from. induction n as [|n IH]; intros from; simpl.
  - apply makes_only_ret.
  - apply makes_only_bind; [apply H|intros _; apply IH].
Qed.

Lemma makes_only_run_reader r readFunc ctx pkt :
  (forall n, makes_only p (readFunc ctx n)) ->
  makes_only p (run_reader r readFunc ctx pkt : Prog _).
Proof.
  intros Hread. induction r as [status t len|n k IH]; simpl.
  - apply makes_only_ret.
  - apply makes_only_bind; [apply Hread|intros got; apply IH].
Qed.

End MakesOnly.

(** A computation that makes only calls of one kind makes only calls of a
    wider kind. *)
Lemma makes_only_wider {A} (p q : Call -> bool) (m : Prog A) :
  (forall c, p c = true -> q c = true) -> makes_only p m -> makes_only q m.
Proof.
  intros Hpq Hm s. destruct (Hm s) as (l & E & H). exists l. split; [exact E|].
  rewrite forallb_forall in *. intros c Hc. apply Hpq, H, Hc.
Qed.

Create HintDb calls.

(** The side conditions: a call is of the kind allowed. *)
Ltac allowed :=
  intros; simpl; rewrite ?Z.eqb_refl; simpl;
  first [reflexivity | assumption | lia].

Ltac makes_step :=
  lazymatch goal with
  | |- makes_only _ (bind (configASSERT _) _) =>
      apply makes_only_assert_bind; intros
  | |- makes_only _ (bind _ _) => apply makes_only_bind; [|intros]
  | |- makes_only _ (ret _) => apply makes_only_ret
  | |- makes_only _ (stop _) => apply makes_only_stop
  | |- makes_only _ (gets _) => apply makes_only_gets
  | |- makes_only _ (configASSERT _) => apply makes_only_configASSERT
  | |- makes_only _ (in_bounds _) => apply makes_only_in_bounds
  | |- makes_only _ (LogInfo _) => apply makes_only_log; try allowed
  | |- makes_only _ (LogWarn _) => apply makes_only_log; try allowed
  | |- makes_only _ (LogError _) => apply makes_only_log; try allowed
  | |- makes_only _ (modify _) => apply makes_only_modify; intros; reflexivity
  | |- makes_only _ (write_xBuffer _) => apply makes_only_modify; intros; reflexivity
  | |- makes_only _ (xBuffer_prefix _) => apply makes_only_gets
  | |- makes_only _ (mqttexampleTOPIC_COUNT) => apply makes_only_gets
  | |- makes_only _ (recv_into_xBuffer _ _ _) => unfold recv_into_xBuffer
  | |- makes_only _ (FreeRTOS_send _ _ _) => unfold FreeRTOS_send
  | |- makes_only _ (FreeRTOS_recv _ _ _) => unfold FreeRTOS_recv
  | |- makes_only _ (FreeRTOS_shutdown _ _) => unfold FreeRTOS_shutdown, extern_
  | |- makes_only _ (FreeRTOS_closesocket _ _) => unfold FreeRTOS_closesocket, extern_
  | |- makes_only _ (vTaskDelay _ _) => unfold vTaskDelay, extern_
  | |- makes_only _ (RetryUtils_BackoffAndSleep _ _) => unfold RetryUtils_BackoffAndSleep
  | |- makes_only _ (prvTransportRecv _ _ _) => unfold prvTransportRecv
  | |- makes_only _ (topic_filter _) => unfold topic_filter
  | |- makes_only _ prvGetNextPacketIdentifier => unfold prvGetNextPacketIdentifier
  | |- makes_only _ (extern _ _) => apply makes_only_extern; try allowed
  | |- makes_only _ (for_from _ _ _) => apply makes_only_for_from; intros
  | |- makes_only _ (if ?b then _ else _) => destruct b eqn:?
  | |- makes_only _ (match ?x with _ => _ end) => destruct x eqn:?
  end.

Ltac makes_tac := repeat first [solve [auto 2 with calls] | makes_step].

(** *** The dispatcher only receives and logs *)

Lemma makes_only_receive_header xSocket :
  makes_only (receives_or_logs xSocket) (receive_header pf xSocket).
Proof.
  unfold receive_header, MQTT_GetIncomingPacketTypeAndLength.
  apply makes_only_run_reader. intros n.
  unfold prvTransportRecv, FreeRTOS_recv. makes_tac.
Qed.

Lemma makes_only_receive_body xSocket xResult pkt :
  xResult = MQTTSuccess ->
  remainingLength pkt <= mqttexampleSHARED_BUFFER_SIZE ->
  makes_only (body_read xSocket xResult pkt) (receive_body pf xSocket pkt).
Proof.
  intros -> Hlen.
  unfold receive_body, recv_into_xBuffer, FreeRTOS_recv, write_xBuffer.
  destruct (remainingLength pkt >? 0) eqn:Hpos; [|apply makes_only_ret].
  assert (body_read xSocket MQTTSuccess pkt (CallRecv xSocket (remainingLength pkt))
          = true) as Hcall.
  { simpl. rewrite !Z.eqb_refl. simpl.
    apply andb_true_iff. split; [apply Z.ltb_lt|apply Z.leb_le]; lia. }
  makes_tac.
Qed.

Lemma makes_only_set_xSubAckSuccess p i b :
  makes_only p (set_xSubAckSuccess i b : Prog unit).
Proof. unfold set_xSubAckSuccess, topic_filter. makes_tac. Qed.

Lemma makes_only_prvMQTTUpdateSubAckStatus p pkt :
  makes_only p (prvMQTTUpdateSubAckStatus pkt : Prog unit).
Proof.
  unfold prvMQTTUpdateSubAckStatus, record_status.
  repeat first [apply makes_only_set_xSubAckSuccess | makes_step].
Qed.

Lemma makes_only_prvMQTTProcessResponse p pkt id :
  (forall text, p (CallLog text) = true) ->
  makes_only p (prvMQTTProcessResponse pkt id : Prog unit).
Proof.
  intros Hlog. unfold prvMQTTProcessResponse, mqttexampleTOPIC_COUNT, topic_filter.
  makes_tac; apply Hlog.
Qed.

Lemma makes_only_prvMQTTProcessIncomingPublish p info :
  (forall text, p (CallLog text) = true) ->
  makes_only p (prvMQTTProcessIncomingPublish pf info).
Proof.
  intros Hlog. unfold prvMQTTProcessIncomingPublish. makes_tac; apply Hlog.
Qed.

(** After the header, the dispatcher only logs, but for the one receive of
    the rest of the packet. *)
Lemma makes_only_process_packet xSocket xResult pkt :
  makes_only (body_read xSocket xResult pkt) (process_packet pf xSocket xResult pkt).
Proof.
  unfold process_packet.
  destruct (bool_decide (xResult <> MQTTNoDataAvailable)); [|apply makes_only_ret].
  apply makes_only_assert_bind. intros Hok. apply bool_decide_eq_true in Hok.
  apply makes_only_assert_bind. intros Hlen. apply Z.leb_le in Hlen.
  apply makes_only_bind; [apply makes_only_receive_body; assumption|intros pkt'].
  repeat first [ apply makes_only_prvMQTTUpdateSubAckStatus
               | apply makes_only_prvMQTTProcessResponse; reflexivity
               | apply makes_only_prvMQTTProcessIncomingPublish; reflexivity
               | makes_step ].
Qed.

Lemma body_read_wider xSocket xResult pkt c :
  body_read xSocket xResult pkt c = true -> receives_or_logs xSocket c = true.
Proof.
  destruct c; simpl; try discriminate; try reflexivity.
  intros H. repeat (apply andb_true_iff in H as [H _]). exact H.
Qed.

Lemma receives_or_logs_wider xSocket c :
  receives_or_logs xSocket c = true -> on_socket xSocket c = true.
Proof. destruct c; simpl; try discriminate; try reflexivity. intros H; exact H. Qed.

Lemma makes_only_prvMQTTProcessIncomingPacket xSocket :
  makes_only (receives_or_logs xSocket) (prvMQTTProcessIncomingPacket pf xSocket).
Proof.
  unfold prvMQTTProcessIncomingPacket.
  apply makes_only_bind; [apply makes_only_receive_header|intros hdr].
  eapply makes_only_wider; [|apply makes_only_process_packet].
  intros c. apply body_read_wider.
Qed.

(** X4: the dispatcher makes no call but receives on its socket and lines of
    log, however it ends: it never sends, closes, shuts down or delays.  Once
    the header is read, the one receive it may make is that of the rest of the
    packet: it is made only after a successful header read, and asks for the
    remaining length, which is then positive and at most the size of the
    shared buffer. *)
Theorem dispatcher_receives_and_logs xSocket :
  makes_only (receives_or_logs xSocket) (prvMQTTProcessIncomingPacket pf xSocket)
  /\ forall (s : St) xResult pkt s1,
       receive_header pf xSocket s = Done (xResult, pkt) s1 ->
       exists l,
         calls (final (prvMQTTProcessIncomingPacket pf xSocket s)) = calls s1 ++ l
         /\ forallb (body_read xSocket xResult pkt) l = true.
Proof.
  split; [apply makes_only_prvMQTTProcessIncomingPacket|].
  intros s xResult pkt s1 H.
  rewrite (prvMQTTProcessIncomingPacket_after_header _ _ _ _ _ H).
  apply makes_only_process_packet.
Qed.

(** *** A session stays on its socket *)

Lemma returns_xBuffer_prefix n :
  returns (xBuffer_prefix n : Prog _)
    (fun out => Z.of_nat (length out) <= Z.max 0 n).
Proof.
  intros s out s' H. inversion H. rewrite length_take. lia.
Qed.

Section OneSocket.

Variable xSocket : Socket_t.

Local Abbreviation mine := (on_socket xSocket).

Lemma on_socket_prvMQTTProcessIncomingPacket :
  makes_only mine (prvMQTTProcessIncomingPacket pf xSocket).
Proof.
  eapply makes_only_wider; [|apply makes_only_prvMQTTProcessIncomingPacket].
  intros c. apply receives_or_logs_wider.
Qed.

Hint Resolve on_socket_prvMQTTProcessIncomingPacket : calls.

Lemma on_socket_prvCreateMQTTConnectionWithBroker :
  makes_only mine (prvCreateMQTTConnectionWithBroker pf xSocket).
Proof.
  unfold prvCreateMQTTConnectionWithBroker, MQTT_GetIncomingPacketTypeAndLength,
    write_xBuffer, xBuffer_prefix, recv_into_xBuffer, FreeRTOS_send, FreeRTOS_recv.
  repeat first [ apply makes_only_run_reader; intros;
                 unfold prvTransportRecv, FreeRTOS_recv
               | makes_step ].
Qed.

Lemma on_socket_prvMQTTSubscribeToTopic :
  makes_only mine (prvMQTTSubscribeToTopic pf xSocket).
Proof.
  unfold prvMQTTSubscribeToTopic, mqttexampleTOPIC_COUNT, prvGetNextPacketIdentifier,
    write_xBuffer, xBuffer_prefix, FreeRTOS_send.
  makes_tac.
Qed.

Lemma on_socket_prvMQTTUnsubscribeFromTopic :
  makes_only mine (prvMQTTUnsubscribeFromTopic pf xSocket).
Proof.
  unfold prvMQTTUnsubscribeFromTopic, prvGetNextPacketIdentifier,
    write_xBuffer, xBuffer_prefix, FreeRTOS_send.
  makes_tac.
Qed.

Lemma on_socket_prvMQTTPublishToTopic :
  makes_only mine (prvMQTTPublishToTopic pf xSocket).
Proof.
  unfold prvMQTTPublishToTopic, write_xBuffer, xBuffer_prefix, FreeRTOS_send.
  makes_tac.
Qed.

Lemma on_socket_prvMQTTKeepAlive : makes_only mine (prvMQTTKeepAlive pf xSocket).
Proof.
  unfold prvMQTTKeepAlive, write_xBuffer, xBuffer_prefix, FreeRTOS_send. makes_tac.
Qed.

Lemma on_socket_prvMQTTDisconnect : makes_only mine (prvMQTTDisconnect pf xSocket).
Proof.
  unfold prvMQTTDisconnect, write_xBuffer, xBuffer_prefix, FreeRTOS_send. makes_tac.
Qed.

Lemma on_socket_prvGracefulShutDown_loop fuel n :
  makes_only mine (prvGracefulShutDown_loop pf fuel xSocket n).
Proof.
  revert n. induction fuel as [|fuel IH]; intros n; simpl;
    unfold FreeRTOS_recv, vTaskDelay, extern_; makes_tac.
Qed.

Hint Resolve on_socket_prvGracefulShutDown_loop : calls.

Lemma on_socket_prvGracefulShutDown : makes_only mine (prvGracefulShutDown pf xSocket).
Proof.
  unfold prvGracefulShutDown, FreeRTOS_shutdown, FreeRTOS_closesocket, extern_.
  makes_tac.
Qed.

Lemma on_socket_retry_if_rejected i n failed status p :
  makes_only mine (retry_if_rejected pf i n failed status p).
Proof.
  revert i. induction n as [|n IH]; intros i; simpl;
    unfold topic_filter, RetryUtils_BackoffAndSleep; makes_tac.
Qed.

Hint Resolve on_socket_prvCreateMQTTConnectionWithBroker
  on_socket_prvMQTTSubscribeToTopic on_socket_prvMQTTUnsubscribeFromTopic
  on_socket_prvMQTTPublishToTopic on_socket_prvMQTTKeepAlive
  on_socket_prvMQTTDisconnect on_socket_prvGracefulShutDown
  on_socket_retry_if_rejected : calls.

Lemma on_socket_prvMQTTSubscribeWithBackoffRetries_loop fuel failed status p :
  makes_only mine
    (prvMQTTSubscribeWithBackoffRetries_loop pf fuel xSocket failed status p).
Proof.
  revert failed status p.
  induction fuel as [|fuel IH]; intros failed status p; simpl;
    unfold mqttexampleTOPIC_COUNT; makes_tac.
Qed.

Lemma on_socket_prvMQTTSubscribeWithBackoffRetries fuel :
  makes_only mine (prvMQTTSubscribeWithBackoffRetries pf fuel xSocket).
Proof. apply on_socket_prvMQTTSubscribeWithBackoffRetries_loop. Qed.

Hint Resolve on_socket_prvMQTTSubscribeWithBackoffRetries : calls.

(** X5: once the connection step of a pass of the task's loop has returned
    a socket, every send, receive, shutdown and close of the pass is made on
    that socket, and no socket is created, looked up or connected, however
    the pass ends. *)
Theorem session_stays_on_its_socket fuel (s : St) s1 :
  prvConnectToServerWithBackoffRetries pf fuel s = Done xSocket s1 ->
  exists l,
    calls (final (prvMQTTDemoTask_iteration pf fuel s)) = calls s1 ++ l
    /\ forallb (on_socket xSocket) l = true.
Proof.
  intros H. unfold prvMQTTDemoTask_iteration. rewrite (bind_eq_Done _ _ _ _ _ H).
  match goal with
  | |- exists l, calls (final (?m s1)) = _ /\ _ =>
      enough (makes_only mine m) as K by exact (K s1)
  end.
  unfold mqttexampleTOPIC_COUNT, vTaskDelay, extern_.
  repeat first [ solve [auto 2 with calls]
               | apply makes_only_set_xSubAckSuccess
               | makes_step ].
Qed.

End OneSocket.

(** *** Packets fit the shared buffer *)

(** Sending [n] bytes from the start of the shared buffer, when [n] is at
    most [limit]: the send fits, and so does what follows if it fits. *)
Lemma fits_send_from_xBuffer {B} limit n xSocket (k : Z -> Prog B) :
  n <= limit -> 0 <= limit ->
  (forall xStatus, makes_only (fits limit) (k xStatus)) ->
  makes_only (fits limit)
    (bind (xBuffer_prefix n) (fun out => bind (FreeRTOS_send pf xSocket out) k)).
Proof.
  intros Hn Hlimit Hk.
  eapply makes_only_bind_returns;
    [apply returns_xBuffer_prefix|apply makes_only_gets|].
  intros out Hout. cbv beta in Hout. apply makes_only_bind; [|exact Hk].
  unfold FreeRTOS_send. apply makes_only_extern. simpl. apply Z.leb_le. lia.
Qed.

Ltac fits_tac :=
  repeat first
    [ apply fits_send_from_xBuffer;
      [ unfold mqttexampleSHARED_BUFFER_SIZE in *; lia
      | unfold mqttexampleSHARED_BUFFER_SIZE; lia
      | intros ]
    | apply makes_only_run_reader; intros; unfold prvTransportRecv, FreeRTOS_recv
    | match goal with
      | |- makes_only _ (bind (configASSERT (_ <? _)) _) =>
          apply makes_only_assert_bind;
          let H := fresh "Hsize" in intros H; apply Z.ltb_lt in H
      | |- makes_only _ (bind (configASSERT (_ <=? _)) _) =>
          apply makes_only_assert_bind;
          let H := fresh "Hsize" in intros H; apply Z.leb_le in H
      end
    | makes_step ].

(** X6: however they end, the functions that serialize a packet into the
    shared buffer and send it from there never hand [FreeRTOS_send] more bytes
    than the buffer holds: fewer than its 500 bytes for CONNECT, SUBSCRIBE and
    UNSUBSCRIBE, at most 500 for PINGREQ and DISCONNECT. *)
Theorem packets_fit_the_shared_buffer xSocket :
  makes_only (fits (mqttexampleSHARED_BUFFER_SIZE - 1))
    (prvCreateMQTTConnectionWithBroker pf xSocket)
  /\ makes_only (fits (mqttexampleSHARED_BUFFER_SIZE - 1))
       (prvMQTTSubscribeToTopic pf xSocket)
  /\ makes_only (fits (mqttexampleSHARED_BUFFER_SIZE - 1))
       (prvMQTTUnsubscribeFromTopic pf xSocket)
  /\ makes_only (fits mqttexampleSHARED_BUFFER_SIZE) (prvMQTTKeepAlive pf xSocket)
  /\ makes_only (fits mqttexampleSHARED_BUFFER_SIZE) (prvMQTTDisconnect pf xSocket).
Proof.
  repeat split.
  - unfold prvCreateMQTTConnectionWithBroker, MQTT_GetIncomingPacketTypeAndLength,
      write_xBuffer, recv_into_xBuffer, FreeRTOS_recv.
    fits_tac.
  - unfold prvMQTTSubscribeToTopic, mqttexampleTOPIC_COUNT,
      prvGetNextPacketIdentifier, write_xBuffer.
    fits_tac.
  - unfold prvMQTTUnsubscribeFromTopic, prvGetNextPacketIdentifier, write_xBuffer.
    fits_tac.
  - unfold prvMQTTKeepAlive, write_xBuffer. fits_tac.
  - unfold prvMQTTDisconnect, write_xBuffer. fits_tac.
Qed.

(** ** Outgoing packets *)

(** Taking a successful run apart as [run_in] does, keeping what the
    library returned as equations. *)
Ltac trace_in_steps H :=
  repeat match type of H with
         | bind _ _ _ = Done _ _ =>
             let x := fresh "x" in
             let s := fresh "s" in
             let H1 := fresh "R" in
             apply bind_Done in H as (x & s & H1 & H);
             trace_in_steps H1
         | configASSERT ?b _ = Done _ _ =>
             let E := fresh "A" in
             destruct b eqn:E; [inversion H; subst; clear H|discriminate H]
         | ret _ _ = Done _ _ => inversion H; subst; clear H
         | gets _ _ = Done _ _ => inversion H; subst; clear H
         | modify _ _ = Done _ _ => inversion H; subst; clear H
         | prvGetNextPacketIdentifier _ = Done _ _ =>
             rewrite prvGetNextPacketIdentifier_eq in H;
             inversion H; subst; clear H
         | extern _ _ _ = Done _ _ => inversion H; subst; clear H
         | mqttexampleTOPIC_COUNT _ = Done _ _ => inversion H; subst; clear H
         | (let '(_, _) := ?p in _) _ = Done _ _ =>
             let E := fresh "L" in destruct p eqn:E
         end.

Ltac trace_in H :=
  trace_in_steps H;
  repeat match goal with u : unit |- _ => destruct u end.

(** X7: a SUBSCRIBE that went out.  The packet was serialized for the
    identifier just issued, which is the one now remembered for the SUBACK;
    it was written to the start of the shared buffer and sent from there in
    one send whose result was the packet size.  The remembered unsubscribe
    identifier and the topic filter context are untouched. *)
Theorem subscribe_packet_carries_remembered_identifier xSocket (s s' : St) :
  prvMQTTSubscribeToTopic pf xSocket s = Done tt s' ->
  let subs := xMQTTSubscription pf (length (xTopicFilterContext s)) in
  let sized := mqtt_GetSubscribePacketSize (mqttlib World pf) subs in
  let packet :=
    mqtt_SerializeSubscribe (mqttlib World pf) subs
      (usSubscribePacketIdentifier s') sized.1.2 in
  let out := take (Z.to_nat sized.2) (ucSharedBuffer s') in
  packet.1 = MQTTSuccess
  /\ ucSharedBuffer s' = overwrite packet.2 (ucSharedBuffer s)
  /\ calls s' = calls s ++ [CallSend xSocket out]
  /\ (tcp_send World (sockets World pf) xSocket out (world s)).1 = sized.2
  /\ usSubscribePacketIdentifier s' = next_id (usPacketId s)
  /\ usPacketId s' = next_id (usPacketId s)
  /\ usSubscribePacketIdentifier s' <> 0
  /\ usUnsubscribePacketIdentifier s' = usUnsubscribePacketIdentifier s
  /\ xTopicFilterContext s' = xTopicFilterContext s.
Proof.
  unfold prvMQTTSubscribeToTopic, write_xBuffer, xBuffer_prefix, FreeRTOS_send.
  intros H. trace_in H. simpl. rewrite L0. simpl.
  apply bool_decide_eq_true in A2. apply Z.eqb_eq in A3.
  apply negb_true_iff, Z.eqb_neq in A1.
  repeat split; try reflexivity; assumption.
Qed.

(** X8: an UNSUBSCRIBE that went out.  The packet was serialized for the
    identifier just issued, which is the one now remembered for the UNSUBACK;
    it was sent from the start of the shared buffer in one send whose result
    was the packet size.  The remembered subscribe identifier and the topic
    filter context are untouched, so the SUBACK and the UNSUBACK of a session
    are matched against different identifiers. *)
Theorem unsubscribe_packet_carries_remembered_identifier xSocket (s s' : St) :
  prvMQTTUnsubscribeFromTopic pf xSocket s = Done tt s' ->
  let subs := xMQTTSubscription pf 1 in
  let sized := mqtt_GetUnsubscribePacketSize (mqttlib World pf) subs in
  let packet :=
    mqtt_SerializeUnsubscribe (mqttlib World pf) subs
      (usUnsubscribePacketIdentifier s') sized.1.2 in
  let out := take (Z.to_nat sized.2) (ucSharedBuffer s') in
  packet.1 = MQTTSuccess
  /\ ucSharedBuffer s' = overwrite packet.2 (ucSharedBuffer s)
  /\ calls s' = calls s ++ [CallSend xSocket out]
  /\ (tcp_send World (sockets World pf) xSocket out (world s)).1 = sized.2
  /\ usUnsubscribePacketIdentifier s' = next_id (usPacketId s)
  /\ usPacketId s' = next_id (usPacketId s)
  /\ usUnsubscribePacketIdentifier s' <> 0
  /\ usSubscribePacketIdentifier s' = usSubscribePacketIdentifier s
  /\ xTopicFilterContext s' = xTopicFilterContext s
  /\ (usSubscribePacketIdentifier s = usPacketId s ->
      1 <= usPacketId s <= 65535 ->
      usUnsubscribePacketIdentifier s' <> usSubscribePacketIdentifier s').
Proof.
  unfold prvMQTTUnsubscribeFromTopic, write_xBuffer, xBuffer_prefix, FreeRTOS_send.
  intros H. trace_in H. simpl. rewrite L0. simpl.
  apply bool_decide_eq_true in A2. apply Z.eqb_eq in A3.
  apply negb_true_iff, Z.eqb_neq in A1.
  do 9 (split; [first [reflexivity | assumption]|]).
  intros Hsame Hrange. rewrite Hsame, next_id_after by exact Hrange.
  destruct (_ =? 65535) eqn:E; [apply Z.eqb_eq in E|]; lia.
Qed.

Lemma take_length_take {A} n (l : list A) : take (length (take n l)) l = take n l.
Proof.
  rewrite length_take. destruct (Nat.min_spec n (length l)) as [[_ ->]|[Hle ->]].
  - reflexivity.
  - rewrite !take_ge by lia. reflexivity.
Qed.

(** X9: a PUBLISH that went out took two sends and no receive: the header,
    from the start of the shared buffer, and then the message itself, straight
    from the string literal and without its terminating NUL.  No packet
    identifier is issued for it and nothing of the session state changes. *)
Theorem publish_goes_out_in_two_sends xSocket (s s' : St) :
  prvMQTTPublishToTopic pf xSocket s = Done tt s' ->
  exists header,
    calls s' = calls s ++ [CallSend xSocket header;
                           CallSend xSocket (chars "Hello Light Weight MQTT World!")]
    /\ header = take (length header) (ucSharedBuffer s')
    /\ session_state s' = session_state s.
Proof.
  unfold prvMQTTPublishToTopic, write_xBuffer, xBuffer_prefix, FreeRTOS_send.
  intros H. trace_in H. simpl.
  eexists. split; [rewrite <- app_assoc; reflexivity|].
  split; [|reflexivity]. symmetry. apply take_length_take.
Qed.

(** X10: a PINGREQ and a DISCONNECT that went out each took one send, of
    the packet the library serialized into the shared buffer, and no receive;
    neither changes the session state. *)
Theorem pingreq_and_disconnect_take_one_send xSocket (s s' : St) :
  (prvMQTTKeepAlive pf xSocket s = Done tt s' ->
   ucSharedBuffer s' = overwrite (mqtt_SerializePingreq (mqttlib World pf)).2 (ucSharedBuffer s)
   /\ calls s' = calls s
        ++ [CallSend xSocket
              (take (Z.to_nat (mqtt_GetPingreqPacketSize (mqttlib World pf)).2)
                 (ucSharedBuffer s'))]
   /\ session_state s' = session_state s)
  /\ (prvMQTTDisconnect pf xSocket s = Done tt s' ->
      ucSharedBuffer s'
      = overwrite (mqtt_SerializeDisconnect (mqttlib World pf)).2 (ucSharedBuffer s)
      /\ calls s' = calls s
           ++ [CallSend xSocket
                 (take (Z.to_nat (mqtt_GetDisconnectPacketSize (mqttlib World pf)).2)
                    (ucSharedBuffer s'))]
      /\ session_state s' = session_state s).
Proof.
  split.
  - unfold prvMQTTKeepAlive, write_xBuffer, xBuffer_prefix, FreeRTOS_send.
    intros H. trace_in H. simpl. repeat split; reflexivity.
  - unfold prvMQTTDisconnect, write_xBuffer, xBuffer_prefix, FreeRTOS_send.
    intros H. trace_in H. simpl. repeat split; reflexivity.
Qed.

(** ** Identifiers over the life of the task *)

(** From the zero the counter starts at, the [n]-th identifier is
    [(n - 1) mod 65535 + 1]: the identifiers run through 1 .. 65535 and start
    again at 1. *)
Lemma iter_next_id n :
  (1 <= n)%nat -> Nat.iter n next_id 0 = (Z.of_nat n - 1) mod 65535 + 1.
Proof.
  induction n as [|n IH]; [lia|]. intros _.
  destruct n as [|n]; [reflexivity|].
  rewrite Nat.iter_succ, IH by lia. clear IH.
  replace (Z.of_nat (S (S n)) - 1) with ((Z.of_nat (S n) - 1) + 1) by lia.
  generalize (Z.of_nat (S n) - 1). intros a.
  pose proof (Z.mod_pos_bound a 65535 ltac:(lia)) as Hb.
  rewrite next_id_after by lia.
  rewrite <- (Z.add_mod_idemp_l a 1 65535) by lia.
  revert Hb. generalize (a mod 65535). intros r Hb.
  destruct (r + 1 =? 65535) eqn:E.
  - apply Z.eqb_eq in E. rewrite E. reflexivity.
  - apply Z.eqb_neq in E. rewrite Z.mod_small by lia. reflexivity.
Qed.

Lemma issue_lookup n : forall (s : St) k,
  (k < n)%nat -> issue n s !! k = Some (Nat.iter (S k) next_id (usPacketId s)).
Proof.
  induction n as [|n IH]; intros s k Hk; [lia|].
  rewrite issue_S. destruct k as [|k]; [reflexivity|].
  rewrite (Nat.iter_succ_r (S k)).
  apply (IH (set_usPacketId (next_id (usPacketId s)) s) k). lia.
Qed.

(** X11: from the zero-initialised counter, the identifier issued by call
    number [k] (counted from 0) is [k mod 65535 + 1]: the allocator runs
    through 1 .. 65535 in order and starts again at 1, so an identifier is
    reused only after 65535 calls. *)
Theorem identifiers_have_period_65535 (N k : nat) (s : St) :
  usPacketId s = 0 ->
  (k < N)%nat ->
  issue N s !! k = Some (Z.of_nat k mod 65535 + 1)
  /\ (forall j, (j < N)%nat -> issue N s !! j = issue N s !! k ->
        (Z.of_nat j - Z.of_nat k) mod 65535 = 0).
Proof.
  intros Hzero Hk.
  assert (forall i, (i < N)%nat -> issue N s !! i = Some (Z.of_nat i mod 65535 + 1))
    as Hclosed.
  { intros i Hi. rewrite issue_lookup, Hzero, iter_next_id by lia.
    do 3 f_equal. lia. }
  split; [apply Hclosed; exact Hk|].
  intros j Hj. rewrite !Hclosed by assumption. intros E.
  assert (Z.of_nat j mod 65535 = Z.of_nat k mod 65535) as Em
    by (inversion E; lia).
  rewrite Zminus_mod, Em, Z.sub_diag. reflexivity.
Qed.

(** What [rounds] completed passes of the task's loop leave behind. *)
Lemma prvMQTTDemoTask_Done rounds fuel : forall (s s' : St),
  prvMQTTDemoTask pf rounds fuel s = Done tt s' ->
  usPacketId s' = Nat.iter (2 * rounds) next_id (usPacketId s)
  /\ filters s' = filters s
  /\ ((1 <= rounds)%nat ->
      usSubscribePacketIdentifier s'
      = Nat.iter (2 * rounds - 1) next_id (usPacketId s)
      /\ usUnsubscribePacketIdentifier s' = usPacketId s'
      /\ Forall (fun e => xSubAckSuccess e = false) (xTopicFilterContext s')).
Proof.
  induction rounds as [|rounds IH]; intros s s' H.
  - inversion H. split; [reflexivity|]. split; [reflexivity|]. lia.
  - simpl in H. apply bind_Done in H as ([] & s1 & Hfirst & H).
    apply prvMQTTDemoTask_iteration_Done in Hfirst as (Hc & Hs & Hu & Hflags & Hf).
    destruct (IH _ _ H) as (Hc' & Hf' & Hlater).
    replace (2 * S rounds)%nat with (S (S (2 * rounds))) by lia.
    rewrite !Nat.iter_succ_r, <- Hc. split; [exact Hc'|].
    split; [congruence|]. intros _.
    destruct rounds as [|rounds].
    + inversion H; subst. simpl.
      split; [exact Hs|]. split; [congruence|exact Hflags].
    + destruct Hlater as (Hs' & Hu' & Hflags'); [lia|].
      split; [|split; assumption].
      rewrite Hs', Hc.
      replace (S (S (2 * S rounds)) - 1)%nat with (S (S (2 * S rounds - 1))) by lia.
      rewrite !Nat.iter_succ_r. reflexivity.
Qed.

(** X12: after [rounds] completed passes of the task's loop, started with
    the counter at its initial zero, the remembered subscribe and unsubscribe
    identifiers are those of the last pass, identifiers number [2 * rounds - 1]
    and [2 * rounds] of the task: they differ, the counter is at the second of
    them, every flag is false and the filters are what they were. *)
Theorem rounds_advance_the_identifiers rounds fuel (s s' : St) :
  prvMQTTDemoTask pf rounds fuel s = Done tt s' ->
  (1 <= rounds)%nat ->
  usPacketId s = 0 ->
  usSubscribePacketIdentifier s' = (2 * Z.of_nat rounds - 2) mod 65535 + 1
  /\ usUnsubscribePacketIdentifier s' = (2 * Z.of_nat rounds - 1) mod 65535 + 1
  /\ usPacketId s' = usUnsubscribePacketIdentifier s'
  /\ usSubscribePacketIdentifier s' <> usUnsubscribePacketIdentifier s'
  /\ Forall (fun e => xSubAckSuccess e = false) (xTopicFilterContext s')
  /\ filters s' = filters s.
Proof.
  intros H Hrounds Hzero.
  apply prvMQTTDemoTask_Done in H as (Hc & Hf & Hlater).
  destruct (Hlater Hrounds) as (Hs & Hu & Hflags).
  rewrite Hzero in Hc, Hs. rewrite iter_next_id in Hc, Hs by lia.
  assert (usSubscribePacketIdentifier s' = (2 * Z.of_nat rounds - 2) mod 65535 + 1)
    as Hs' by (rewrite Hs; do 2 f_equal; lia).
  assert (usUnsubscribePacketIdentifier s' = (2 * Z.of_nat rounds - 1) mod 65535 + 1)
    as Hu' by (rewrite Hu, Hc; do 2 f_equal; lia).
  split; [exact Hs'|]. split; [exact Hu'|]. split; [symmetry; exact Hu|].
  split; [|split; assumption].
  rewrite Hs', Hu'.
  replace (2 * Z.of_nat rounds - 1) with ((2 * Z.of_nat rounds - 2) + 1) by lia.
  rewrite <- (Z.add_mod_idemp_l (2 * Z.of_nat rounds - 2) 1 65535) by lia.
  pose proof (Z.mod_pos_bound (2 * Z.of_nat rounds - 2) 65535 ltac:(lia)) as Hb.
  revert Hb. generalize ((2 * Z.of_nat rounds - 2) mod 65535). intros r Hb.
  destruct (Z.eq_dec (r + 1) 65535) as [E|E].
  - rewrite E. change (65535 mod 65535) with 0. lia.
  - rewrite Z.mod_small by lia. lia.
Qed.

(** ** The dispatcher on a SUBACK *)

(** The body read leaves the remaining length, and points the descriptor
    at the start of the shared buffer when there is a body. *)
Lemma receive_body_Done xSocket pkt (s : St) pkt' s' :
  receive_body pf xSocket pkt s = Done pkt' s' ->
  remainingLength pkt' = remainingLength pkt
  /\ (0 < remainingLength pkt ->
      pkt' = mkPacketInfo (type pkt) (Buf 0) (remainingLength pkt)).
Proof.
  unfold receive_body. destruct (remainingLength pkt >? 0) eqn:E.
  - intros H. apply bind_Done in H as (x & s1 & _ & H).
    apply bind_Done in H as ([] & s2 & _ & H). inversion H.
    split; [reflexivity|]. intros _. reflexivity.
  - intros H. inversion H; subst. split; [reflexivity|]. lia.
Qed.

(** X13: the dispatcher returns on a packet whose header says SUBACK only
    if the header read succeeded, the remaining length is between 3 and the
    size of the shared buffer, the acknowledgement decoder reported
    [MQTTSuccess] for the packet received into the buffer (so the alternative
    [MQTTServerRefused] of the second assertion never lets a packet through),
    the identifier it decoded is the remembered subscribe identifier, and the
    packet has no more status bytes than the context has filters. *)
Theorem suback_is_accepted_only_when xSocket (s : St) xResult pkt s1 s' :
  receive_header pf xSocket s = Done (xResult, pkt) s1 ->
  xResult <> MQTTNoDataAvailable ->
  type pkt = MQTT_PACKET_TYPE_SUBACK ->
  prvMQTTProcessIncomingPacket pf xSocket s = Done tt s' ->
  let received :=
    mkPacketInfo MQTT_PACKET_TYPE_SUBACK (Buf 0) (remainingLength pkt) in
  let decoded :=
    mqtt_DeserializeAck (mqttlib World pf) received (ucSharedBuffer s') false in
  xResult = MQTTSuccess
  /\ 3 <= remainingLength pkt <= mqttexampleSHARED_BUFFER_SIZE
  /\ decoded.1.1 = MQTTSuccess
  /\ decoded.1.2 = usSubscribePacketIdentifier s
  /\ remainingLength pkt - 2 <= Z.of_nat (length (xTopicFilterContext s)).
Proof.
  intros Hhdr Hdata Htype H received decoded.
  rewrite (prvMQTTProcessIncomingPacket_after_header _ _ _ _ _ Hhdr) in H.
  unfold process_packet in H.
  destruct (bool_decide (xResult <> MQTTNoDataAvailable)) eqn:E;
    [|apply bool_decide_eq_false in E; contradiction].
  apply bind_Done in H as ([] & s2 & Hok & H).
  apply bind_Done in H as ([] & s3 & Hlen & H).
  apply bind_Done in H as (pkt' & s4 & Hbody & H).
  apply bind_Done in H as (buf & s5 & Hbuf & H).
  run_in Hok. run_in Hlen. inversion Hbuf; subst buf s5; clear Hbuf.
  pose proof (receive_body_type _ _ _ _ _ Hbody) as Ht. rewrite Htype in Ht.
  rewrite Ht in H. simpl in H.
  destruct (mqtt_DeserializeAck _ pkt' _ _) as [[r id] present] eqn:Edec.
  apply bind_Done in H as ([] & s5 & Hdec & H).
  apply bind_Done in H as ([] & s6 & Hupd & Hresp).
  apply bind_Done in Hupd as ([] & s7 & Hupd & Hagain).
  run_in Hdec. run_in Hagain.
  apply bool_decide_eq_true in A. apply Z.leb_le in A0.
  match goal with A1 : bool_decide (r = MQTTSuccess) = true |- _ =>
    apply bool_decide_eq_true in A1; subst r
  end.
  pose proof (keeps_Done _ _ _ _ _ (keeps_filters_prvMQTTUpdateSubAckStatus pkt') Hupd)
    as Hfilters.
  kept (@usSubscribePacketIdentifier World) Hupd. rename K into Ksub.
  unfold prvMQTTUpdateSubAckStatus in Hupd. run_in Hupd.
  apply status_loop in Hupd as (Hbuf & _ & Hstatus).
  destruct (receive_body_Done _ _ _ _ _ Hbody) as (Hsame & Hpoint).
  assert (3 <= remainingLength pkt) as Hthree by lia.
  rewrite Hpoint, Htype in Edec by lia.
  unfold prvMQTTProcessResponse in Hresp. rewrite Ht in Hresp. simpl in Hresp.
  apply bind_Done in Hresp as (n & s8 & Hn & Hresp).
  apply bind_Done in Hresp as ([] & s9 & Hloop & Hresp).
  apply bind_Done in Hresp as (expected & s10 & Hexp & Hid).
  run_in Hn. run_in Hexp. run_in Hid.
  match goal with A1 : (_ =? id) = true |- _ => apply Z.eqb_eq in A1; rename A1 into Hid end.
  destruct (granted_log_loop (length (xTopicFilterContext s8)) 0 s8) as (l & Hl);
    [simpl; lia|].
  rewrite Hl in Hloop. inversion Hloop; subst s'; clear Hloop Hl.
  simpl in Hid. subst decoded received. simpl ucSharedBuffer.
  pose proof (keeps_Done _ _ _ _ _
                (keeps_receive_body session_state ltac:(reflexivity)
                   ltac:(reflexivity) ltac:(reflexivity) xSocket pkt) Hbody) as Kbody.
  pose proof (keeps_Done _ _ _ _ _
                (keeps_receive_header session_state ltac:(reflexivity)
                   ltac:(reflexivity) xSocket) Hhdr) as Khdr.
  unfold session_state in Kbody, Khdr.
  injection Kbody as Kc0 Ks0 Ku0 Kx0. injection Khdr as Kc Ks Ku Kx.
  split; [reflexivity|]. split; [lia|].
  rewrite Hbuf, Edec. simpl.
  split; [reflexivity|]. split; [congruence|].
  destruct (Hstatus (Z.to_nat (remainingLength pkt' - 3))) as (code & _ & Hflag);
    [lia|].
  rewrite <- list_lookup_fmap in Hflag. apply lookup_lt_Some in Hflag.
  rewrite length_fmap in Hflag.
  assert (length (xTopicFilterContext s8) = length (xTopicFilterContext s)) as Hdim.
  { rewrite <- Kx, <- Kx0. unfold filters in Hfilters.
    rewrite <- (length_fmap pcTopicFilter (xTopicFilterContext s8)), Hfilters.
    apply length_fmap. }
  lia.
Qed.

(** ** Subscribing with retries *)

(** X14: the inspection of the flags in [prvMQTTSubscribeWithBackoffRetries],
    when it returns, made no call and changed nothing if every flag it passed
    is set; otherwise it made exactly one back-off, for the first filter whose
    flag is not set, and left the loop there: the filters behind it do not add
    a second back-off to the pass. *)
Theorem one_backoff_per_pass n : forall i failed status p (s : St) r s',
  retry_if_rejected pf i n failed status p s = Done r s' ->
  (s' = s /\ r = (failed, status, p)
   /\ forall j e, (i <= j < i + n)%nat ->
        xTopicFilterContext s !! j = Some e -> xSubAckSuccess e = true)
  \/ (exists j e,
        (i <= j < i + n)%nat
        /\ xTopicFilterContext s !! j = Some e /\ xSubAckSuccess e = false
        /\ (forall j' e', (i <= j' < j)%nat ->
              xTopicFilterContext s !! j' = Some e' -> xSubAckSuccess e' = true)
        /\ let b := retry_BackoffAndSleep World (kernel World pf) p (world s) in
           s' = after_calls
                  [CallLog "Server rejected subscription request. Attempting to re-subscribe to topic %s.";
                   CallBackoff] b.2 s
           /\ r = (true, b.1.1, b.1.2)).
Proof.
  induction n as [|n IH]; intros i failed status p s r s' H; simpl in H.
  - inversion H; subst. left. repeat split; try reflexivity. intros; lia.
  - apply bind_Done in H as (e & s1 & He & H).
    unfold topic_filter in He. run_in He.
    destruct (xSubAckSuccess e) eqn:Eflag; simpl in H.
    + apply IH in H as [(-> & -> & Hall)|(j & e' & Hj & Hlook & Hflag & Hbefore & Hb)].
      * left. repeat split; try reflexivity.
        intros j e' Hj Hlook. destruct (decide (j = i)) as [->|Hne].
        -- congruence.
        -- apply (Hall j e'); [lia|exact Hlook].
      * right. exists j, e'. split; [lia|]. split; [exact Hlook|].
        split; [exact Hflag|]. split; [|exact Hb].
        intros j' e'' Hj' Hlook'. destruct (decide (j' = i)) as [->|Hne].
        -- congruence.
        -- apply (Hbefore j' e''); [lia|exact Hlook'].
    + right. exists i, e. split; [lia|]. split; [assumption|].
      split; [exact Eflag|]. split; [intros; lia|].
      rewrite (bind_eq_Done _ _ _ _ _ (LogInfo_eq _ _)) in H.
      unfold RetryUtils_BackoffAndSleep in H.
      rewrite (bind_eq_Done _ _ _ _ _ (extern_eq _ _ _)) in H.
      rewrite after_calls_again in H. inversion H. split; reflexivity.
Qed.

(** ** What stops the dispatcher before the decoder *)

Lemma recv_into_xBuffer_eq xSocket len (s : St) :
  let got := tcp_recv World (sockets World pf) xSocket len (world s) in
  recv_into_xBuffer pf xSocket len s
  = Done got.1.1
      (set_ucSharedBuffer
         (overwrite (take (Z.to_nat len) got.1.2) (ucSharedBuffer s))
         (after_calls [CallRecv xSocket len] got.2 s)).
Proof. reflexivity. Qed.

(** X15: once a header is read that is not "no data", the dispatcher stops
    at an assertion, before the packet is decoded, in each of these cases: the
    header read did not succeed, or the remaining length exceeds the size of
    the shared buffer (nothing of the body is then received: the state is the
    one the header read left), or the receive of the body returned another
    count than the remaining length (what was received is then in the
    buffer). *)
Theorem dispatcher_stops_before_the_decoder xSocket (s : St) xResult pkt s1 :
  receive_header pf xSocket s = Done (xResult, pkt) s1 ->
  xResult <> MQTTNoDataAvailable ->
  (xResult <> MQTTSuccess \/ mqttexampleSHARED_BUFFER_SIZE < remainingLength pkt ->
   prvMQTTProcessIncomingPacket pf xSocket s = Stop AssertFailed s1)
  /\ (xResult = MQTTSuccess ->
      0 < remainingLength pkt <= mqttexampleSHARED_BUFFER_SIZE ->
      let got :=
        tcp_recv World (sockets World pf) xSocket (remainingLength pkt) (world s1) in
      got.1.1 <> remainingLength pkt ->
      prvMQTTProcessIncomingPacket pf xSocket s
      = Stop AssertFailed
          (set_ucSharedBuffer
             (overwrite (take (Z.to_nat (remainingLength pkt)) got.1.2)
                (ucSharedBuffer s1))
             (after_calls [CallRecv xSocket (remainingLength pkt)] got.2 s1))).
Proof.
  intros Hhdr Hdata.
  rewrite (prvMQTTProcessIncomingPacket_after_header _ _ _ _ _ Hhdr).
  unfold process_packet.
  rewrite (bool_decide_eq_true_2 _ Hdata).
  split.
  - intros [Hbad|Hlong].
    + rewrite (bool_decide_eq_false_2 _ Hbad). reflexivity.
    + destruct (bool_decide (xResult = MQTTSuccess)); [|reflexivity].
      replace (remainingLength pkt <=? mqttexampleSHARED_BUFFER_SIZE) with false by lia.
      reflexivity.
  - intros -> Hlen Hshort.
    set (got := tcp_recv World (sockets World pf) xSocket (remainingLength pkt)
                  (world s1)) in *.
    replace (bool_decide (MQTTSuccess = MQTTSuccess)) with true by reflexivity.
    replace (remainingLength pkt <=? mqttexampleSHARED_BUFFER_SIZE) with true by lia.
    rewrite (bind_eq_Done _ _ s1 tt s1) by reflexivity.
    rewrite (bind_eq_Done _ _ s1 tt s1) by reflexivity.
    apply bind_eq_Stop. unfold receive_body.
    replace (remainingLength pkt >? 0) with true by lia.
    rewrite (bind_eq_Done _ _ _ _ _ (recv_into_xBuffer_eq _ _ _)).
    fold got. apply bind_eq_Stop.
    replace (got.1.1 =? remainingLength pkt) with false by lia.
    reflexivity.
Qed.

(** ** The SUBACK tracker *)

(** X16: [prvMQTTUpdateSubAckStatus] fails its assertions, with nothing
    changed, on a descriptor that is not a SUBACK, that has no data, or whose
    remaining length is below 3; and however it ends it makes no call and
    changes nothing but flags of the context: the counter, the remembered
    identifiers, the shared buffer and the filters stay what they were. *)
Theorem suback_tracker_checks_its_descriptor pkt (s : St) :
  (type pkt <> MQTT_PACKET_TYPE_SUBACK
   \/ pRemainingData pkt = NULL
   \/ remainingLength pkt < 3 ->
   prvMQTTUpdateSubAckStatus pkt s = Stop AssertFailed s)
  /\ let s' := final (prvMQTTUpdateSubAckStatus pkt s) in
     usPacketId s' = usPacketId s
     /\ usSubscribePacketIdentifier s' = usSubscribePacketIdentifier s
     /\ usUnsubscribePacketIdentifier s' = usUnsubscribePacketIdentifier s
     /\ ucSharedBuffer s' = ucSharedBuffer s
     /\ world s' = world s
     /\ calls s' = calls s
     /\ filters s' = filters s.
Proof.
  split.
  - intros Hbad. unfold prvMQTTUpdateSubAckStatus.
    destruct (type pkt =? MQTT_PACKET_TYPE_SUBACK) eqn:Et; [|reflexivity].
    destruct (is_null (pRemainingData pkt)) eqn:En; [reflexivity|].
    destruct (remainingLength pkt >=? 3) eqn:El; [|reflexivity].
    exfalso. apply Z.eqb_eq in Et.
    destruct Hbad as [Hbad|[Hbad|Hbad]]; [contradiction| |lia].
    rewrite Hbad in En. discriminate En.
  - intros s'.
    assert (keeps (fun s : St =>
                     (usPacketId s, usSubscribePacketIdentifier s,
                      usUnsubscribePacketIdentifier s, ucSharedBuffer s,
                      world s, calls s))
              (prvMQTTUpdateSubAckStatus pkt : Prog unit)) as K.
    { unfold prvMQTTUpdateSubAckStatus, record_status, set_xSubAckSuccess,
        topic_filter.
      keeps_tac. }
    specialize (K s). fold s' in K. injection K as Kc Ks Ku Kb Kw Kl.
    pose proof (keeps_filters_prvMQTTUpdateSubAckStatus pkt s) as Kf. fold s' in Kf.
    repeat split; assumption.
Qed.
End Facts.

(** * The properties on the scripted broker *)

Section OnTheScriptedBroker.

Import Scripted.

Local Abbreviation strict := (platform true).
Local Abbreviation lenient := (platform false).

(** The scripted session runs to its end. *)
Example scripted_session_completes :
  succeeded (prvMQTTDemoTask_iteration strict 5 before_session) = true.
Proof. vm_compute. reflexivity. Qed.

(** Two sessions in a row use the identifiers 1 to 4. *)
Example two_sessions :
  let s := final (prvMQTTDemoTask strict 2 5
                    (start true 1 [session 1 2; session 3 4])) in
  (usPacketId s, usSubscribePacketIdentifier s, usUnsubscribePacketIdentifier s,
   flags s) = (4, 3, 4, [false]).
Proof. vm_compute. reflexivity. Qed.

(** The identifier issued after 65535 is 1. *)
Example identifier_wraps_to_one :
  issue (Z.to_nat 65536) before_session !! Z.to_nat 65534 = Some 65535
  /\ issue (Z.to_nat 65536) before_session !! Z.to_nat 65535 = Some 1.
Proof. vm_compute. split; reflexivity. Qed.

(** The first identifier of the task is 1. *)
Lemma packet_identifier_sequence_witness :
  (0 < 3)%nat /\ issue 3 before_session !! 0%nat = Some 1.
Proof.
  split; [lia|].
  apply (packet_identifier_sequence Wire strict 3 1 (mkWire [] false [session 1 2])).
  lia.
Defined.

(** C3 as stated fails: after the scripted session the remembered
    identifiers are 1 and 2, not the 0 they were at its start, and the shared
    buffer has changed too. *)
Lemma session_does_not_restore_identifiers :
  exists s',
    prvMQTTDemoTask_iteration strict 5 before_session = Done tt s'
    /\ usSubscribePacketIdentifier before_session = 0
    /\ usSubscribePacketIdentifier s' = 1
    /\ usUnsubscribePacketIdentifier before_session = 0
    /\ usUnsubscribePacketIdentifier s' = 2
    /\ ~ (usSubscribePacketIdentifier s' = usSubscribePacketIdentifier before_session
          /\ usUnsubscribePacketIdentifier s' = usUnsubscribePacketIdentifier before_session
          /\ xTopicFilterContext s' = xTopicFilterContext before_session
          /\ ucSharedBuffer s' = ucSharedBuffer before_session).
Proof.
  eexists. split; [vm_compute; reflexivity|].
  repeat split; try reflexivity.
  intros (H & _). vm_compute in H. discriminate H.
Qed.

(** The scripted session leaves the context as it was and remembers the
    subscribe identifier 1. *)
Lemma session_iteration_leaves_witness :
  prvMQTTDemoTask_iteration strict 5 before_session
  = Done tt (final (prvMQTTDemoTask_iteration strict 5 before_session))
  /\ xTopicFilterContext (final (prvMQTTDemoTask_iteration strict 5 before_session))
     = xTopicFilterContext before_session
  /\ usSubscribePacketIdentifier
       (final (prvMQTTDemoTask_iteration strict 5 before_session)) = 1.
Proof.
  assert (prvMQTTDemoTask_iteration strict 5 before_session
          = Done tt (final (prvMQTTDemoTask_iteration strict 5 before_session)))
    as H by (vm_compute; reflexivity).
  split; [exact H|].
  destruct (session_iteration_leaves Wire strict 5 before_session _ H)
    as (_ & _ & Hctx & Hsub & _).
  split.
  - apply Hctx. repeat constructor.
  - rewrite Hsub. reflexivity.
Defined.

(** C2 fails on the code.  With the decoder that reports a refused SUBACK
    as [MQTTServerRefused], the first SUBACK fails the assertion on the
    decoder's status: one SUBSCRIBE was sent and no retry takes place.  With a
    decoder that reports it as success, the flag [xFailedSubscribeToTopic] set
    by the first pass is never cleared, so the loop goes on after the second
    SUBACK has granted the subscription: it never returns, and a third
    SUBSCRIBE is sent. *)
Theorem subscribe_refused_then_granted :
  (forall fuel,
     exists s1,
       prvMQTTSubscribeWithBackoffRetries strict (S fuel) the_socket
         (refused_then_granted true) = Stop AssertFailed s1
       /\ sends (calls s1) = 1%nat)
  /\ (forall fuel s',
       prvMQTTSubscribeWithBackoffRetries lenient fuel the_socket
         (refused_then_granted false) <> Done tt s')
  /\ (exists s3,
       prvMQTTSubscribeWithBackoffRetries lenient 3 the_socket
         (refused_then_granted false) = Stop OutOfFuel s3
       /\ sends (calls s3) = 3%nat
       /\ flags s3 = [true]).
Proof.
  split; [|split].
  - intros fuel. eexists. split.
    + unfold prvMQTTSubscribeWithBackoffRetries.
      cbn [prvMQTTSubscribeWithBackoffRetries_loop].
      vm_compute. reflexivity.
    + vm_compute. reflexivity.
  - intros fuel s' H.
    apply prvMQTTSubscribeWithBackoffRetries_Done in H as (Hfirst & Hflags).
    assert (flags s' = [false]) as Hf.
    { assert (s' = final (subscribe_attempt lenient the_socket (refused_then_granted false)))
        as -> by (rewrite Hfirst; reflexivity).
      vm_compute. reflexivity. }
    unfold flags in Hf.
    destruct (xTopicFilterContext s') as [|e l]; [discriminate|].
    inversion Hflags as [|? ? He _]; subst. simpl in Hf. congruence.
  - eexists. split; [vm_compute; reflexivity|]. split; vm_compute; reflexivity.
Qed.



(** C5 as stated fails: a PUBACK is neither SUBACK, UNSUBACK, PINGRESP nor
    PUBLISH, and yet the response handler returns on it, as does the
    dispatcher when the decoder accepts the packet: a warning is logged, that
    is all. *)
Lemma unknown_response_is_only_logged :
  let pkt := mkPacketInfo MQTT_PACKET_TYPE_PUBACK (Buf 0) 2 in
  type pkt <> MQTT_PACKET_TYPE_SUBACK
  /\ type pkt <> MQTT_PACKET_TYPE_UNSUBACK
  /\ type pkt <> MQTT_PACKET_TYPE_PINGRESP
  /\ Z.land (type pkt) 0xf0 <> MQTT_PACKET_TYPE_PUBLISH
  /\ prvMQTTProcessResponse pkt 1 puback_arrives
     = Done tt (record_call
         (CallLog "prvMQTTProcessResponse() called with unknown packet type:(%02X).\r\n")
         puback_arrives)
  /\ succeeded (prvMQTTProcessIncomingPacket strict the_socket puback_arrives) = true.
Proof.
  repeat split; try discriminate; vm_compute; reflexivity.
Qed.

(** A SUBACK with identifier 7 when none is outstanding fails the
    assertion. *)
Lemma response_handling_witness :
  let pkt := mkPacketInfo MQTT_PACKET_TYPE_SUBACK (Buf 0) 3 in
  type pkt = MQTT_PACKET_TYPE_SUBACK
  /\ succeeded (prvMQTTProcessResponse pkt 7 nothing_arrives) = false
  /\ exists s', prvMQTTProcessResponse pkt 7 nothing_arrives = Stop AssertFailed s'.
Proof.
  intros pkt.
  destruct (response_handling Wire pkt 7 nothing_arrives) as (Hsub & _ & _ & _ & Hstop).
  assert (succeeded (prvMQTTProcessResponse pkt 7 nothing_arrives) = false) as Hfail.
  { rewrite Hsub; reflexivity. }
  split; [reflexivity|]. split; [exact Hfail|]. apply Hstop. exact Hfail.
Defined.

(** C6 as stated fails: for the null handle and for
    [FREERTOS_INVALID_SOCKET] nothing is shut down and nothing is closed. *)
Lemma null_socket_is_not_closed :
  prvGracefulShutDown strict 0 nothing_arrives = Done tt nothing_arrives
  /\ prvGracefulShutDown strict (FREERTOS_INVALID_SOCKET Wire tcp) nothing_arrives
     = Done tt nothing_arrives
  /\ calls nothing_arrives = [].
Proof. repeat split. Qed.

(** With data still arriving, the shutdown polls three times, sleeps after
    each poll, and closes. *)
Lemma graceful_shutdown_witness :
  the_socket <> 0
  /\ the_socket <> FREERTOS_INVALID_SOCKET Wire tcp
  /\ calls (final (prvGracefulShutDown strict the_socket publish_arrives))
     = [CallShutdown the_socket;
        CallRecv the_socket 20; CallDelay 250;
        CallRecv the_socket 20; CallDelay 250;
        CallRecv the_socket 20; CallDelay 250;
        CallClose the_socket].
Proof.
  assert (the_socket <> 0) as H0 by discriminate.
  assert (the_socket <> FREERTOS_INVALID_SOCKET Wire tcp) as Hinv by discriminate.
  split; [exact H0|]. split; [exact Hinv|].
  destruct (graceful_shutdown Wire strict the_socket publish_arrives) as (Hvalid & _).
  destruct (Hvalid H0 Hinv) as (Hrun & _).
  rewrite Hrun. vm_compute. reflexivity.
Defined.

(** The scripted PINGRESP is processed with the two receives of the header
    read and no other. *)
Lemma pingresp_without_body_read_witness :
  receive_header strict the_socket pingresp_arrives
  = Done (MQTTSuccess, mkPacketInfo MQTT_PACKET_TYPE_PINGRESP NULL 0)
         (final (receive_header strict the_socket pingresp_arrives))
  /\ recvs (calls (final (prvMQTTProcessIncomingPacket strict the_socket pingresp_arrives)))
     = recvs (calls (final (receive_header strict the_socket pingresp_arrives))).
Proof.
  assert (receive_header strict the_socket pingresp_arrives
          = Done (MQTTSuccess, mkPacketInfo MQTT_PACKET_TYPE_PINGRESP NULL 0)
                 (final (receive_header strict the_socket pingresp_arrives))) as H
    by (vm_compute; reflexivity).
  split; [exact H|].
  destruct (pingresp_without_body_read Wire strict the_socket _ _ _ H eq_refl eq_refl)
    as (Hrun & _ & _).
  rewrite Hrun. vm_compute. reflexivity.
Defined.

(** The echoed PUBLISH is processed alike with the remembered identifiers
    set to 7 and 9. *)
Lemma publish_never_checks_identifiers_witness :
  receive_header strict the_socket publish_arrives
  = Done (MQTTSuccess, mkPacketInfo MQTT_PACKET_TYPE_PUBLISH NULL 64)
         (final (receive_header strict the_socket publish_arrives))
  /\ Z.land MQTT_PACKET_TYPE_PUBLISH 0xf0 = MQTT_PACKET_TYPE_PUBLISH
  /\ prvMQTTProcessIncomingPacket strict the_socket (set_remembered 7 9 publish_arrives)
     = with_state (set_remembered 7 9)
         (prvMQTTProcessIncomingPacket strict the_socket publish_arrives).
Proof.
  assert (receive_header strict the_socket publish_arrives
          = Done (MQTTSuccess, mkPacketInfo MQTT_PACKET_TYPE_PUBLISH NULL 64)
                 (final (receive_header strict the_socket publish_arrives))) as H
    by (vm_compute; reflexivity).
  split; [exact H|]. split; [reflexivity|].
  apply (publish_never_checks_identifiers Wire strict the_socket _ _ _ _ H eq_refl).
Defined.

(** With nothing under way the dispatcher returns after the header
    read. *)
Lemma no_data_is_not_an_error_witness :
  receive_header strict the_socket nothing_arrives
  = Done (MQTTNoDataAvailable, mkPacketInfo 0 NULL 0)
         (final (receive_header strict the_socket nothing_arrives))
  /\ prvMQTTProcessIncomingPacket strict the_socket nothing_arrives
     = Done tt (final (receive_header strict the_socket nothing_arrives))
  /\ variables (final (receive_header strict the_socket nothing_arrives))
     = variables nothing_arrives.
Proof.
  assert (receive_header strict the_socket nothing_arrives
          = Done (MQTTNoDataAvailable, mkPacketInfo 0 NULL 0)
                 (final (receive_header strict the_socket nothing_arrives))) as H
    by (vm_compute; reflexivity).
  split; [exact H|].
  apply (no_data_is_not_an_error Wire strict the_socket _ _ _ H).
Defined.

(** The echoed PUBLISH leaves the session state of the scenario as it
    was. *)
Lemma incoming_publish_leaves_session_witness :
  receive_header strict the_socket publish_arrives
  = Done (MQTTSuccess, mkPacketInfo MQTT_PACKET_TYPE_PUBLISH NULL 64)
         (final (receive_header strict the_socket publish_arrives))
  /\ Z.land MQTT_PACKET_TYPE_PUBLISH 0xf0 = MQTT_PACKET_TYPE_PUBLISH
  /\ session_state (final (prvMQTTProcessIncomingPacket strict the_socket publish_arrives))
     = session_state publish_arrives.
Proof.
  assert (receive_header strict the_socket publish_arrives
          = Done (MQTTSuccess, mkPacketInfo MQTT_PACKET_TYPE_PUBLISH NULL 64)
                 (final (receive_header strict the_socket publish_arrives))) as H
    by (vm_compute; reflexivity).
  split; [exact H|]. split; [reflexivity|].
  apply (incoming_publish_leaves_session Wire strict the_socket _ _ _ _ H eq_refl).
Defined.

(** The echoed PUBLISH of the demo is recognised as the subscribed topic. *)
Example echoed_publish_matches :
  calls (final (prvMQTTProcessIncomingPacket strict the_socket publish_arrives))
  = [CallRecv the_socket 1; CallRecv the_socket 1; CallRecv the_socket 64;
     CallLog "Incoming QoS : %d\n"; CallLog topic_matches_line].
Proof. vm_compute. reflexivity. Qed.


(** ** The further properties on the scripted broker *)

(** With the broker out of reach the connection step gives up after the
    five attempts that a ceiling of four retries allows, each followed by a
    back-off. *)
Example unreachable_broker_exhausts_the_retries :
  let run := prvConnectToServerWithBackoffRetries strict 5 no_broker in
  run = Done (FREERTOS_INVALID_SOCKET Wire tcp) (final run)
  /\ attempts (calls (final run)) = 5%nat
  /\ backoffs (calls (final run)) = 5%nat
  /\ closed (calls (final run))
     = [the_socket; the_socket; the_socket; the_socket; the_socket].
Proof. vm_compute. repeat split; reflexivity. Qed.

(** The first connection of the scripted session succeeds at once. *)
Lemma connection_retries_witness :
  prvConnectToServerWithBackoffRetries strict 5 before_session
  = Done the_socket (final (prvConnectToServerWithBackoffRetries strict 5 before_session))
  /\ exists l w,
       final (prvConnectToServerWithBackoffRetries strict 5 before_session)
       = after_calls l w before_session
       /\ sends l = 0%nat /\ recvs l = 0%nat.
Proof.
  assert (prvConnectToServerWithBackoffRetries strict 5 before_session
          = Done the_socket
              (final (prvConnectToServerWithBackoffRetries strict 5 before_session)))
    as H by (vm_compute; reflexivity).
  split; [exact H|].
  destruct (connection_retries Wire strict 5 before_session _ _ H)
    as (l & w & Hs & Hn & Hr & _).
  exists l, w. split; [exact Hs|]. split; [exact Hn|exact Hr].
Defined.

(** With the broker out of reach the pass stops at the assertion on the
    socket. *)
Lemma no_session_without_connection_witness :
  prvConnectToServerWithBackoffRetries strict 5 no_broker
  = Done (FREERTOS_INVALID_SOCKET Wire tcp)
      (final (prvConnectToServerWithBackoffRetries strict 5 no_broker))
  /\ prvMQTTDemoTask_iteration strict 5 no_broker
     = Stop AssertFailed (final (prvConnectToServerWithBackoffRetries strict 5 no_broker))
  /\ sends (calls (final (prvConnectToServerWithBackoffRetries strict 5 no_broker)))
     = sends (calls no_broker).
Proof.
  assert (prvConnectToServerWithBackoffRetries strict 5 no_broker
          = Done (FREERTOS_INVALID_SOCKET Wire tcp)
              (final (prvConnectToServerWithBackoffRetries strict 5 no_broker)))
    as H by (vm_compute; reflexivity).
  split; [exact H|].
  destruct (no_session_without_connection Wire strict 5 no_broker _ H)
    as (Hrun & _ & Hsends & _).
  split; [exact Hrun|exact Hsends].
Defined.

(** The echoed PUBLISH: once its header is read, the dispatcher receives
    its 64 remaining bytes and logs. *)
Lemma dispatcher_receives_and_logs_witness :
  receive_header strict the_socket publish_arrives
  = Done (MQTTSuccess, mkPacketInfo MQTT_PACKET_TYPE_PUBLISH NULL 64)
         (final (receive_header strict the_socket publish_arrives))
  /\ exists l,
       calls (final (prvMQTTProcessIncomingPacket strict the_socket publish_arrives))
       = calls (final (receive_header strict the_socket publish_arrives)) ++ l
       /\ forallb (body_read the_socket MQTTSuccess
                     (mkPacketInfo MQTT_PACKET_TYPE_PUBLISH NULL 64)) l = true.
Proof.
  assert (receive_header strict the_socket publish_arrives
          = Done (MQTTSuccess, mkPacketInfo MQTT_PACKET_TYPE_PUBLISH NULL 64)
                 (final (receive_header strict the_socket publish_arrives))) as H
    by (vm_compute; reflexivity).
  split; [exact H|].
  destruct (dispatcher_receives_and_logs Wire strict the_socket) as (_ & Hafter).
  apply (Hafter _ _ _ _ H).
Defined.

(** The scripted session, from its connection on, stays on the socket of
    that connection. *)
Lemma session_stays_on_its_socket_witness :
  prvConnectToServerWithBackoffRetries strict 5 before_session
  = Done the_socket (final (prvConnectToServerWithBackoffRetries strict 5 before_session))
  /\ exists l,
       calls (final (prvMQTTDemoTask_iteration strict 5 before_session))
       = calls (final (prvConnectToServerWithBackoffRetries strict 5 before_session)) ++ l
       /\ forallb (on_socket the_socket) l = true.
Proof.
  assert (prvConnectToServerWithBackoffRetries strict 5 before_session
          = Done the_socket
              (final (prvConnectToServerWithBackoffRetries strict 5 before_session)))
    as H by (vm_compute; reflexivity).
  split; [exact H|].
  apply (session_stays_on_its_socket Wire strict the_socket 5 before_session _ H).
Defined.

(** The first SUBSCRIBE of the task carries the identifier 1. *)
Lemma subscribe_packet_carries_remembered_identifier_witness :
  prvMQTTSubscribeToTopic strict the_socket nothing_arrives
  = Done tt (final (prvMQTTSubscribeToTopic strict the_socket nothing_arrives))
  /\ usSubscribePacketIdentifier
       (final (prvMQTTSubscribeToTopic strict the_socket nothing_arrives)) = 1.
Proof.
  assert (prvMQTTSubscribeToTopic strict the_socket nothing_arrives
          = Done tt (final (prvMQTTSubscribeToTopic strict the_socket nothing_arrives)))
    as H by (vm_compute; reflexivity).
  split; [exact H|].
  destruct (subscribe_packet_carries_remembered_identifier Wire strict _ _ _ H)
    as (_ & _ & _ & _ & Hid & _).
  rewrite Hid. reflexivity.
Defined.

(** An UNSUBSCRIBE as the first packet of the task carries the identifier
    1. *)
Lemma unsubscribe_packet_carries_remembered_identifier_witness :
  prvMQTTUnsubscribeFromTopic strict the_socket nothing_arrives
  = Done tt (final (prvMQTTUnsubscribeFromTopic strict the_socket nothing_arrives))
  /\ usUnsubscribePacketIdentifier
       (final (prvMQTTUnsubscribeFromTopic strict the_socket nothing_arrives)) = 1.
Proof.
  assert (prvMQTTUnsubscribeFromTopic strict the_socket nothing_arrives
          = Done tt (final (prvMQTTUnsubscribeFromTopic strict the_socket nothing_arrives)))
    as H by (vm_compute; reflexivity).
  split; [exact H|].
  destruct (unsubscribe_packet_carries_remembered_identifier Wire strict _ _ _ H)
    as (_ & _ & _ & _ & Hid & _).
  rewrite Hid. reflexivity.
Defined.

(** A PUBLISH on the scripted platform leaves the session state alone. *)
Lemma publish_goes_out_in_two_sends_witness :
  prvMQTTPublishToTopic strict the_socket nothing_arrives
  = Done tt (final (prvMQTTPublishToTopic strict the_socket nothing_arrives))
  /\ session_state (final (prvMQTTPublishToTopic strict the_socket nothing_arrives))
     = session_state nothing_arrives.
Proof.
  assert (prvMQTTPublishToTopic strict the_socket nothing_arrives
          = Done tt (final (prvMQTTPublishToTopic strict the_socket nothing_arrives)))
    as H by (vm_compute; reflexivity).
  split; [exact H|].
  destruct (publish_goes_out_in_two_sends Wire strict _ _ _ H) as (header & _ & _ & Hs).
  exact Hs.
Defined.

(** The two sends of a PUBLISH on the scripted platform: the header with
    the topic, and the message. *)
Example scripted_publish_sends :
  calls (final (prvMQTTPublishToTopic strict the_socket nothing_arrives))
  = [CallSend the_socket ([0x30; 64; 0; 32] ++ topic);
     CallSend the_socket message].
Proof. vm_compute. reflexivity. Qed.

(** A PINGREQ on the scripted platform leaves the session state alone. *)
Lemma pingreq_and_disconnect_take_one_send_witness :
  prvMQTTKeepAlive strict the_socket nothing_arrives
  = Done tt (final (prvMQTTKeepAlive strict the_socket nothing_arrives))
  /\ session_state (final (prvMQTTKeepAlive strict the_socket nothing_arrives))
     = session_state nothing_arrives.
Proof.
  assert (prvMQTTKeepAlive strict the_socket nothing_arrives
          = Done tt (final (prvMQTTKeepAlive strict the_socket nothing_arrives)))
    as H by (vm_compute; reflexivity).
  split; [exact H|].
  destruct (pingreq_and_disconnect_take_one_send Wire strict the_socket
              nothing_arrives
              (final (prvMQTTKeepAlive strict the_socket nothing_arrives)))
    as (Hping & _).
  destruct (Hping H) as (_ & _ & Hs). exact Hs.
Defined.

(** Call number 65535 of the allocator, counted from 0, is the first to
    return an identifier again: 1. *)
Lemma identifiers_have_period_65535_witness :
  usPacketId before_session = 0
  /\ (Z.to_nat 65535 < Z.to_nat 65536)%nat
  /\ issue (Z.to_nat 65536) before_session !! Z.to_nat 65535 = Some 1.
Proof.
  assert (usPacketId before_session = 0) as Hzero by reflexivity.
  assert (Z.to_nat 65535 < Z.to_nat 65536)%nat as Hk by lia.
  split; [exact Hzero|]. split; [exact Hk|].
  destruct (identifiers_have_period_65535 Wire (Z.to_nat 65536) (Z.to_nat 65535)
              before_session Hzero Hk) as (Hid & _).
  rewrite Hid. reflexivity.
Defined.

(** After two scripted sessions the remembered identifiers are 3 and 4. *)
Lemma rounds_advance_the_identifiers_witness :
  let s := start true 1 [session 1 2; session 3 4] in
  prvMQTTDemoTask strict 2 5 s = Done tt (final (prvMQTTDemoTask strict 2 5 s))
  /\ (1 <= 2)%nat
  /\ usPacketId s = 0
  /\ usSubscribePacketIdentifier (final (prvMQTTDemoTask strict 2 5 s)) = 3
  /\ usUnsubscribePacketIdentifier (final (prvMQTTDemoTask strict 2 5 s)) = 4.
Proof.
  intros s.
  assert (prvMQTTDemoTask strict 2 5 s = Done tt (final (prvMQTTDemoTask strict 2 5 s)))
    as H by (vm_compute; reflexivity).
  assert (1 <= 2)%nat as Hr by lia.
  assert (usPacketId s = 0) as Hzero by reflexivity.
  split; [exact H|]. split; [exact Hr|]. split; [exact Hzero|].
  destruct (rounds_advance_the_identifiers Wire strict 2 5 s _ H Hr Hzero)
    as (Hs & Hu & _).
  split; [rewrite Hs|rewrite Hu]; reflexivity.
Defined.

(** The SUBACK that grants the subscription with identifier 1 is accepted:
    the decoder reports success and the identifier 1. *)
Lemma suback_is_accepted_only_when_witness :
  let pkt := mkPacketInfo MQTT_PACKET_TYPE_SUBACK NULL 3 in
  let s' := final (prvMQTTProcessIncomingPacket strict the_socket suback_arrives) in
  receive_header strict the_socket suback_arrives
  = Done (MQTTSuccess, pkt) (final (receive_header strict the_socket suback_arrives))
  /\ MQTTSuccess <> MQTTNoDataAvailable
  /\ type pkt = MQTT_PACKET_TYPE_SUBACK
  /\ prvMQTTProcessIncomingPacket strict the_socket suback_arrives = Done tt s'
  /\ (mqtt_DeserializeAck (codec true)
        (mkPacketInfo MQTT_PACKET_TYPE_SUBACK (Buf 0) 3) (ucSharedBuffer s') false).1.2
     = usSubscribePacketIdentifier suback_arrives
  /\ flags s' = [true].
Proof.
  intros pkt s'.
  assert (receive_header strict the_socket suback_arrives
          = Done (MQTTSuccess, pkt)
              (final (receive_header strict the_socket suback_arrives))) as Hhdr
    by (vm_compute; reflexivity).
  assert (MQTTSuccess <> MQTTNoDataAvailable) as Hdata by discriminate.
  assert (prvMQTTProcessIncomingPacket strict the_socket suback_arrives = Done tt s')
    as Hrun by (vm_compute; reflexivity).
  split; [exact Hhdr|]. split; [exact Hdata|]. split; [reflexivity|].
  split; [exact Hrun|].
  destruct (suback_is_accepted_only_when Wire strict the_socket suback_arrives
              _ _ _ _ Hhdr Hdata eq_refl Hrun) as (_ & _ & _ & Hid & _).
  split; [exact Hid|]. vm_compute. reflexivity.
Defined.

(** With the flag of the one filter not set, the inspection backs off
    once. *)
Lemma one_backoff_per_pass_witness :
  let p := new_retry_params strict in
  let run := retry_if_rejected strict 0 1 false RetryUtilsSuccess p nothing_arrives in
  run = Done (true, RetryUtilsSuccess, mkRetryParams 4 1 0) (final run)
  /\ calls (final run)
     = [CallLog "Server rejected subscription request. Attempting to re-subscribe to topic %s.";
        CallBackoff].
Proof.
  intros p run.
  assert (run = Done (true, RetryUtilsSuccess, mkRetryParams 4 1 0) (final run)) as H
    by (vm_compute; reflexivity).
  split; [exact H|].
  destruct (one_backoff_per_pass Wire strict 1 0 false RetryUtilsSuccess p
              nothing_arrives _ _ H)
    as [(_ & _ & Hall)|(j & e & _ & _ & _ & _ & Hs & _)].
  - exfalso.
    specialize (Hall 0%nat (mkTopicFilterContext (Lit (mqttexampleTOPIC Scripted.cfg)) false)
                  ltac:(lia) eq_refl).
    discriminate Hall.
  - rewrite Hs. reflexivity.
Defined.

(** A packet that ends behind its first byte: the header read fails, and
    the dispatcher stops at the assertion on its status. *)
Lemma dispatcher_stops_before_the_decoder_witness :
  receive_header strict the_socket broken_header_arrives
  = Done (MQTTRecvFailed, mkPacketInfo MQTT_PACKET_TYPE_SUBACK NULL 0)
      (final (receive_header strict the_socket broken_header_arrives))
  /\ MQTTRecvFailed <> MQTTNoDataAvailable
  /\ MQTTRecvFailed <> MQTTSuccess
  /\ prvMQTTProcessIncomingPacket strict the_socket broken_header_arrives
     = Stop AssertFailed (final (receive_header strict the_socket broken_header_arrives)).
Proof.
  assert (receive_header strict the_socket broken_header_arrives
          = Done (MQTTRecvFailed, mkPacketInfo MQTT_PACKET_TYPE_SUBACK NULL 0)
              (final (receive_header strict the_socket broken_header_arrives))) as H
    by (vm_compute; reflexivity).
  assert (MQTTRecvFailed <> MQTTNoDataAvailable) as Hdata by discriminate.
  assert (MQTTRecvFailed <> MQTTSuccess) as Hbad by discriminate.
  split; [exact H|]. split; [exact Hdata|]. split; [exact Hbad|].
  destruct (dispatcher_stops_before_the_decoder Wire strict the_socket _ _ _ _ H Hdata)
    as (Hstop & _).
  apply Hstop. left. exact Hbad.
Defined.

(** A PINGRESP descriptor handed to the tracker fails its first
    assertion. *)
Lemma suback_tracker_checks_its_descriptor_witness :
  let pkt := mkPacketInfo MQTT_PACKET_TYPE_PINGRESP NULL 0 in
  type pkt <> MQTT_PACKET_TYPE_SUBACK
  /\ prvMQTTUpdateSubAckStatus pkt nothing_arrives = Stop AssertFailed nothing_arrives.
Proof.
  intros pkt.
  assert (type pkt <> MQTT_PACKET_TYPE_SUBACK) as Ht by discriminate.
  split; [exact Ht|].
  destruct (suback_tracker_checks_its_descriptor Wire pkt nothing_arrives) as (Hstop & _).
  apply Hstop. left. exact Ht.
Defined.
End OnTheScriptedBroker.
